(** * Letter generator: a shallow embedding of [core/backend.py] and
    [core/funcionalidades.py], with the properties of the specification.

    Conventions of the embedding.
    - A Python [str] is a [string]; a [dict] whose iteration order matters
      (the token table, [SYNONYMS]) is an insertion-ordered association
      list; a [dict] that is only looked up, inserted into and measured
      ([mapping], [placeholders_per_group], [outputs], [errors]) is a
      [gmap] with string keys.
    - A python-docx document is a value: the body paragraphs and the
      body tables; a table is its grid column count and its rows; a row is
      a list of cells, a cell a list of paragraphs, a paragraph a list of
      runs, a run a text with its formatting properties.  In-place mutation
      becomes state passing, exceptions become the left summand of a sum.
    - Library functions whose behaviour is fixed outside the repository
      (the [unidecode] table, Unicode aware [str.lower] and [str.strip],
      [str] of a float or of a timestamp, the lenient pandas date parser,
      the text python-docx and lxml store for a cell) are the fields of the
      class [PyLib]; [ascii_lib] is an instance for ASCII text. *)

From Stdlib Require Import ZArith QArith String Ascii List Bool Permutation Sorted Lia DecimalString.
From stdpp Require Import gmap strings list.

Local Open Scope string_scope.
Local Open Scope Z_scope.

(** ** Python strings *)

Module PyStr.

(** [s.startswith(k)], the test the scanning loops below rely on. *)
Fixpoint startswith (k s : string) : bool :=
  match k, s with
  | EmptyString, _ => true
  | String a k', String b s' => if Ascii.eqb a b then startswith k' s' else false
  | String _ _, EmptyString => false
  end.

(** [k in s] for two strings: [k] occurs in [s] as a substring. *)
Fixpoint contains (k s : string) : bool :=
  startswith k s ||
  match s with
  | EmptyString => false
  | String _ s' => contains k s'
  end.

(** [s[n:]]. *)
Fixpoint drop (n : nat) (s : string) : string :=
  match n, s with
  | O, _ => s
  | S n', String _ s' => drop n' s'
  | S _, EmptyString => EmptyString
  end.

(** The scanning loop of [str.replace] for a non-empty pattern: [skip]
    counts the characters of a matched occurrence still to be passed over;
    at [skip = 0] the leftmost occurrence is taken, so occurrences are
    replaced left to right without overlap. *)
Fixpoint replace_scan (old new : string) (skip : nat) (s : string) : string :=
  match s with
  | EmptyString => EmptyString
  | String c s' =>
      match skip with
      | S k => replace_scan old new k s'
      | O =>
          if startswith old s
          then new ++ replace_scan old new (Nat.pred (String.length old)) s'
          else String c (replace_scan old new 0 s')
      end
  end.

(** With an empty pattern [str.replace] puts [new] before every character
    and at the end. *)
Fixpoint interleave (new s : string) : string :=
  match s with
  | EmptyString => new
  | String c s' => new ++ String c (interleave new s')
  end.

(** [s.replace(old, new)]. *)
Definition replace (old new s : string) : string :=
  match old with
  | EmptyString => interleave new s
  | String _ _ => replace_scan old new 0 s
  end.

(** [sep.join(parts)]. *)
Fixpoint join (sep : string) (parts : list string) : string :=
  match parts with
  | [] => ""
  | [x] => x
  | x :: rest => x ++ sep ++ join sep rest
  end.

(** ["".join(parts)]. *)
Definition concat (parts : list string) : string :=
  fold_right String.append "" parts.

(** The character occurs in the string. *)
Fixpoint has_char (c : ascii) (s : string) : bool :=
  match s with
  | EmptyString => false
  | String a s' => Ascii.eqb a c || has_char c s'
  end.

End PyStr.

(** ** The python-docx object model *)

(** A run: its text and its formatting properties (the [w:rPr] element,
    kept opaque). *)
Record Run := mkRun { run_text : string; run_rPr : string }.

Definition Paragraph := list Run.
Definition Cell := list Paragraph.
Definition Row := list Cell.

(** A table: [len(table.columns)] is the number of grid columns, which the
    rows need not agree with. *)
Record Table := mkTable { columns : nat; rows : list Row }.

(** [doc.paragraphs] and [doc.tables]: the paragraphs and the tables of the
    document body. *)
Record Document := mkDocument { paragraphs : list Paragraph; tables : list Table }.

(** Exceptions the modelled code raises, with [str(e)]. *)
Inductive Exn :=
| RuntimeError (msg : string)
| ValueError (msg : string)
| KeyError (msg : string)
| IndexError (msg : string).

Definition exn_str (e : Exn) : string :=
  match e with
  | RuntimeError m | ValueError m | IndexError m => m
  | KeyError m => "'" ++ m ++ "'"
  end.

(** [paragraph.text]. *)
Definition paragraph_text (p : Paragraph) : string :=
  PyStr.concat (map run_text p).

(** [cell.text]: the paragraphs' texts joined by a newline. *)
Definition cell_text (c : Cell) : string :=
  PyStr.join (String "010" "") (map paragraph_text c).

(** [run.text = s]: the formatting stays. *)
Definition set_run_text (s : string) (r : Run) : Run :=
  {| run_text := s; run_rPr := run_rPr r |}.

(** [p.add_run(s)]: a new run without formatting properties. *)
Definition add_run (s : string) (p : Paragraph) : Paragraph :=
  (p ++ [ {| run_text := s; run_rPr := "" |} ])%list.

(** The cell [table.add_row()] creates: one empty paragraph. *)
Definition empty_cell : Cell := [ [] ].

(** [table.add_row()]: one empty cell per grid column. *)
Definition new_row (t : Table) : Row := replicate (columns t) empty_cell.

(** ** The placeholder engine ([funcionalidades.py]) *)

(** [f"{{{{{k}}}}}"]: the key between two pairs of braces. *)
Definition token_of (k : string) : string := "{{" ++ k ++ "}}".

(** [tokens = {token_of k: str(v) for k, v in mapping.items()}]; the keys of
    a dict are distinct and [token_of] is injective, so the comprehension
    keeps the entries and their order. *)
Definition make_tokens (mapping : list (string * string)) : list (string * string) :=
  map (fun kv => (token_of (fst kv), snd kv)) mapping.

(** The loop [for k, v in tokens.items(): if k in full: ...] of the
    run-normalising branch, threading [full] and [changed]. *)
Fixpoint replace_tokens (tokens : list (string * string)) (full : string) (changed : bool)
  : string * bool :=
  match tokens with
  | [] => (full, changed)
  | (k, v) :: rest =>
      if PyStr.contains k full
      then replace_tokens rest (PyStr.replace k v full) true
      else replace_tokens rest full changed
  end.

(** The inner loop of the per-run branch ([normalize_runs=False]). *)
Fixpoint replace_in_text (tokens : list (string * string)) (txt : string) : string :=
  match tokens with
  | [] => txt
  | (k, v) :: rest =>
      if PyStr.contains k txt
      then replace_in_text rest (PyStr.replace k v txt)
      else replace_in_text rest txt
  end.

(** [_replace_in_paragraph(p)], closed over [tokens] and [normalize_runs]. *)
Definition _replace_in_paragraph (tokens : list (string * string)) (normalize_runs : bool)
    (p : Paragraph) : Paragraph :=
  match tokens with
  | [] => p
  | _ :: _ =>
      if normalize_runs then
        let '(full, changed) := replace_tokens tokens (paragraph_text p) false in
        if changed then
          match p with
          | [] => add_run full p
          | r0 :: later => set_run_text full r0 :: map (set_run_text "") later
          end
        else p
      else map (fun r => set_run_text (replace_in_text tokens (run_text r)) r) p
  end.

(** [_replace_placeholders_runsafe(doc, mapping, normalize_runs)]: the body
    paragraphs, then the paragraphs of every cell of every row of every
    table. *)
Definition _replace_placeholders_runsafe (doc : Document) (mapping : list (string * string))
    (normalize_runs : bool) : Document :=
  let tokens := make_tokens mapping in
  let on_p := _replace_in_paragraph tokens normalize_runs in
  {| paragraphs := map on_p (paragraphs doc);
     tables := map (fun t => {| columns := columns t;
                                rows := map (map (map on_p)) (rows t) |}) (tables doc) |}.

(** ** Cell values and library functions *)

(** A pandas timestamp: nanoseconds since 1970-01-01, a signed 64-bit
    integer whose least value is reserved for [NaT]. *)
Definition Timestamp := Z.

(** A cell of a frame as pandas hands it over: missing ([None], [NaN],
    [NaT]: whatever [pd.isna] accepts), a Python [int], a finite [float]
    (a rational), a [str], or a [Timestamp] (a date cell of the sheet, a
    value of the column [_FECHA_TS]). *)
Inductive Value :=
| VNone
| VInt (n : Z)
| VFloat (q : Q)
| VStr (s : string)
| VTs (t : Timestamp).

(** [pd.isna(val)]. *)
Definition isna (v : Value) : bool :=
  match v with VNone => true | _ => false end.

(** Functions of Python, [unidecode], pandas and python-docx that the
    repository calls and does not define. *)
Class PyLib := {
  (** [unidecode.unidecode]: transliteration to ASCII *)
  unidecode : string -> string;
  (** [str.lower] *)
  str_lower : string -> string;
  (** [str.strip] *)
  str_strip : string -> string;
  (** [str] of a float *)
  float_str : Q -> string;
  (** [pd.to_datetime(val, dayfirst=True, errors="coerce")], with [NaT] and a
      raised exception both read as [None] *)
  to_datetime_dayfirst : Value -> option Timestamp;
  (** [str] of a pandas [Timestamp] *)
  timestamp_str : Timestamp -> string;
  (** [run.text = s] of python-docx, which is what [cell.text = s] ends
      with: the text the run then reads back, [None] when lxml refuses the
      text with its [ValueError] *)
  docx_text : string -> option string;
}.

(** ASCII white space, as [str.isspace] and the pattern [\s] see it. *)
Definition is_space (c : ascii) : bool :=
  let n := nat_of_ascii c in
  ((9 <=? n)%nat && (n <=? 13)%nat) || ((28 <=? n)%nat && (n <=? 32)%nat).

Definition is_upper (c : ascii) : bool :=
  let n := nat_of_ascii c in (65 <=? n)%nat && (n <=? 90)%nat.

Definition is_lower (c : ascii) : bool :=
  let n := nat_of_ascii c in (97 <=? n)%nat && (n <=? 122)%nat.

Definition is_digit (c : ascii) : bool :=
  let n := nat_of_ascii c in (48 <=? n)%nat && (n <=? 57)%nat.

Definition map_string (f : ascii -> ascii) : string -> string :=
  fix go s := match s with EmptyString => EmptyString | String c s' => String (f c) (go s') end.

Definition filter_string (f : ascii -> bool) : string -> string :=
  fix go s :=
    match s with
    | EmptyString => EmptyString
    | String c s' => if f c then String c (go s') else go s'
    end.

(** Every character of the text satisfies the test. *)
Fixpoint all_chars (f : ascii -> bool) (s : string) : bool :=
  match s with
  | EmptyString => true
  | String c s' => f c && all_chars f s'
  end.

Fixpoint lstrip (s : string) : string :=
  match s with
  | String c s' => if is_space c then lstrip s' else s
  | EmptyString => EmptyString
  end.

Fixpoint rstrip (s : string) : string :=
  match s with
  | EmptyString => EmptyString
  | String c s' =>
      match rstrip s' with
      | EmptyString => if is_space c then EmptyString else String c EmptyString
      | r => String c r
      end
  end.

Definition ascii_lower (c : ascii) : ascii :=
  if is_upper c then ascii_of_nat (nat_of_ascii c + 32) else c.

(** [str(val)] for a cell that is not missing. *)
Definition py_str `{PyLib} (v : Value) : string :=
  match v with
  | VNone => "None"
  | VInt n => NilZero.string_of_int (Z.to_int n)
  | VFloat q => float_str q
  | VStr s => s
  | VTs t => timestamp_str t
  end.

(** ** Normalisation ([backend.py]) *)

(** [re.sub(r"\s+", " ", s)]: every maximal run of white space becomes one
    blank; [in_ws] tells that the previous character was white space. *)
Fixpoint collapse_ws (in_ws : bool) (s : string) : string :=
  match s with
  | EmptyString => EmptyString
  | String c s' =>
      if is_space c
      then (if in_ws then collapse_ws true s' else String " " (collapse_ws true s'))
      else String c (collapse_ws false s')
  end.

(** [_norm(s)]. *)
Definition _norm `{PyLib} (s : string) : string :=
  collapse_ws false (unidecode (str_lower (str_strip s))).

(** The class [A-Za-z0-9_\- ] of [slugify]. *)
Definition slug_char (c : ascii) : bool :=
  is_upper c || is_lower c || is_digit c
  || Ascii.eqb c "_" || Ascii.eqb c "-" || Ascii.eqb c " ".

(** [slugify(text)]. *)
Definition slugify `{PyLib} (text : string) : string :=
  let s := unidecode (str_strip text) in
  let s := filter_string slug_char s in
  let s := PyStr.replace " " "_" (str_strip s) in
  match s with
  | EmptyString => "SIN_GRUPO"
  | _ => s
  end.

(** ** Column mapping ([backend.py]) *)

Definition SYNONYMS : list (string * list string) :=
  [ ("actor",
      ["actor"; "columna a"; "a"; "interesado"; "responsable"; "nombre del actor"]);
    ("grupo",
      ["dependencia"; "secretaria"; "secretaría"; "secretaria de"; "entidad"; "despacho";
       "direccion"; "dirección"; "institucion"; "institución"; "dependencia/entidad";
       "institucional"; "grupo"; "responsable"]);
    ("mesa",
      ["nombre de la mesa"; "nombre mesa"; "mesa"; "tema"; "asunto"; "nombre mesa/tema";
       "nombre"; "actividad"]);
    ("nivel",
      ["nivel"; "nivel de la mesa"; "compromiso"; "tipo"; "categoria"; "categoría"]);
    ("fecha",
      ["fecha"; "fecha mesa"; "fecha programada"; "dia"; "día"; "dia mesa";
       "fecha de realizacion"; "fecha de realización"; "fecha programada mesa"]);
    ("dato",
      ["dato transformador"; "dato"; "transformador"; "descripcion dato";
       "descripción dato"; "datos transformadores"; "resultado esperado"]) ].

Definition EXPECTED_HEADERS : list string :=
  ["nombre de la mesa"; "nivel"; "fecha"; "dato transformador"].

(** The keys of a dict built by inserting the elements of [l] in turn: each
    key stays where it was first inserted. *)
Fixpoint dict_keys (l : list string) : list string :=
  match l with
  | [] => []
  | c :: l' => c :: List.filter (fun x => negb (String.eqb x c)) (dict_keys l')
  end.

(** [cols_norm = {c: _norm(c) for c in df.columns}], as its items. *)
Definition cols_norm `{PyLib} (df_columns : list string) : list (string * string) :=
  map (fun c => (c, _norm c)) (dict_keys df_columns).

(** The list [exact] of [guess_mapping]: [cn in alias_list]. *)
Definition exact_matches (cn : list (string * string)) (alias_list : list string) : list string :=
  map fst (List.filter (fun p => existsb (String.eqb (snd p)) alias_list) cn).

(** The list [partial] of [guess_mapping]: [any(a in cn for a in alias_list)]. *)
Definition partial_matches (cn : list (string * string)) (alias_list : list string) : list string :=
  map fst (List.filter (fun p => existsb (fun a => PyStr.contains a (snd p)) alias_list) cn).

(** One turn of the loop over [SYNONYMS.items()]. *)
Definition guess_role (cn : list (string * string)) (mapping : gmap string (option string))
    (entry : string * list string) : gmap string (option string) :=
  let '(role, alias_list) := entry in
  match exact_matches cn alias_list with
  | c :: _ => <[role := Some c]> mapping
  | [] =>
      match partial_matches cn alias_list with
      | c :: _ => <[role := Some c]> mapping
      | [] => mapping
      end
  end.

Definition GROUP_KEYWORDS : list string :=
  ["entidad"; "secretaria"; "secretaría"; "dependencia"; "despacho"; "grupo"].

(** The fallback loop for the group role: the first header containing one of
    the keywords. *)
Definition group_fallback (cn : list (string * string)) : option string :=
  match List.filter (fun p => existsb (fun x => PyStr.contains x (snd p)) GROUP_KEYWORDS) cn with
  | p :: _ => Some (fst p)
  | [] => None
  end.

(** [guess_mapping(df)], from the headers of the frame. *)
Definition guess_mapping `{PyLib} (df_columns : list string) : gmap string (option string) :=
  let cn := cols_norm df_columns in
  let mapping0 : gmap string (option string) :=
    list_to_map (map (fun k => (k, None)) ["actor"; "mesa"; "nivel"; "fecha"; "dato"; "grupo"]) in
  let mapping := foldl (guess_role cn) mapping0 SYNONYMS in
  match mapping !! "grupo" with
  | Some None =>
      match group_fallback cn with
      | Some c => <["grupo" := Some c]> mapping
      | None => mapping
      end
  | _ => mapping
  end.

(** ** Dates ([backend.py]) *)

Definition NS_PER_DAY : Z := 86400 * 1000000000.

(** The values a 64-bit pandas timestamp or timedelta can hold. *)
Definition in_int64 (x : Z) : bool :=
  (- 2 ^ 63 <? x) && (x <=? 2 ^ 63 - 1).

(** Days from 1970-01-01 to the given day of the proleptic Gregorian
    calendar. *)
Definition days_from_civil (y m d : Z) : Z :=
  let y' := if m <=? 2 then y - 1 else y in
  let era := y' / 400 in
  let yoe := y' - era * 400 in
  let mp := if m <=? 2 then m + 9 else m - 3 in
  let doy := (153 * mp + 2) / 5 + d - 1 in
  let doe := yoe * 365 + yoe / 4 - yoe / 100 + doy in
  era * 146097 + doe - 719468.

(** The inverse: year, month and day of a day number. *)
Definition civil_from_days (z : Z) : Z * Z * Z :=
  let z' := z + 719468 in
  let era := z' / 146097 in
  let doe := z' - era * 146097 in
  let yoe := (doe - doe / 1460 + doe / 36524 - doe / 146096) / 365 in
  let doy := doe - (365 * yoe + yoe / 4 - yoe / 100) in
  let mp := (5 * doy + 2) / 153 in
  let d := doy - (153 * mp + 2) / 5 + 1 in
  let m := if mp <? 10 then mp + 3 else mp - 9 in
  let y := yoe + era * 400 in
  (if m <=? 2 then y + 1 else y, m, d).

Definition is_leap (y : Z) : bool :=
  ((y mod 4 =? 0) && negb (y mod 100 =? 0)) || (y mod 400 =? 0).

Definition days_in_month (y m : Z) : Z :=
  if m =? 2 then (if is_leap y then 29 else 28)
  else if (m =? 4) || (m =? 6) || (m =? 9) || (m =? 11) then 30
  else 31.

(** [pd.to_datetime("1899-12-30")]. *)
Definition EXCEL_EPOCH : Timestamp := days_from_civil 1899 12 30 * NS_PER_DAY.

(** [int(val)] for a number: truncation towards zero. *)
Definition py_int (v : Value) : option Z :=
  match v with
  | VInt n => Some n
  | VFloat q => Some (Z.quot (Qnum q) (Zpos (Qden q)))
  | _ => None
  end.

(** The [try] block for Excel serial numbers: [pd.to_timedelta] and the
    addition both raise when the result leaves the 64-bit range; [None]
    stands for "not a number, or an exception was swallowed". *)
Definition serial_to_timestamp (val : Value) : option Timestamp :=
  match py_int val with
  | Some n =>
      let delta := n * NS_PER_DAY in
      if in_int64 delta && in_int64 (EXCEL_EPOCH + delta)
      then Some (EXCEL_EPOCH + delta)
      else None
  | None => None
  end.

(** The directives of the six formats. *)
Inductive Directive := DY | Dm | Dd | Lit (c : ascii).

Definition digit_val (c : ascii) : Z := Z.of_nat (nat_of_ascii c) - 48.

Definition in_range (lo hi c : ascii) : bool :=
  (nat_of_ascii lo <=? nat_of_ascii c)%nat && (nat_of_ascii c <=? nat_of_ascii hi)%nat.

(** The alternatives of the pattern [strptime] compiles for [%d], in the
    order of the pattern: [3[0-1]|[1-2]\d|0[1-9]|[1-9]| [1-9]]; each yields
    the number read and the text left. *)
Definition cands_d (s : string) : list (Z * string) :=
  match s with
  | String a (String b r) =>
      (if Ascii.eqb a "3" && in_range "0" "1" b then [(30 + digit_val b, r)] else []) ++
      (if in_range "1" "2" a && is_digit b then [(10 * digit_val a + digit_val b, r)] else []) ++
      (if Ascii.eqb a "0" && in_range "1" "9" b then [(digit_val b, r)] else []) ++
      (if in_range "1" "9" a then [(digit_val a, String b r)] else []) ++
      (if Ascii.eqb a " " && in_range "1" "9" b then [(digit_val b, r)] else [])
  | String a EmptyString =>
      if in_range "1" "9" a then [(digit_val a, EmptyString)] else []
  | EmptyString => []
  end%list.

(** [%m]: [1[0-2]|0[1-9]|[1-9]]. *)
Definition cands_m (s : string) : list (Z * string) :=
  match s with
  | String a (String b r) =>
      (if Ascii.eqb a "1" && in_range "0" "2" b then [(10 + digit_val b, r)] else []) ++
      (if Ascii.eqb a "0" && in_range "1" "9" b then [(digit_val b, r)] else []) ++
      (if in_range "1" "9" a then [(digit_val a, String b r)] else [])
  | String a EmptyString =>
      if in_range "1" "9" a then [(digit_val a, EmptyString)] else []
  | EmptyString => []
  end%list.

(** [%Y]: four digits. *)
Definition cands_Y (s : string) : list (Z * string) :=
  match s with
  | String a (String b (String c (String d r))) =>
      if is_digit a && is_digit b && is_digit c && is_digit d
      then [(1000 * digit_val a + 100 * digit_val b + 10 * digit_val c + digit_val d, r)]
      else []
  | _ => []
  end.

(** The first alternative, in order, with which the rest matches. *)
Fixpoint first_some {A B : Type} (f : A -> option B) (l : list A) : option B :=
  match l with
  | [] => None
  | x :: l' => match f x with Some y => Some y | None => first_some f l' end
  end.

(** The match of the compiled pattern at the start of [s], as a
    backtracking matcher finds it: the fields read so far and the text
    left. *)
Fixpoint match_format (fmt : list Directive) (s : string) (y m d : Z)
  : option (Z * Z * Z * string) :=
  match fmt with
  | [] => Some (y, m, d, s)
  | Lit c :: fmt' =>
      match s with
      | String a s' => if Ascii.eqb a c then match_format fmt' s' y m d else None
      | EmptyString => None
      end
  | DY :: fmt' => first_some (fun vr => match_format fmt' (snd vr) (fst vr) m d) (cands_Y s)
  | Dm :: fmt' => first_some (fun vr => match_format fmt' (snd vr) y (fst vr) d) (cands_m s)
  | Dd :: fmt' => first_some (fun vr => match_format fmt' (snd vr) y m (fst vr)) (cands_d s)
  end.

(** [pd.to_datetime(datetime.strptime(s, fmt))]: the pattern must match,
    nothing may be left over, the date must exist (years 1 to 9999) and the
    timestamp must fit; [None] stands for any of the exceptions. *)
Definition strptime_timestamp (fmt : list Directive) (s : string) : option Timestamp :=
  match match_format fmt s 1900 1 1 with
  | Some (y, m, d, EmptyString) =>
      if (1 <=? y) && (y <=? 9999) && (1 <=? m) && (m <=? 12)
         && (1 <=? d) && (d <=? days_in_month y m)
      then
        let ts := days_from_civil y m d * NS_PER_DAY in
        if in_int64 ts then Some ts else None
      else None
  | _ => None
  end.

(** The formats of [parse_date], in its order: [%Y-%m-%d], [%d/%m/%Y],
    [%d-%m-%Y], [%Y/%m/%d], [%m/%d/%Y], [%d.%m.%Y]. *)
Definition DATE_FORMATS : list (list Directive) :=
  [ [DY; Lit "-"; Dm; Lit "-"; Dd];
    [Dd; Lit "/"; Dm; Lit "/"; DY];
    [Dd; Lit "-"; Dm; Lit "-"; DY];
    [DY; Lit "/"; Dm; Lit "/"; Dd];
    [Dm; Lit "/"; Dd; Lit "/"; DY];
    [Dd; Lit "."; Dm; Lit "."; DY] ].

(** [parse_date(val)]; [None] is both [None] and [NaT]. *)
Definition parse_date `{PyLib} (val : Value) : option Timestamp :=
  if isna val then None
  else
    match serial_to_timestamp val with
    | Some ts => Some ts
    | None =>
        match first_some (fun fmt => strptime_timestamp fmt (str_strip (py_str val))) DATE_FORMATS with
        | Some ts => Some ts
        | None => to_datetime_dayfirst val
        end
    end.

Definition digit_char (n : Z) : ascii := ascii_of_nat (48 + Z.to_nat n).

(** A number below 100 on two digits. *)
Definition pad2 (n : Z) : string :=
  String (digit_char (n / 10)) (String (digit_char (n mod 10)) EmptyString).

(** A number below 10000 on four digits. *)
Definition pad4 (n : Z) : string :=
  pad2 (n / 100) ++ pad2 (n mod 100).

(** [ts.strftime("%d/%m/%Y")]: the calendar day the timestamp falls on. *)
Definition strftime_dmy (ts : Timestamp) : string :=
  let '(y, m, d) := civil_from_days (ts / NS_PER_DAY) in
  pad2 d ++ "/" ++ pad2 m ++ "/" ++ pad4 y.

(** [format_date_dmy(ts)]. *)
Definition format_date_dmy (ts : option Timestamp) : string :=
  match ts with
  | None => ""
  | Some t => strftime_dmy t
  end.

(** *** The library on ASCII text *)

(** A number below a million on six digits, below a thousand millions on
    nine. *)
Definition pad6 (n : Z) : string := pad2 (n / 10000) ++ pad4 (n mod 10000).

Definition pad9 (n : Z) : string :=
  String (digit_char (n / 100000000)) (pad4 (n / 10000 mod 10000) ++ pad4 (n mod 10000)).

(** [str(ts)]: the date and the time of day, with the fraction of the
    second on six or nine digits when there is one. *)
Definition iso_timestamp (ts : Timestamp) : string :=
  let '(y, m, d) := civil_from_days (ts / NS_PER_DAY) in
  let ns := ts mod NS_PER_DAY in
  let secs := ns / 1000000000 in
  let frac := ns mod 1000000000 in
  pad4 y ++ "-" ++ pad2 m ++ "-" ++ pad2 d ++ " "
  ++ pad2 (secs / 3600) ++ ":" ++ pad2 (secs mod 3600 / 60) ++ ":" ++ pad2 (secs mod 60)
  ++ (if frac =? 0 then ""
      else if frac mod 1000 =? 0 then "." ++ pad6 (frac / 1000)
      else "." ++ pad9 frac).

(** The ASCII characters lxml accepts in a text: tab, line feed, carriage
    return and everything from the blank on. *)
Definition xml_char (c : ascii) : bool :=
  let n := nat_of_ascii c in
  (n =? 9)%nat || (n =? 10)%nat || (n =? 13)%nat || (32 <=? n)%nat.

(** python-docx stores a carriage return as a line break, which reads back
    as a line feed. *)
Definition cr_to_lf (c : ascii) : ascii := if Ascii.eqb c "013" then "010"%char else c.

(** The library on ASCII text: no transliteration is needed, case and
    white space are the ASCII ones; floats are printed by their integer
    part, the lenient parser accepts a timestamp and nothing else; a text
    with a control character other than tab, line feed and carriage return
    is refused for a cell, and a carriage return is kept as a line feed. *)
Definition ascii_lib : PyLib := {|
  unidecode := fun s => s;
  str_lower := map_string ascii_lower;
  str_strip := fun s => rstrip (lstrip s);
  float_str := fun q => NilZero.string_of_int (Z.to_int (Z.quot (Qnum q) (Zpos (Qden q)))) ++ ".0";
  to_datetime_dayfirst := fun v => match v with VTs t => Some t | _ => None end;
  timestamp_str := iso_timestamp;
  docx_text := fun s => if all_chars xml_char s then Some (map_string cr_to_lf s) else None;
|}.

(** ** Dataset normalisation ([backend.py]) *)

(** A pandas frame: the column labels and the rows of cells. *)
Record DataFrame := mkDataFrame { df_columns : list string; df_rows : list (list Value) }.

(** A row of the standard frame [prepare_dataframe] returns. *)
Record NormRow := mkNormRow {
  ACTOR : Value;
  GRUPO : Value;
  MESA : Value;
  NIVEL : Value;
  FECHA : Value;
  DATO : Value;
  _FECHA_TS : option Timestamp;
  FECHA_FMT : string;
}.

(** The standard frame; [grupo_col] tells whether it has the column
    [GRUPO] (without it the field [GRUPO] of the rows is [VNone]). *)
Record WorkFrame := mkWorkFrame { grupo_col : bool; work_rows : list NormRow }.

Definition REQUIRED_ROLES : list string := ["actor"; "mesa"; "nivel"; "fecha"; "dato"].

Definition in_columns (c : string) (cols : list string) : bool :=
  existsb (String.eqb c) cols.

(** [key not in mapping or mapping[key] not in df.columns]. *)
Definition role_missing (df : DataFrame) (mapping : gmap string (option string)) (key : string)
  : bool :=
  match mapping !! key with
  | Some (Some c) => negb (in_columns c (df_columns df))
  | _ => true
  end.

(** [mapping[key]] once the check has passed. *)
Definition role_column (mapping : gmap string (option string)) (key : string) : string :=
  match mapping !! key with
  | Some (Some c) => c
  | _ => ""
  end.

(** [mapping.get("grupo")] when it is truthy. *)
Definition group_column (mapping : gmap string (option string)) : option string :=
  match mapping !! "grupo" with
  | Some (Some g) => if String.eqb g "" then None else Some g
  | _ => None
  end.

(** The position of the first column with the label. *)
Fixpoint col_index (cols : list string) (c : string) : option nat :=
  match cols with
  | [] => None
  | x :: cols' => if String.eqb x c then Some O else option_map S (col_index cols' c)
  end.

(** The cell of a row under a label. *)
Definition cell_at (df : DataFrame) (r : list Value) (c : string) : Value :=
  match col_index (df_columns df) c with
  | Some i => nth i r VNone
  | None => VNone
  end.

Definition count_label (c : string) (cols : list string) : nat :=
  List.length (List.filter (String.eqb c) cols).

(** [prepare_dataframe(df, mapping)].  [df[cols]] raises [KeyError] for a
    label that is no column and returns every column carrying a selected
    label, so that [work.columns = out_cols] raises [ValueError] when a
    selected label is carried by two columns. *)
Definition prepare_dataframe `{PyLib} (df : DataFrame) (mapping : gmap string (option string))
  : Exn + WorkFrame :=
  match find (role_missing df mapping) REQUIRED_ROLES with
  | Some key => inl (ValueError ("Columna requerida no encontrada para '" ++ key ++ "'."))
  | None =>
      let actor := role_column mapping "actor" in
      let grupo := group_column mapping in
      let cols := (actor :: match grupo with Some g => [g] | None => [] end)
                  ++ [role_column mapping "mesa"; role_column mapping "nivel";
                      role_column mapping "fecha"; role_column mapping "dato"] in
      match find (fun c => negb (in_columns c (df_columns df))) cols with
      | Some c => inl (KeyError ("['" ++ c ++ "'] not in index"))
      | None =>
          if existsb (fun c => (1 <? count_label c (df_columns df))%nat) cols
          then inl (ValueError "Length mismatch")
          else
            inr {| grupo_col := match grupo with Some _ => true | None => false end;
                   work_rows :=
                     map (fun r =>
                            let fecha := cell_at df r (role_column mapping "fecha") in
                            let ts := parse_date fecha in
                            {| ACTOR := cell_at df r actor;
                               GRUPO := match grupo with
                                        | Some g => cell_at df r g
                                        | None => VNone
                                        end;
                               MESA := cell_at df r (role_column mapping "mesa");
                               NIVEL := cell_at df r (role_column mapping "nivel");
                               FECHA := fecha;
                               DATO := cell_at df r (role_column mapping "dato");
                               _FECHA_TS := ts;
                               FECHA_FMT := format_date_dmy ts |})
                         (df_rows df) |}
      end
  end%list.

(** ** Locating and filling the table ([backend.py]) *)

(** [_header_matches(table)]: a table without rows has no header. *)
Definition _header_matches `{PyLib} (t : Table) : bool :=
  match rows t with
  | [] => false
  | hdr_cells :: _ =>
      let headers := map (fun c => _norm (cell_text c)) hdr_cells in
      forallb (fun exp =>
                 existsb (fun h => String.eqb h (_norm exp) || PyStr.contains exp h) headers)
              EXPECTED_HEADERS
  end.

(** The loop [for t in doc.tables] of [find_target_table]; [i] is the
    position of the head of [ts] in the document and [candidate] the last
    four-column table passed. *)
Fixpoint scan_tables `{PyLib} (ts : list Table) (i : nat) (candidate : option nat)
  : option nat :=
  match ts with
  | [] => candidate
  | t :: ts' =>
      if _header_matches t then Some i
      else scan_tables ts' (S i) (if (columns t =? 4)%nat then Some i else candidate)
  end.

(** The first [if] of [find_target_table]: the preferred table, when the
    index is given, within range and the table has four columns. *)
Definition preferred_table (doc : Document) (prefer_index : option Z) : option nat :=
  match prefer_index with
  | Some i =>
      if (0 <=? i) && (i <? Z.of_nat (List.length (tables doc)))
      then match tables doc !! Z.to_nat i with
           | Some t => if (columns t =? 4)%nat then Some (Z.to_nat i) else None
           | None => None
           end
      else None
  | None => None
  end.

(** [find_target_table(doc, prefer_index)]; the table object returned is
    named by its position in [doc.tables]. *)
Definition find_target_table `{PyLib} (doc : Document) (prefer_index : option Z) : option nat :=
  match preferred_table doc prefer_index with
  | Some i => Some i
  | None => scan_tables (tables doc) 0 None
  end.

(** [list_candidate_tables(doc)]. *)
Definition list_candidate_tables (doc : Document) : list nat :=
  map fst (List.filter (fun it => (columns (snd it) =? 4)%nat) (imap (fun i t => (i, t)) (tables doc))).

(** The loop of [clear_table_keep_header], run for at most [fuel] turns. *)
Fixpoint clear_loop (fuel : nat) (rs : list Row) : list Row :=
  match fuel with
  | O => rs
  | S fuel' => if (1 <? List.length rs)%nat then clear_loop fuel' (removelast rs) else rs
  end.

(** [clear_table_keep_header(table)]: every turn removes a row, so as many
    turns as there are rows suffice. *)
Definition clear_table_keep_header (t : Table) : Table :=
  {| columns := columns t; rows := clear_loop (List.length (rows t)) (rows t) |}.

(** The [ValueError] lxml raises for a text that is not XML compatible. *)
Definition XML_TEXT_ERROR : Exn :=
  ValueError "All strings must be XML compatible: Unicode or ASCII, no NULL bytes or control characters".

(** [cell.text = s]: the content is replaced by one paragraph holding one
    run, whose text is set with [run.text = s]. *)
Definition set_cell_text `{PyLib} (s : string) (c : Cell) : Exn + Cell :=
  match docx_text s with
  | Some stored => inr [ [ {| run_text := stored; run_rPr := "" |} ] ]
  | None => inl XML_TEXT_ERROR
  end.

(** ["" if r[i] is None else str(r[i])]. *)
Definition cell_value (r : list (option string)) (i : nat) : string :=
  match r !! i with Some (Some s) => s | _ => "" end.

(** [row.cells[i].text = "" if r[i] is None else str(r[i])]: a tuple index
    out of range raises, and so does a text that cannot be stored. *)
Definition write_cell `{PyLib} (r : list (option string)) (row : Exn + Row) (i : nat)
  : Exn + Row :=
  match row with
  | inl e => inl e
  | inr cells =>
      match cells !! i with
      | Some c =>
          match set_cell_text (cell_value r i) c with
          | inl e => inl e
          | inr c' => inr (<[i := c']> cells)
          end
      | None => inl (IndexError "tuple index out of range")
      end
  end.

(** The body of the loop of [fill_table] for one row of values. *)
Definition fill_row `{PyLib} (t : Table) (r : list (option string)) : Exn + Table :=
  match foldl (write_cell r) (inr (new_row t)) (seq 0 (Nat.min 4 (List.length r))) with
  | inl e => inl e
  | inr cells => inr {| columns := columns t; rows := rows t ++ [cells] |}
  end.

(** [fill_table(table, rows)]. *)
Fixpoint fill_table `{PyLib} (t : Table) (rs : list (list (option string))) : Exn + Table :=
  match rs with
  | [] => inr t
  | r :: rs' =>
      match fill_row t r with
      | inl e => inl e
      | inr t' => fill_table t' rs'
      end
  end.

(** What the table populator of the specification does: clear, then fill. *)
Definition populate `{PyLib} (t : Table) (rs : list (list (option string))) : Exn + Table :=
  fill_table (clear_table_keep_header t) rs.

(** ** Building the letters ([funcionalidades.py]) *)

(** [build_letter_bytes(template_bytes, rows, placeholders, table_index)].
    The template bytes are the document they decode to, and the bytes
    returned are the document saved; every call works on its own copy. *)
Definition build_letter_bytes `{PyLib} (template : Document) (rs : list (list (option string)))
    (placeholders : option (list (string * string))) (table_index : option Z)
  : Exn + Document :=
  match find_target_table template table_index with
  | None => inl (RuntimeError "No se encontró una tabla válida (4 columnas) en la plantilla.")
  | Some i =>
      match tables template !! i with
      | None => inl (RuntimeError "No se encontró una tabla válida (4 columnas) en la plantilla.")
      | Some table =>
          match fill_table (clear_table_keep_header table) rs with
          | inl e => inl e
          | inr table' =>
              let doc := {| paragraphs := paragraphs template;
                            tables := <[i := table']> (tables template) |} in
              inr match placeholders with
                  | Some ((_ :: _) as mapping) => _replace_placeholders_runsafe doc mapping true
                  | _ => doc
                  end
          end
      end
  end.

(** ["" if pd.isna(x) else str(x)]. *)
Definition cell_str `{PyLib} (v : Value) : option string :=
  Some (if isna v then "" else py_str v).

(** [_rows_from_group(gdf)]. *)
Definition _rows_from_group `{PyLib} (gdf : list NormRow) : list (list (option string)) :=
  map (fun r => [cell_str (MESA r); cell_str (NIVEL r); Some (FECHA_FMT r); cell_str (DATO r)])
      gdf.

(** Insertion into a list sorted by [leb], after the elements that are not
    greater: the sort built on it is stable. *)
Fixpoint insert_by {A : Type} (leb : A -> A -> bool) (x : A) (l : list A) : list A :=
  match l with
  | [] => [x]
  | y :: l' => if leb y x then y :: insert_by leb x l' else x :: l
  end.

Definition sort_by {A : Type} (leb : A -> A -> bool) (l : list A) : list A :=
  fold_right (insert_by leb) [] (rev l).

(** The order of two rows that both have a timestamp. *)
Definition ts_leb (a b : NormRow) : bool :=
  match _FECHA_TS a, _FECHA_TS b with
  | Some x, Some y => x <=? y
  | _, _ => true
  end.

Definition has_ts (r : NormRow) : bool :=
  match _FECHA_TS r with Some _ => true | None => false end.

(** [work_df.sort_values("_FECHA_TS", ascending=..., na_position="last")],
    the way pandas arranges it: the rows with a timestamp are sorted in
    ascending order, for a descending sort between two reversals, and the
    rows without one follow in their original order.  (The order pandas
    gives to rows with equal timestamps depends on its sorting routine; the
    model sorts stably.) *)
Definition sort_values (ascending : bool) (l : list NormRow) : list NormRow :=
  let non_nans := List.filter has_ts l in
  let nans := List.filter (fun r => negb (has_ts r)) l in
  (if ascending then sort_by ts_leb non_nans else rev (sort_by ts_leb (rev non_nans)))
  ++ nans.

Definition value_Q (v : Value) : option Q :=
  match v with
  | VInt n => Some (inject_Z n)
  | VFloat q => Some q
  | _ => None
  end.

(** Equality of grouping keys: missing keys form one group, numbers
    compare by value. *)
Definition key_eqb (a b : Value) : bool :=
  match a, b with
  | VNone, VNone => true
  | VStr s, VStr t => String.eqb s t
  | VTs s, VTs t => s =? t
  | _, _ => match value_Q a, value_Q b with
            | Some p, Some q => Qeq_bool p q
            | _, _ => false
            end
  end.

(** The order pandas lists the groups in: numbers, then strings, then the
    missing key; the keys of a column of timestamps by time. *)
Definition key_leb (a b : Value) : bool :=
  match a, b with
  | _, VNone => true
  | VNone, _ => false
  | VStr s, VStr t => String.leb s t
  | VStr _, _ => false
  | _, VStr _ => true
  | VTs s, VTs t => s <=? t
  | _, _ => match value_Q a, value_Q b with
            | Some p, Some q => Qle_bool p q
            | _, _ => true
            end
  end.

(** The distinct keys, each at its first appearance. *)
Fixpoint distinct_keys (l : list Value) : list Value :=
  match l with
  | [] => []
  | k :: l' => k :: List.filter (fun x => negb (key_eqb k x)) (distinct_keys l')
  end.

(** The column a row is grouped by; [None] when the frame has no such
    column. *)
Definition group_value (wf : WorkFrame) (group_field : string) : option (NormRow -> Value) :=
  if String.eqb group_field "ACTOR" then Some ACTOR
  else if String.eqb group_field "GRUPO" then (if grupo_col wf then Some GRUPO else None)
  else if String.eqb group_field "MESA" then Some MESA
  else if String.eqb group_field "NIVEL" then Some NIVEL
  else if String.eqb group_field "FECHA" then Some FECHA
  else if String.eqb group_field "DATO" then Some DATO
  else if String.eqb group_field "_FECHA_TS"
       then Some (fun r => match _FECHA_TS r with Some t => VTs t | None => VNone end)
  else if String.eqb group_field "FECHA_FMT" then Some (fun r => VStr (FECHA_FMT r))
  else None.

(** [df.groupby(field, dropna=False)]: the groups in the order of their
    keys, each with its rows in the order of the frame. *)
Definition groupby (key : NormRow -> Value) (l : list NormRow) : list (Value * list NormRow) :=
  map (fun k => (k, List.filter (fun r => key_eqb k (key r)) l))
      (sort_by key_leb (distinct_keys (map key l))).

(** What the loop of [generate_letters_per_group] carries: [outputs],
    [errors] and [summary_rows]. *)
Record BatchState := mkBatchState {
  outputs : gmap string Document;
  errors : gmap string string;
  summary_rows : list (string * nat);
}.

Definition grp_name_of `{PyLib} (grp : Value) : string :=
  if isna grp then "(Sin grupo)" else py_str grp.

Definition file_name `{PyLib} (grp_name : string) : string :=
  "CARTA_" ++ slugify grp_name ++ ".docx".

Section Batch.
Context `{PyLib}.

(** The call the loop protects with [try]: [build_letter_bytes] with the
    template and the table index of the batch. *)
Variable build : list (list (option string)) -> option (list (string * string)) -> Exn + Document.
Variable placeholders_per_group : option (gmap string (list (string * string))).

(** One turn of the loop over the groups. *)
Definition batch_step (st : BatchState) (g : Value * list NormRow) : BatchState :=
  let grp_name := grp_name_of (fst g) in
  let filas := _rows_from_group (snd g) in
  let placeholders := placeholders_per_group ≫= (fun m => m !! grp_name) in
  match build filas placeholders with
  | inr doc_bytes =>
      {| outputs := <[file_name grp_name := doc_bytes]> (outputs st);
         errors := errors st;
         summary_rows := summary_rows st ++ [(grp_name, List.length filas)] |}
  | inl e =>
      {| outputs := outputs st;
         errors := <[grp_name := exn_str e]> (errors st);
         summary_rows := summary_rows st |}
  end.

Definition batch_loop (groups : list (Value * list NormRow)) : BatchState :=
  foldl batch_step {| outputs := ∅; errors := ∅; summary_rows := [] |} groups.
End Batch.

(** The order of the rows of the index: by group name. *)
Definition summary_leb (a b : string * nat) : bool := String.leb (fst a) (fst b).

(** [generate_letters_per_group(work_df, template_bytes, group_field,
    placeholders_per_group, table_index, newest_first)]: [(outputs, errors,
    index_df)], or the [KeyError] of [groupby] for a field that is no
    column. *)
Definition generate_letters_per_group `{PyLib} (work_df : WorkFrame) (template : Document)
    (group_field : string)
    (placeholders_per_group : option (gmap string (list (string * string))))
    (table_index : option Z) (newest_first : bool)
  : Exn + (gmap string Document * gmap string string * list (string * nat)) :=
  let sorted := sort_values (negb newest_first) (work_rows work_df) in
  match group_value work_df group_field with
  | None => inl (KeyError group_field)
  | Some key =>
      let st := batch_loop (fun filas placeholders =>
                              build_letter_bytes template filas placeholders table_index)
                           placeholders_per_group (groupby key sorted) in
      inr (outputs st, errors st, sort_by summary_leb (summary_rows st))
  end.

(** ** Further functions of [backend.py] *)

(** The value of [mapping.get(key)] when it is truthy: a non-empty
    column name. *)
Definition mapping_get_truthy (mapping : gmap string (option string)) (key : string)
  : option string :=
  match mapping !! key with
  | Some (Some c) => if String.eqb c "" then None else Some c
  | _ => None
  end.

(** [auto_detect_group_fields(df)], from the headers of the frame. *)
Definition auto_detect_group_fields `{PyLib} (df_columns : list string) : list string :=
  let mapping := guess_mapping df_columns in
  let fields :=
    match mapping_get_truthy mapping "actor" with
    | Some a => [a]
    | None => []
    end in
  let fields :=
    match mapping_get_truthy mapping "grupo" with
    | Some g => if in_columns g fields then fields else (fields ++ [g])%list
    | None => fields
    end in
  firstn 2 fields.

(** [str(x)] for a cell of a sheet read by pandas, where a missing cell is
    the float [NaN]. *)
Definition sheet_str `{PyLib} (v : Value) : string :=
  match v with
  | VNone => "nan"
  | _ => py_str v
  end.

(** [d[k] = v] on a dict kept as its items: a key already present keeps
    its place and takes the new value, a new key goes last. *)
Fixpoint dict_set (k v : string) (d : list (string * string)) : list (string * string) :=
  match d with
  | [] => [(k, v)]
  | (k', v') :: d' =>
      if String.eqb k' k then (k', v) :: d' else (k', v') :: dict_set k v d'
  end.

(** One turn of the loop of [read_placeholders_from_excel] over the rows of
    the sheet, on the cells [Grupo], [Llave] and [Valor] of the row. *)
Definition placeholder_row `{PyLib} (out : gmap string (list (string * string)))
    (r : Value * Value * Value) : gmap string (list (string * string)) :=
  let '(grupo, llave, valor) := r in
  let g := str_strip (sheet_str grupo) in
  let k := str_strip (sheet_str llave) in
  let v := if isna valor then "" else py_str valor in
  if String.eqb g "" || String.eqb k "" then out
  else <[g := dict_set k v (default [] (out !! g))]> out.

(** The sheet of a workbook by its name. *)
Fixpoint sheet_by_name (name : string) (sheets : list (string * DataFrame)) : option DataFrame :=
  match sheets with
  | [] => None
  | (n, df) :: sheets' => if String.eqb n name then Some df else sheet_by_name name sheets'
  end.

(** [read_placeholders_from_excel(xls_bytes)]; the bytes are the workbook
    they decode to, its sheets by name, or [None] when [pd.ExcelFile]
    raises. *)
Definition read_placeholders_from_excel `{PyLib} (xls : option (list (string * DataFrame)))
  : gmap string (list (string * string)) :=
  match xls with
  | None => ∅
  | Some sheets =>
      match sheet_by_name "Placeholders" sheets with
      | None => ∅
      | Some df =>
          if forallb (fun c => in_columns c (df_columns df)) ["Grupo"; "Llave"; "Valor"]
          then foldl (fun out r =>
                        placeholder_row out
                          (cell_at df r "Grupo", cell_at df r "Llave", cell_at df r "Valor"))
                     ∅ (df_rows df)
          else ∅
      end
  end.

(** ** Notions the statements below use *)

(** The successive [str.replace] of every token of the map, in the order of
    the map. *)
Definition substitute_text (mapping : list (string * string)) (full : string) : string :=
  foldl (fun s kv => PyStr.replace (token_of (fst kv)) (snd kv) s) full mapping.

(** Some token of the map occurs in the text. *)
Definition some_token_in (mapping : list (string * string)) (full : string) : bool :=
  existsb (fun kv => PyStr.contains (token_of (fst kv)) full) mapping.


(** A key without braces. *)
Definition brace_free (k : string) : bool :=
  negb (PyStr.has_char "{" k) && negb (PyStr.has_char "}" k).

(** The position of the first element satisfying [f]. *)
Fixpoint first_index {A : Type} (f : A -> bool) (l : list A) : option nat :=
  match l with
  | [] => None
  | x :: l' => if f x then Some O else option_map S (first_index f l')
  end.

(** The position of the last element satisfying [f]. *)
Fixpoint last_index {A : Type} (f : A -> bool) (l : list A) : option nat :=
  match l with
  | [] => None
  | x :: l' =>
      match last_index f l' with
      | Some i => Some (S i)
      | None => if f x then Some O else None
      end
  end.

Definition four_columns (t : Table) : bool := (columns t =? 4)%nat.

(** The table locator in the words of the specification: the preferred
    table if it qualifies, else the first table whose header matches, else
    the last table with four columns. *)
Definition locate_spec `{PyLib} (doc : Document) (prefer_index : option Z) : option nat :=
  match preferred_table doc prefer_index with
  | Some i => Some i
  | None =>
      match first_index _header_matches (tables doc) with
      | Some i => Some i
      | None => last_index four_columns (tables doc)
      end
  end.

(** Two rows in the order asked for: by timestamp, ascending or
    descending, a row without timestamp after every row with one. *)
Definition date_order (ascending : bool) (a b : NormRow) : Prop :=
  match _FECHA_TS a, _FECHA_TS b with
  | Some x, Some y => if ascending then x <= y else y <= x
  | Some _, None => True
  | None, Some _ => False
  | None, None => True
  end.

(** A required role is resolved: the mapping gives it a column of the
    frame. *)
Definition resolved (df : DataFrame) (mapping : gmap string (option string)) (key : string)
  : Prop :=
  exists c, mapping !! key = Some (Some c) /\ In c (df_columns df).

(** The message of the error raised for a required role. *)
Definition missing_column_error (key : string) : Exn :=
  ValueError ("Columna requerida no encontrada para '" ++ key ++ "'.").

(** The group a turn of the batch loop handles: its name, the file its
    letter goes to, and the result of building the letter. *)
Definition group_name `{PyLib} (g : Value * list NormRow) : string := grp_name_of (fst g).

Definition group_file `{PyLib} (g : Value * list NormRow) : string := file_name (group_name g).

Definition is_ok {A : Type} (r : Exn + A) : bool :=
  match r with inr _ => true | inl _ => false end.

(** What building the letter of a group gives, for a builder [build] (the
    call the loop protects) and the placeholders of the batch. *)
Definition group_result `{PyLib}
    (build : list (list (option string)) -> option (list (string * string)) -> Exn + Document)
    (placeholders_per_group : option (gmap string (list (string * string))))
    (g : Value * list NormRow) : Exn + Document :=
  build (_rows_from_group (snd g)) (placeholders_per_group ≫= (fun m => m !! group_name g)).

(** The row of the index for a group. *)
Definition summary_row `{PyLib} (g : Value * list NormRow) : string * nat :=
  (group_name g, List.length (snd g)).

(** The cells the filler writes for one row of values on a grid of [c]
    columns. *)
Definition filled_cells `{PyLib} (c : nat) (r : list (option string)) : Exn + Row :=
  foldl (write_cell r) (inr (replicate c empty_cell)) (seq 0 (Nat.min 4 (List.length r))).

(** The rows the filler appends depend on the grid width and on the values
    only. *)
Fixpoint filled_rows `{PyLib} (c : nat) (rs : list (list (option string))) : Exn + list Row :=
  match rs with
  | [] => inr []
  | r :: rs' =>
      match filled_cells c r with
      | inl e => inl e
      | inr cells =>
          match filled_rows c rs' with
          | inl e => inl e
          | inr more => inr (cells :: more)
          end
      end
  end.

(** The mapper stores, for each of its six roles, nothing or a header of
    the frame. *)
Definition mapping_sound (headers : list string) (m : gmap string (option string)) : Prop :=
  (forall role,
      In role ["actor"; "mesa"; "nivel"; "fecha"; "dato"; "grupo"] -> is_Some (m !! role)) /\
  (forall role c, m !! role = Some (Some c) -> In c headers).

(** The calendar conversions agree on a day number: the date of the day is
    a date of the calendar, and it is the date of no other day. *)
Definition calendar_day_ok (z : Z) : bool :=
  let '(y, m, d) := civil_from_days z in
  (days_from_civil y m d =? z)
  && (1 <=? y) && (y <=? 9999) && (1 <=? m) && (m <=? 12)
  && (1 <=? d) && (d <=? days_in_month y m).

(** [calendar_day_ok] on [fuel] consecutive days from [z] on. *)
Fixpoint calendar_days_ok (fuel : nat) (z : Z) : bool :=
  match fuel with
  | O => true
  | S fuel' => if calendar_day_ok z then calendar_days_ok fuel' (z + 1) else false
  end.

(** The characters a file name made by [slugify] may contain. *)
Definition file_safe_char (c : ascii) : bool :=
  is_upper c || is_lower c || is_digit c || Ascii.eqb c "_" || Ascii.eqb c "-".

(** The texts of a row of values that the filler writes are all texts that
    can be stored. *)
Definition storable_values `{PyLib} (r : list (option string)) : Prop :=
  forall i, (i < Nat.min 4 (List.length r))%nat -> is_Some (docx_text (cell_value r i)).

(** The four texts [_rows_from_group] makes of a row of the frame. *)
Definition row_texts `{PyLib} (x : NormRow) : list string :=
  [ (if isna (MESA x) then "" else py_str (MESA x));
    (if isna (NIVEL x) then "" else py_str (NIVEL x));
    FECHA_FMT x;
    (if isna (DATO x) then "" else py_str (DATO x)) ].

(** The texts of the row are all texts that can be stored in a cell. *)
Definition storable_row `{PyLib} (x : NormRow) : Prop :=
  Forall (fun s => is_Some (docx_text s)) (row_texts x).

(** The row the filler leaves for a row of values on a grid of [c] columns:
    the first [min(4, len(r))] cells hold one run with the values as they
    are stored, an absent value as the empty text, and the other cells are
    as [add_row] made them. *)
Definition expected_row `{PyLib} (c : nat) (r : list (option string)) : Row :=
  map (fun i =>
         if (i <? Nat.min 4 (List.length r))%nat
         then [ [ {| run_text := default "" (docx_text (cell_value r i)); run_rPr := "" |} ] ]
         else empty_cell)
      (seq 0 c).

(** The error of the letter builder for a template without usable table. *)
Definition NO_TABLE_ERROR : Exn :=
  RuntimeError "No se encontró una tabla válida (4 columnas) en la plantilla.".

(** The initial value of the mapping in [guess_mapping]: every role
    unset. *)
Definition EMPTY_MAPPING : gmap string (option string) :=
  list_to_map (map (fun k => (k, None)) ["actor"; "mesa"; "nivel"; "fecha"; "dato"; "grupo"]).

(** White space in a normalised text is a single blank. *)
Definition plain_or_blank (c : ascii) : bool := negb (is_space c) || Ascii.eqb c " ".

(** What holds of every group of the dict [read_placeholders_from_excel]
    builds: its name and its dict are not empty, its keys are not empty and
    appear once. *)
Definition placeholders_ok (out : gmap string (list (string * string))) : Prop :=
  forall g d, out !! g = Some d ->
    g <> "" /\ d <> [] /\ List.NoDup (map fst d) /\ forall k v, In (k, v) d -> k <> "".

(** ** Sample data for the instances below *)

Definition text_cell (s : string) : Cell := [ [ {| run_text := s; run_rPr := "" |} ] ].

(** A table of four columns whose header names none of the expected
    columns. *)
Definition plain_table : Table :=
  {| columns := 4;
     rows := [ [text_cell "Item"; text_cell "Cantidad"; text_cell "Valor"; text_cell "Total"] ] |}.

(** A table of five columns whose header names the four expected ones. *)
Definition wide_table : Table :=
  {| columns := 5;
     rows := [ [text_cell "No."; text_cell "Nombre de la Mesa"; text_cell "NIVEL";
                text_cell "Fecha"; text_cell "Dato  transformador"] ] |}.

(** A table of four columns with the expected header and one body row. *)
Definition letter_table : Table :=
  {| columns := 4;
     rows := [ [text_cell "Nombre de la mesa"; text_cell "Nivel"; text_cell "Fecha";
                text_cell "Dato transformador"];
               [text_cell "x"; text_cell "x"; text_cell "x"; text_cell "x"] ] |}.

(** A table of four columns without any row. *)
Definition bare_table : Table := {| columns := 4; rows := [] |}.

Definition narrow_table : Table := {| columns := 3; rows := [] |}.

Definition sample_doc : Document :=
  {| paragraphs := []; tables := [plain_table; wide_table; bare_table] |}.

Definition headerless_doc : Document :=
  {| paragraphs := []; tables := [plain_table; narrow_table; bare_table; narrow_table] |}.

(** A table of three columns whose header cells still name the four
    expected columns. *)
Definition narrow_letter_table : Table :=
  {| columns := 3;
     rows := [ [text_cell "Nombre de la mesa / Nivel"; text_cell "Fecha";
                text_cell "Dato transformador"] ] |}.

Definition sample_values : list (list (option string)) :=
  [ [Some "Mesa 1"; Some "Alto"; Some "15/03/2024"; Some "Dato"];
    [Some "Mesa 2"; None; Some ""; Some "Otro"] ].

Definition sample_frame : DataFrame :=
  {| df_columns := ["Actor"; "Dependencia"; "Tema"; "Nivel"; "Fecha"; "Dato"];
     df_rows :=
       [ [VStr "Ana"; VStr "Salud"; VStr "Mesa 1"; VStr "Alto"; VStr "15/03/2024"; VStr "d1"];
         [VStr "Luis"; VNone; VStr "Mesa 2"; VInt 2; VInt 1; VStr "d2"];
         [VStr "Ana"; VStr "Salud"; VStr "Mesa 3"; VStr "Bajo"; VStr "not a date"; VNone] ] |}.

Definition sample_mapping : gmap string (option string) :=
  list_to_map [("actor", Some "Actor"); ("mesa", Some "Tema"); ("nivel", Some "Nivel");
               ("fecha", Some "Fecha"); ("dato", Some "Dato"); ("grupo", Some "Dependencia")].

(** A row of the standard frame for an actor and a date cell. *)
Definition sample_row (actor : string) (fecha : Value) : NormRow :=
  let ts := @parse_date ascii_lib fecha in
  {| ACTOR := VStr actor; GRUPO := VNone; MESA := VStr "Mesa"; NIVEL := VStr "Alto";
     FECHA := fecha; DATO := VStr "Dato"; _FECHA_TS := ts; FECHA_FMT := format_date_dmy ts |}.

(** The rows of the sort scenario: 2024-01-01, 2024-03-01 and no date. *)
Definition dated_rows : list NormRow :=
  [sample_row "Ana" (VStr "2024-01-01"); sample_row "Luis" (VStr "2024-03-01");
   sample_row "Ana" VNone].

(** A row whose [DATO] starts with the control character U+0001, a text
    that no cell can store. *)
Definition tainted_row (actor : string) : NormRow :=
  {| ACTOR := VStr actor; GRUPO := VNone; MESA := VStr "Mesa"; NIVEL := VStr "Alto";
     FECHA := VNone; DATO := VStr (String "001" "Dato"); _FECHA_TS := None; FECHA_FMT := "" |}.

(** Two actors whose names differ by a full stop, and a third whose row
    cannot be written. *)
Definition colliding_frame : WorkFrame :=
  {| grupo_col := false;
     work_rows := [sample_row "Sec. Salud" (VStr "2024-01-01");
                   sample_row "Sec Salud" (VStr "2024-03-01");
                   tainted_row "Zoe"] |}.

(** Three actors with a file each; the row of the third cannot be
    written. *)
Definition partly_failing_frame : WorkFrame :=
  {| grupo_col := false; work_rows := tainted_row "Zoe" :: dated_rows |}.

(** The placeholders of one of the groups. *)
Definition sample_placeholders : gmap string (list (string * string)) :=
  {[ "Ana" := [("NOMBRE", "Ana P.")] ]}.

Definition letter_doc : Document :=
  {| paragraphs := [ [ {| run_text := "Estimado {{NOMBRE}}"; run_rPr := "" |} ] ];
     tables := [letter_table] |}.

(** A template whose only table has three columns and no header. *)
Definition narrow_doc : Document :=
  {| paragraphs := [ [ {| run_text := "Estimado {{NOMBRE}}"; run_rPr := "" |} ] ];
     tables := [narrow_table] |}.

(** A workbook with a sheet of placeholders: the second row has no group
    and no value, the third repeats the group and the key of the first. *)
Definition sample_workbook : list (string * DataFrame) :=
  [ ("Datos", {| df_columns := ["Actor"]; df_rows := [] |});
    ("Placeholders",
     {| df_columns := ["Grupo"; "Llave"; "Valor"];
        df_rows := [ [VStr "Ana"; VStr "NOMBRE"; VStr "Ana P."];
                     [VNone; VStr "CARGO"; VNone];
                     [VStr " Ana "; VStr "NOMBRE"; VStr "Ana Q."] ] |}) ].

(** * Properties *)

(** ** Python strings *)

Lemma append_nil_l (s : string) : "" ++ s = s.
Proof. reflexivity. Qed.

Lemma append_cons (c : ascii) (s r : string) : String c s ++ r = String c (s ++ r).
Proof. reflexivity. Qed.

Ltac str_simpl := rewrite ?append_cons, ?append_nil_l in *.

Lemma append_nil_r (s : string) : s ++ "" = s.
Proof. induction s as [|c s IH]; str_simpl; [reflexivity | by rewrite IH]. Qed.

Lemma append_assoc (a b c : string) : (a ++ b) ++ c = a ++ (b ++ c).
Proof. induction a as [|x a IH]; str_simpl; [reflexivity | by rewrite IH]. Qed.

Lemma length_append (a b : string) :
  String.length (a ++ b) = (String.length a + String.length b)%nat.
Proof. induction a as [|x a IH]; str_simpl; simpl; [reflexivity | by rewrite IH]. Qed.

Lemma startswith_spec (k s : string) :
  PyStr.startswith k s = true <-> exists r, s = k ++ r.
Proof.
  revert s. induction k as [|a k IH]; intros s; simpl.
  - split; [intros _; by exists s | done].
  - destruct s as [|b s].
    + split; [done | intros [r Hr]; discriminate].
    + destruct (Ascii.eqb_spec a b) as [->|Hne].
      * rewrite IH. split; intros [r Hr]; exists r; str_simpl; [by rewrite Hr | by injection Hr].
      * split; [done | intros [r Hr]; str_simpl; injection Hr; congruence].
Qed.

Lemma startswith_append (k r : string) : PyStr.startswith k (k ++ r) = true.
Proof. apply startswith_spec. by exists r. Qed.

Lemma contains_spec (k s : string) :
  PyStr.contains k s = true <-> exists a b, s = a ++ k ++ b.
Proof.
  induction s as [|c s IH]; simpl.
  - rewrite orb_false_r, startswith_spec. split.
    + intros [r Hr]. by exists "", r.
    + intros (a & b & Hab). destruct a; str_simpl; [by exists b | discriminate].
  - rewrite orb_true_iff, startswith_spec, IH. split.
    + intros [[r Hr] | (a & b & Hab)].
      * by exists "", r.
      * exists (String c a), b. by rewrite Hab.
    + intros (a & b & Hab). destruct a as [|x a]; str_simpl.
      * left. by exists b.
      * right. exists a, b. by injection Hab.
Qed.

Lemma contains_false_tail (k : string) (c : ascii) (s : string) :
  PyStr.contains k (String c s) = false ->
  PyStr.startswith k (String c s) = false /\ PyStr.contains k s = false.
Proof. simpl. intros H. by apply orb_false_elim in H. Qed.

(** A pattern that does not occur is not replaced. *)
Lemma replace_scan_absent (old new s : string) :
  PyStr.contains old s = false -> PyStr.replace_scan old new 0 s = s.
Proof.
  induction s as [|c s IH]; [done|].
  intros H. apply contains_false_tail in H as [H1 H2].
  cbn [PyStr.replace_scan]. rewrite H1. by rewrite IH.
Qed.

Lemma contains_empty (s : string) : PyStr.contains "" s = true.
Proof. destruct s; reflexivity. Qed.

Lemma replace_absent (old new s : string) :
  PyStr.contains old s = false -> PyStr.replace old new s = s.
Proof.
  destruct old as [|a old]; [by rewrite contains_empty|].
  apply replace_scan_absent.
Qed.

(** Passing over [n] characters of a match is dropping them. *)
Lemma replace_scan_skip (old new : string) (n : nat) (s : string) :
  PyStr.replace_scan old new n s = PyStr.replace_scan old new 0 (PyStr.drop n s).
Proof.
  revert n. induction s as [|c s IH]; intros [|n]; try reflexivity.
  cbn [PyStr.replace_scan PyStr.drop]. apply IH.
Qed.

Lemma drop_append (a b : string) : PyStr.drop (String.length a) (a ++ b) = b.
Proof. induction a as [|x a IH]; str_simpl; simpl; [reflexivity | exact IH]. Qed.

(** [str.replace] at an occurrence: the occurrence is replaced and the scan
    resumes behind it. *)
Lemma replace_scan_match (a : ascii) (old new r : string) :
  PyStr.replace_scan (String a old) new 0 (String a old ++ r)
  = new ++ PyStr.replace_scan (String a old) new 0 r.
Proof.
  rewrite append_cons at 1. cbn [PyStr.replace_scan].
  rewrite <- append_cons, startswith_append. f_equal.
  rewrite replace_scan_skip. cbn [String.length Nat.pred].
  by rewrite drop_append.
Qed.

(** [str.replace] where no occurrence starts: the character is kept. *)
Lemma replace_scan_step (old new : string) (c : ascii) (s : string) :
  PyStr.startswith old (String c s) = false ->
  PyStr.replace_scan old new 0 (String c s) = String c (PyStr.replace_scan old new 0 s).
Proof. intros H. cbn [PyStr.replace_scan]. by rewrite H. Qed.

(** ** The placeholder engine *)

Lemma replace_tokens_changed (tokens : list (string * string)) (full : string) :
  snd (replace_tokens tokens full true) = true.
Proof.
  revert full. induction tokens as [|[k v] tokens IH]; intros full; simpl; [done|].
  destruct (PyStr.contains k full); apply IH.
Qed.

(** The text the loop ends with is the successive replacement of the
    tokens, whether or not each of them occurs. *)
Lemma replace_tokens_text (mapping : list (string * string)) (full : string) (changed : bool) :
  fst (replace_tokens (make_tokens mapping) full changed) = substitute_text mapping full.
Proof.
  revert full changed. induction mapping as [|[k v] mapping IH]; intros full changed; [done|].
  cbn [make_tokens map replace_tokens fst snd substitute_text foldl].
  destruct (PyStr.contains (token_of k) full) eqn:Hk.
  - apply IH.
  - rewrite (replace_absent _ _ _ Hk). apply IH.
Qed.

(** The flag [changed] is raised exactly when some token occurs in the
    text the paragraph starts with. *)
Lemma replace_tokens_flag (mapping : list (string * string)) (full : string) :
  snd (replace_tokens (make_tokens mapping) full false) = some_token_in mapping full.
Proof.
  revert full. induction mapping as [|[k v] mapping IH]; intros full; [done|].
  cbn [make_tokens map replace_tokens fst snd some_token_in existsb].
  destruct (PyStr.contains (token_of k) full) eqn:Hk; simpl.
  - apply replace_tokens_changed.
  - apply IH.
Qed.

Lemma concat_empty_runs (later : list Run) :
  PyStr.concat (map run_text (map (set_run_text "") later)) = "".
Proof. induction later as [|r later IH]; [done|]. simpl. by rewrite IH. Qed.

Lemma paragraph_text_collapsed (full : string) (r0 : Run) (later : list Run) :
  paragraph_text (set_run_text full r0 :: map (set_run_text "") later) = full.
Proof.
  unfold paragraph_text. cbn [map PyStr.concat fold_right set_run_text run_text].
  change (fold_right String.append "" ?l) with (PyStr.concat l).
  by rewrite concat_empty_runs, append_nil_r.
Qed.



Lemma some_token_in_nonempty (mapping : list (string * string)) (full : string) :
  some_token_in mapping full = true -> make_tokens mapping <> [].
Proof. destruct mapping; [discriminate | done]. Qed.

Lemma startswith_nil_r (k : string) : PyStr.startswith k "" = true -> k = "".
Proof. destruct k; [done | discriminate]. Qed.

(** A token does not occur in the empty text. *)
Lemma token_not_in_empty (k : string) : PyStr.contains (token_of k) "" = false.
Proof. reflexivity. Qed.

Lemma some_token_in_empty (mapping : list (string * string)) :
  some_token_in mapping "" = false.
Proof. induction mapping as [|[k v] mapping IH]; [done|]. simpl. exact IH. Qed.

(** The run-normalising engine on one paragraph, in closed form. *)
Lemma replace_in_paragraph_unfold (mapping : list (string * string)) (p : Paragraph) :
  _replace_in_paragraph (make_tokens mapping) true p =
  if some_token_in mapping (paragraph_text p)
  then match p with
       | [] => add_run (substitute_text mapping (paragraph_text p)) p
       | r0 :: later =>
           set_run_text (substitute_text mapping (paragraph_text p)) r0
           :: map (set_run_text "") later
       end
  else p.
Proof.
  unfold _replace_in_paragraph.
  destruct (make_tokens mapping) as [|t ts] eqn:Ht.
  - destruct mapping; [done | discriminate].
  - rewrite <- Ht.
    pose proof (replace_tokens_text mapping (paragraph_text p) false) as Htxt.
    pose proof (replace_tokens_flag mapping (paragraph_text p)) as Hflag.
    destruct (replace_tokens (make_tokens mapping) (paragraph_text p) false) as [full changed].
    simpl in Htxt, Hflag. by subst.
Qed.



(** *** Tokens that no entry of the map names *)

Lemma token_of_cons (k : string) : token_of k = String "{" (String "{" (k ++ "}}")).
Proof. reflexivity. Qed.

Lemma replace_token (k v s : string) :
  PyStr.replace (token_of k) v s = PyStr.replace_scan (token_of k) v 0 s.
Proof. reflexivity. Qed.

Lemma append_split_prefix (x r a c : string) :
  x ++ r = a ++ c -> (String.length x <= String.length a)%nat ->
  exists a', a = x ++ a' /\ r = a' ++ c.
Proof.
  revert a. induction x as [|y x IH]; intros a Heq Hlen; str_simpl.
  - by exists a.
  - destruct a as [|z a]; [simpl in Hlen; lia|]. str_simpl.
    injection Heq as -> Heq. simpl in Hlen.
    destruct (IH a Heq ltac:(lia)) as (a' & -> & ->). by exists a'.
Qed.

(** A text free of the character [c] ends before the first [c]. *)
Lemma no_char_before (c : ascii) (x r a rest : string) :
  PyStr.has_char c x = false -> x ++ r = a ++ String c rest ->
  (String.length x <= String.length a)%nat.
Proof.
  revert a. induction x as [|y x IH]; intros a Hx Heq; simpl; [lia|].
  simpl in Hx. apply orb_false_elim in Hx as [Hy Hx].
  destruct a as [|z a]; str_simpl.
  - injection Heq as -> _. by rewrite Ascii.eqb_refl in Hy.
  - injection Heq as _ Heq. simpl. specialize (IH a Hx Heq). lia.
Qed.

(** Two texts free of [c], each followed by a [c], agree when what they
    start agrees. *)
Lemma same_up_to_char (c : ascii) (x y r1 r2 : string) :
  PyStr.has_char c x = false -> PyStr.has_char c y = false ->
  x ++ String c r1 = y ++ String c r2 -> x = y.
Proof.
  revert y. induction x as [|a x IH]; intros [|b y] Hx Hy Heq; str_simpl; simpl in *.
  - done.
  - injection Heq as <- _. by rewrite Ascii.eqb_refl in Hy.
  - injection Heq as -> _. by rewrite Ascii.eqb_refl in Hx.
  - apply orb_false_elim in Hx as [_ Hx]. apply orb_false_elim in Hy as [_ Hy].
    injection Heq as -> Heq. f_equal. by apply IH.
Qed.

Lemma brace_free_elim (k : string) :
  brace_free k = true -> PyStr.has_char "{" k = false /\ PyStr.has_char "}" k = false.
Proof.
  unfold brace_free. intros H. apply andb_true_iff in H as [H1 H2].
  by apply negb_true_iff in H1, H2.
Qed.

Lemma has_char_append (c : ascii) (x y : string) :
  PyStr.has_char c (x ++ y) = PyStr.has_char c x || PyStr.has_char c y.
Proof. induction x as [|a x IH]; str_simpl; simpl; [done | by rewrite IH, orb_assoc]. Qed.

(** The tokens of two different keys without braces never overlap: in a
    text that starts with the one, the other starts behind it. *)
Lemma tokens_do_not_overlap (K U r a b : string) :
  brace_free K = true -> brace_free U = true -> K <> U ->
  token_of K ++ r = a ++ token_of U ++ b ->
  (String.length (token_of K) <= String.length a)%nat.
Proof.
  intros HK HU Hne Heq.
  apply brace_free_elim in HK as [HKo HKc]. apply brace_free_elim in HU as [HUo HUc].
  rewrite !token_of_cons in Heq. rewrite token_of_cons.
  destruct a as [|a1 [|a2 a]]; str_simpl.
  - injection Heq as Heq. rewrite !append_assoc in Heq. str_simpl.
    by apply same_up_to_char in Heq.
  - injection Heq as _ Heq. exfalso.
    destruct K as [|k0 K]; str_simpl; injection Heq as Hk _; [discriminate|].
    simpl in HKo. by rewrite Hk in HKo.
  - injection Heq as _ _ Heq. simpl.
    apply no_char_before in Heq; [lia|].
    rewrite has_char_append, HKo. reflexivity.
Qed.

(** Where the pattern starts nowhere within a prefix, the scan copies the
    prefix. *)
Lemma replace_scan_copies_prefix (a0 : ascii) (old new w b : string) :
  (forall a r, w ++ b = a ++ String a0 old ++ r -> (String.length w <= String.length a)%nat) ->
  PyStr.replace_scan (String a0 old) new 0 (w ++ b)
  = w ++ PyStr.replace_scan (String a0 old) new 0 b.
Proof.
  induction w as [|c w IH]; intros Hfree; str_simpl; [done|].
  rewrite replace_scan_step.
  - f_equal. apply IH. intros a r Heq.
    specialize (Hfree (String c a) r). str_simpl. rewrite Heq in Hfree.
    specialize (Hfree eq_refl). simpl in Hfree. lia.
  - destruct (PyStr.startswith (String a0 old) (String c (w ++ b))) eqn:Hs; [|done].
    apply startswith_spec in Hs as [r Hr].
    specialize (Hfree "" r). str_simpl. specialize (Hfree Hr). simpl in Hfree. lia.
Qed.

Lemma contains_append_l (u v s : string) :
  PyStr.contains u s = true -> PyStr.contains u (v ++ s) = true.
Proof.
  rewrite !contains_spec. intros (a & b & ->). exists (v ++ a), b.
  by rewrite append_assoc.
Qed.

(** Replacing a pattern keeps every occurrence of a text that the pattern
    cannot overlap. *)
Lemma replace_scan_keeps (a0 : ascii) (old new u : string) :
  u <> "" ->
  (forall a b r, String a0 old ++ r = a ++ u ++ b ->
                 (String.length (String a0 old) <= String.length a)%nat) ->
  (forall a b r, u ++ b = a ++ String a0 old ++ r ->
                 (String.length u <= String.length a)%nat) ->
  forall s, PyStr.contains u s = true ->
            PyStr.contains u (PyStr.replace_scan (String a0 old) new 0 s) = true.
Proof.
  intros Hu N1 N2 s.
  remember (String.length s) as n eqn:Hn.
  revert s Hn. induction n as [n IH] using lt_wf_ind. intros s Hn Hc.
  pose proof Hc as Hc'. apply contains_spec in Hc' as (a & b & Hs).
  destruct (PyStr.startswith (String a0 old) s) eqn:Hst.
  - apply startswith_spec in Hst as [r Hr].
    assert (Hlen : (String.length (String a0 old) <= String.length a)%nat).
    { apply (N1 a b r). by rewrite <- Hr. }
    rewrite Hr in Hs. destruct (append_split_prefix _ _ _ _ Hs Hlen) as (a' & -> & Hr').
    rewrite Hr, replace_scan_match. apply contains_append_l.
    apply (IH (String.length r)); [|done|].
    + subst n. rewrite Hr, length_append. simpl. lia.
    + apply contains_spec. by exists a', b.
  - destruct a as [|c a]; str_simpl.
    + rewrite Hs, replace_scan_copies_prefix.
      * apply contains_spec. exists "", (PyStr.replace_scan (String a0 old) new 0 b).
        reflexivity.
      * intros a r Heq. by apply (N2 a b r).
    + subst s. rewrite replace_scan_step by done.
      apply (contains_append_l u (String c "")).
      apply (IH (String.length (a ++ u ++ b))); [rewrite Hn; simpl; lia | done |].
      apply contains_spec. by exists a, b.
Qed.

Lemma token_nonempty (k : string) : token_of k <> "".
Proof. by rewrite token_of_cons. Qed.

(** One [str.replace] of a token keeps the token of another key. *)
Lemma replace_keeps_other_token (K v U s : string) :
  brace_free K = true -> brace_free U = true -> K <> U ->
  PyStr.contains (token_of U) s = true ->
  PyStr.contains (token_of U) (PyStr.replace (token_of K) v s) = true.
Proof.
  intros HK HU Hne. rewrite replace_token.
  pose proof (tokens_do_not_overlap K U) as N1.
  pose proof (tokens_do_not_overlap U K) as N2.
  revert N1 N2. rewrite (token_of_cons K). intros N1 N2.
  apply replace_scan_keeps.
  - apply token_nonempty.
  - intros a b r. by apply N1.
  - intros a b r. by apply N2.
Qed.

Lemma substitute_keeps_other_token (mapping : list (string * string)) (U s : string) :
  (forall kv, In kv mapping -> brace_free (fst kv) = true /\ fst kv <> U) ->
  brace_free U = true ->
  PyStr.contains (token_of U) s = true ->
  PyStr.contains (token_of U) (substitute_text mapping s) = true.
Proof.
  intros Hkeys HU. revert s.
  induction mapping as [|[k v] mapping IH]; intros s Hs; [done|].
  unfold substitute_text. cbn [foldl fst snd].
  apply IH.
  - intros kv Hin. apply Hkeys. by right.
  - destruct (Hkeys (k, v)) as [Hk Hne]; [by left|].
    by apply replace_keeps_other_token.
Qed.

(** C7 as stated fails: the token [{{U}}] has no entry in the map, yet a
    key whose token overlaps it makes it disappear. *)
Lemma unknown_token_overlapped_by_a_key_is_rewritten :
  ~ (forall (mapping : list (string * string)) (p : Paragraph) (U : string),
        ~ In U (map fst mapping) ->
        PyStr.contains (token_of U) (paragraph_text p) = true ->
        PyStr.contains (token_of U)
          (paragraph_text (_replace_in_paragraph (make_tokens mapping) true p)) = true).
Proof.
  intros H.
  specialize (H [("U}}K", "x")] [ {| run_text := "{{U}}K}}"; run_rPr := "" |} ] "U").
  cbv in H. assert (Hf : false = true); [|discriminate Hf].
  apply H; [|reflexivity].
  intros [Heq | []]. discriminate Heq.
Qed.

(** C7, amended.  A paragraph in whose concatenated text no token of the
    map occurs is returned as it is: runs, texts and formatting.  When the
    keys of the map contain no braces, a token [{{KEY}}] whose KEY contains
    no braces and has no entry in the map still occurs, verbatim, in the
    text of the paragraph after substitution. *)
Theorem paragraphs_without_tokens_and_unknown_tokens_stay :
  (forall (mapping : list (string * string)) (p : Paragraph),
      some_token_in mapping (paragraph_text p) = false ->
      _replace_in_paragraph (make_tokens mapping) true p = p) /\
  (forall (mapping : list (string * string)) (p : Paragraph) (U : string),
      (forall kv, In kv mapping -> brace_free (fst kv) = true /\ fst kv <> U) ->
      brace_free U = true ->
      PyStr.contains (token_of U) (paragraph_text p) = true ->
      PyStr.contains (token_of U)
        (paragraph_text (_replace_in_paragraph (make_tokens mapping) true p)) = true).
Proof.
  split.
  - intros mapping p Hno. by rewrite replace_in_paragraph_unfold, Hno.
  - intros mapping p U Hkeys HU Hocc.
    rewrite replace_in_paragraph_unfold.
    destruct (some_token_in mapping (paragraph_text p)) eqn:Hsome; [|done].
    destruct p as [|r0 later]; [by rewrite some_token_in_empty in Hsome|].
    rewrite paragraph_text_collapsed.
    by apply substitute_keeps_other_token.
Qed.

Lemma paragraphs_without_tokens_and_unknown_tokens_stay_witness :
  let mapping := [("NAME", "Alice")] in
  let p := [ {| run_text := "Fecha: {{FE"; run_rPr := "bold" |};
             {| run_text := "CHA}}"; run_rPr := "plain" |} ] in
  let q := [ {| run_text := "{{FECHA}} {{NA"; run_rPr := "bold" |};
             {| run_text := "ME}}"; run_rPr := "plain" |} ] in
  _replace_in_paragraph (make_tokens mapping) true p = p /\
  PyStr.contains (token_of "FECHA")
    (paragraph_text (_replace_in_paragraph (make_tokens mapping) true q)) = true.
Proof.
  intros mapping p q.
  destruct paragraphs_without_tokens_and_unknown_tokens_stay as [Hsame Hkept].
  split.
  - apply Hsame. reflexivity.
  - apply Hkept; [|reflexivity|reflexivity].
    intros kv [<- | []]. split; [reflexivity | discriminate].
Defined.

(** ** The column mapper *)

Lemma filter_comm {A : Type} (P Q : A -> bool) (l : list A) :
  List.filter P (List.filter Q l) = List.filter Q (List.filter P l).
Proof.
  induction l as [|x l IH]; [done|]. simpl.
  destruct (P x) eqn:HP, (Q x) eqn:HQ; simpl; rewrite ?HP, ?HQ, IH; reflexivity.
Qed.

(** Among the keys of the dict the first header that satisfies a test is
    the first one of the frame that does. *)
Lemma dict_keys_first (P : string -> bool) (pre post : list string) (h : string) :
  P h = true -> (forall x, In x pre -> P x = false) ->
  exists rest, List.filter P (dict_keys (pre ++ h :: post)) = h :: rest.
Proof.
  intros Hh. induction pre as [|x pre IH]; intros Hpre.
  - simpl. rewrite Hh. eauto.
  - destruct IH as [rest Hrest]; [intros y Hy; apply Hpre; by right|].
    assert (Hx : P x = false) by (apply Hpre; by left).
    cbn [app dict_keys List.filter]. rewrite Hx, filter_comm, Hrest.
    cbn [List.filter].
    destruct (String.eqb_spec h x) as [->|Hne]; [congruence|].
    simpl. eauto.
Qed.

Lemma filter_map_pair {A B : Type} (f : A -> B) (P : B -> bool) (l : list A) :
  map fst (List.filter (fun p => P (snd p)) (map (fun c => (c, f c)) l))
  = List.filter (fun c => P (f c)) l.
Proof.
  induction l as [|x l IH]; [done|]. simpl.
  destruct (P (f x)); simpl; by rewrite IH.
Qed.

Lemma existsb_eqb_In (x : string) (l : list string) :
  existsb (String.eqb x) l = true <-> In x l.
Proof.
  rewrite existsb_exists. split.
  - intros (y & Hy & Heq). apply String.eqb_eq in Heq. by subst.
  - intros Hin. exists x. split; [done | apply String.eqb_refl].
Qed.

(** A turn of the loop for another role leaves the role alone; the turn
    for the role, with an exact match at hand, stores the match. *)
Lemma guess_role_other (cn : list (string * string)) (m : gmap string (option string))
    (entry : string * list string) (role : string) :
  fst entry <> role -> guess_role cn m entry !! role = m !! role.
Proof.
  destruct entry as [r al]. simpl. intros Hne. unfold guess_role.
  destruct (exact_matches cn al); [destruct (partial_matches cn al)|];
    rewrite ?lookup_insert_ne; done.
Qed.

Lemma guess_role_exact (cn : list (string * string)) (m : gmap string (option string))
    (role : string) (al : list string) (c : string) (rest : list string) :
  exact_matches cn al = c :: rest -> guess_role cn m (role, al) !! role = Some (Some c).
Proof. intros He. unfold guess_role. rewrite He. apply lookup_insert_eq. Qed.

Lemma foldl_guess_role_other (cn : list (string * string)) (syn : list (string * list string))
    (m : gmap string (option string)) (role : string) :
  ~ In role (map fst syn) -> foldl (guess_role cn) m syn !! role = m !! role.
Proof.
  revert m. induction syn as [|e syn IH]; intros m Hnin; [done|].
  simpl. rewrite IH.
  - apply guess_role_other. intros Heq. apply Hnin. by left.
  - intros Hin. apply Hnin. by right.
Qed.

Lemma foldl_guess_role_exact (cn : list (string * string)) (syn : list (string * list string))
    (m : gmap string (option string)) (role : string) (al : list string)
    (c : string) (rest : list string) :
  List.NoDup (map fst syn) -> In (role, al) syn ->
  exact_matches cn al = c :: rest ->
  foldl (guess_role cn) m syn !! role = Some (Some c).
Proof.
  intros Hnd Hin He. revert m.
  induction syn as [|e syn IH]; intros m; [done|].
  simpl in Hnd. apply List.NoDup_cons_iff in Hnd as [Hnin Hnd].
  destruct Hin as [-> | Hin].
  - simpl. rewrite foldl_guess_role_other by done. by eapply guess_role_exact.
  - simpl. by apply IH.
Qed.

Lemma SYNONYMS_NoDup : List.NoDup (map fst SYNONYMS).
Proof.
  simpl. repeat (apply List.NoDup_cons; [simpl; intuition discriminate|]).
  apply List.NoDup_nil.
Qed.

(** C3.  When some header normalises exactly to a synonym of a role, the
    mapper gives the role the first such header in the order of the frame,
    whatever the other headers are, also when headers that only contain a
    synonym come earlier. *)
Theorem exact_match_takes_precedence `{PyLib}
    (headers pre post : list string) (h role : string) (alias_list : list string)
    (Hrole : In (role, alias_list) SYNONYMS)
    (Hsplit : headers = (pre ++ h :: post)%list)
    (Hexact : In (_norm h) alias_list)
    (Hfirst : forall x, In x pre -> ~ In (_norm x) alias_list) :
  guess_mapping headers !! role = Some (Some h).
Proof.
  unfold guess_mapping.
  set (cn := cols_norm headers).
  set (m0 := list_to_map _).
  assert (Hex : exists rest, exact_matches cn alias_list = h :: rest).
  { unfold exact_matches, cn, cols_norm.
    rewrite (filter_map_pair _norm (fun b => existsb (String.eqb b) alias_list)), Hsplit.
    apply (dict_keys_first (fun c => existsb (String.eqb (_norm c)) alias_list)).
    - by apply existsb_eqb_In.
    - intros x Hx. destruct (existsb _ alias_list) eqn:He; [|done].
      apply existsb_eqb_In in He. by apply Hfirst in He. }
  destruct Hex as [rest Hex].
  assert (Hm : foldl (guess_role cn) m0 SYNONYMS !! role = Some (Some h)).
  { eapply foldl_guess_role_exact; eauto using SYNONYMS_NoDup. }
  destruct (foldl (guess_role cn) m0 SYNONYMS !! "grupo") as [[g|]|] eqn:Hg; try done.
  destruct (group_fallback cn) as [c|]; [|done].
  rewrite lookup_insert_ne; [done|]. intros <-. congruence.
Qed.

(** C3 at work: the first header only contains the synonym [actor], the
    second one is it; the role goes to the second. *)
Lemma exact_match_takes_precedence_witness :
  @guess_mapping ascii_lib ["Nombre del actor completo"; "Actor"; "ACTOR "] !! "actor"
  = Some (Some "Actor").
Proof.
  apply (@exact_match_takes_precedence ascii_lib
           ["Nombre del actor completo"; "Actor"; "ACTOR "]
           ["Nombre del actor completo"] ["ACTOR "] "Actor" "actor"
           ["actor"; "columna a"; "a"; "interesado"; "responsable"; "nombre del actor"]).
  - left. reflexivity.
  - reflexivity.
  - left. reflexivity.
  - intros x [<- | []] Hin. vm_compute in Hin.
    repeat (destruct Hin as [Hin | Hin]; [discriminate Hin|]). exact Hin.
Defined.

(** ** The date resolver *)

Lemma in_int64_spec (x : Z) : in_int64 x = true <-> - 2 ^ 63 < x <= 2 ^ 63 - 1.
Proof. unfold in_int64. rewrite andb_true_iff, Z.ltb_lt, Z.leb_le. reflexivity. Qed.

(** A serial number within the range of pandas timestamps is that many
    days after 1899-12-30. *)
Lemma serial_to_timestamp_days (v : Value) (n : Z) :
  py_int v = Some n -> -81182 <= n <= 106751 ->
  serial_to_timestamp v = Some (EXCEL_EPOCH + n * NS_PER_DAY).
Proof.
  intros Hv Hn. unfold serial_to_timestamp. rewrite Hv.
  assert (H1 : in_int64 (n * NS_PER_DAY) = true).
  { apply in_int64_spec. unfold NS_PER_DAY. lia. }
  assert (H2 : in_int64 (EXCEL_EPOCH + n * NS_PER_DAY) = true).
  { apply in_int64_spec. change EXCEL_EPOCH with (-2209161600000000000).
    unfold NS_PER_DAY. lia. }
  by rewrite H1, H2.
Qed.

Lemma py_int_not_missing (v : Value) (n : Z) : py_int v = Some n -> isna v = false.
Proof. by destruct v. Qed.

(** C4.  Read and then displayed: the serial number 1 gives 31/12/1899, a
    serial number being a count of days from 1899-12-30 of which only the
    integer part is used; the text 15/03/2024 gives itself, and a text both
    the day-first and the month-first format accept is read day first; a
    text no format accepts and the lenient parser rejects gives the empty
    string.  The hypotheses state what [str.strip] and the lenient pandas
    parser do on these texts. *)
Theorem date_resolver_examples `{PyLib}
    (Hstrip : forall s, In s ["15/03/2024"; "03/04/2024"; "not a date"] -> str_strip s = s)
    (Hlenient : to_datetime_dayfirst (VStr "not a date") = None) :
  format_date_dmy (parse_date (VInt 1)) = "31/12/1899" /\
  (forall v n, py_int v = Some n -> -81182 <= n <= 106751 ->
               parse_date v = Some (EXCEL_EPOCH + n * NS_PER_DAY)) /\
  (forall q, py_int (VFloat q) = Some (Z.quot (Qnum q) (Zpos (Qden q)))) /\
  format_date_dmy (parse_date (VStr "15/03/2024")) = "15/03/2024" /\
  parse_date (VStr "03/04/2024") = Some (days_from_civil 2024 4 3 * NS_PER_DAY) /\
  format_date_dmy (parse_date (VStr "not a date")) = "".
Proof.
  assert (Hserial : forall v n, py_int v = Some n -> -81182 <= n <= 106751 ->
                                parse_date v = Some (EXCEL_EPOCH + n * NS_PER_DAY)).
  { intros v n Hv Hn. unfold parse_date.
    by rewrite (py_int_not_missing v n Hv), (serial_to_timestamp_days v n Hv Hn). }
  split; [|split; [exact Hserial|split; [done|]]].
  - rewrite (Hserial (VInt 1) 1) by (done || lia). reflexivity.
  - unfold parse_date. cbn [isna serial_to_timestamp py_int py_str].
    rewrite !Hstrip by (simpl; tauto). rewrite Hlenient.
    split; [|split]; vm_compute; reflexivity.
Qed.

Lemma date_resolver_examples_witness :
  format_date_dmy (@parse_date ascii_lib (VInt 1)) = "31/12/1899" /\
  format_date_dmy (@parse_date ascii_lib (VFloat (7 # 4))) = "31/12/1899" /\
  format_date_dmy (@parse_date ascii_lib (VStr "15/03/2024")) = "15/03/2024" /\
  format_date_dmy (@parse_date ascii_lib (VStr "03/04/2024")) = "03/04/2024" /\
  format_date_dmy (@parse_date ascii_lib (VStr "not a date")) = "".
Proof.
  assert (Hstrip : forall s, In s ["15/03/2024"; "03/04/2024"; "not a date"] ->
                             @str_strip ascii_lib s = s).
  { intros s [<- | [<- | [<- | []]]]; reflexivity. }
  destruct (@date_resolver_examples ascii_lib Hstrip eq_refl)
    as (H1 & Hserial & Hint & Hdmy & Hfirst & Hbad).
  split; [exact H1|]. split.
  - rewrite (Hserial (VFloat (7 # 4)) 1); [reflexivity | apply Hint | lia].
  - split; [exact Hdmy|]. split; [|exact Hbad]. rewrite Hfirst. reflexivity.
Defined.

(** ** The table locator *)

Lemma first_index_Some {A : Type} (f : A -> bool) (l : list A) (i : nat) (x : A) :
  l !! i = Some x -> f x = true ->
  (forall j y, (j < i)%nat -> l !! j = Some y -> f y = false) ->
  first_index f l = Some i.
Proof.
  revert i. induction l as [|a l IH]; intros i Hx Hf Hbefore; [done|].
  destruct i as [|i]; simpl in *.
  - injection Hx as ->. by rewrite Hf.
  - rewrite (Hbefore O a) by (done || lia).
    rewrite (IH i); [done | done | done |].
    intros j y Hj Hy. apply (Hbefore (S j) y); [lia | done].
Qed.

Lemma first_index_None {A : Type} (f : A -> bool) (l : list A) :
  (forall x, In x l -> f x = false) -> first_index f l = None.
Proof.
  induction l as [|a l IH]; intros Hall; [done|]. simpl.
  rewrite (Hall a) by (by left). rewrite IH; [done|]. intros x Hx. apply Hall. by right.
Qed.

Lemma last_index_None {A : Type} (f : A -> bool) (l : list A) :
  (forall x, In x l -> f x = false) -> last_index f l = None.
Proof.
  induction l as [|a l IH]; intros Hall; [done|]. simpl.
  rewrite IH by (intros x Hx; apply Hall; by right).
  by rewrite (Hall a) by (by left).
Qed.

Lemma last_index_Some {A : Type} (f : A -> bool) (l : list A) (i : nat) (x : A) :
  l !! i = Some x -> f x = true ->
  (forall j y, (i < j)%nat -> l !! j = Some y -> f y = false) ->
  last_index f l = Some i.
Proof.
  revert i. induction l as [|a l IH]; intros i Hx Hf Hafter; [done|].
  destruct i as [|i]; simpl in *.
  - injection Hx as ->. rewrite last_index_None, Hf; [done|].
    intros y Hy. apply list_elem_of_In, list_elem_of_lookup in Hy as [j Hj].
    apply (Hafter (S j) y); [lia | done].
  - rewrite (IH i); [done | done | done |].
    intros j y Hj Hy. apply (Hafter (S j) y); [lia | done].
Qed.

(** The single pass over the tables finds the first table whose header
    matches, else the last table with four columns, else what it was given
    as candidate. *)
Lemma scan_tables_spec `{PyLib} (ts : list Table) (i : nat) (candidate : option nat) :
  scan_tables ts i candidate =
  match first_index _header_matches ts with
  | Some j => Some (i + j)%nat
  | None =>
      match last_index four_columns ts with
      | Some j => Some (i + j)%nat
      | None => candidate
      end
  end.
Proof.
  revert i candidate. induction ts as [|t ts IH]; intros i candidate; [done|].
  cbn [scan_tables first_index last_index].
  destruct (_header_matches t); simpl; [f_equal; lia|].
  rewrite IH.
  destruct (first_index _header_matches ts) as [j|]; simpl; [f_equal; lia|].
  destruct (last_index four_columns ts) as [j|]; simpl; [f_equal; lia|].
  unfold four_columns.
  destruct (columns t =? 4)%nat; [f_equal; lia | done].
Qed.

Lemma find_target_table_locate `{PyLib} (doc : Document) (prefer_index : option Z) :
  find_target_table doc prefer_index = locate_spec doc prefer_index.
Proof.
  unfold find_target_table, locate_spec. rewrite scan_tables_spec.
  destruct (preferred_table doc prefer_index); [done|].
  destruct (first_index _header_matches (tables doc)); [done|].
  by destruct (last_index four_columns (tables doc)).
Qed.

Lemma preferred_table_hit (doc : Document) (z : Z) (t : Table) :
  0 <= z -> tables doc !! Z.to_nat z = Some t -> columns t = 4%nat ->
  preferred_table doc (Some z) = Some (Z.to_nat z).
Proof.
  intros Hz Ht Hc. unfold preferred_table.
  apply lookup_lt_Some in Ht as Hlt.
  replace (0 <=? z) with true by (symmetry; apply Z.leb_le; lia).
  replace (z <? Z.of_nat (List.length (tables doc))) with true
    by (symmetry; apply Z.ltb_lt; lia).
  simpl. by rewrite Ht, Hc.
Qed.

(** A table whose header matches and that no matching table precedes is the
    one found, whatever its width. *)
Lemma first_header_match_found `{PyLib} (doc : Document) (prefer_index : option Z)
    (i : nat) (t : Table) :
  preferred_table doc prefer_index = None ->
  tables doc !! i = Some t -> _header_matches t = true ->
  (forall j t', (j < i)%nat -> tables doc !! j = Some t' -> _header_matches t' = false) ->
  find_target_table doc prefer_index = Some i.
Proof.
  intros Hp Ht Hm Hbefore. rewrite find_target_table_locate. unfold locate_spec.
  by rewrite Hp, (first_index_Some _ _ i t).
Qed.

(** The preferred index is passed over when it is absent, negative, beyond
    the last table, or names a table that has not four columns. *)
Lemma preferred_table_passed_over (doc : Document) (prefer_index : option Z) :
  prefer_index = None \/
  (exists z, prefer_index = Some z /\
             (z < 0 \/ Z.of_nat (List.length (tables doc)) <= z \/
              exists t, tables doc !! Z.to_nat z = Some t /\ columns t <> 4%nat)) ->
  preferred_table doc prefer_index = None.
Proof.
  intros [-> | (z & -> & Hz)]; [done|]. unfold preferred_table.
  destruct (0 <=? z) eqn:H0; [|done].
  destruct (z <? Z.of_nat (List.length (tables doc))) eqn:H1; [|done].
  apply Z.leb_le in H0. apply Z.ltb_lt in H1. cbn [andb].
  destruct Hz as [Hz | [Hz | (t & Ht & Hc)]]; [lia | lia |].
  rewrite Ht. by apply Nat.eqb_neq in Hc as ->.
Qed.

(** C2.  The locator follows the three rules of the specification.  An
    index that is given, is within range and names a table with four
    columns is answered at once.  In every other case (no index, a negative
    index, an index beyond the last table, a table at the index that has not
    four columns) the tables are scanned in the order of the document: the
    first table whose header matches is the answer; when no header matches,
    the last table with four columns is, or none. *)
Theorem table_locator_rules `{PyLib} (doc : Document) (prefer_index : option Z) :
  (forall z t,
      prefer_index = Some z -> 0 <= z -> tables doc !! Z.to_nat z = Some t ->
      columns t = 4%nat ->
      find_target_table doc prefer_index = Some (Z.to_nat z)) /\
  (prefer_index = None \/
   (exists z, prefer_index = Some z /\
              (z < 0 \/ Z.of_nat (List.length (tables doc)) <= z \/
               exists t, tables doc !! Z.to_nat z = Some t /\ columns t <> 4%nat)) ->
   (forall i t,
       tables doc !! i = Some t -> _header_matches t = true ->
       (forall j t', (j < i)%nat -> tables doc !! j = Some t' -> _header_matches t' = false) ->
       find_target_table doc prefer_index = Some i) /\
   ((forall t, In t (tables doc) -> _header_matches t = false) ->
    (forall i t,
        tables doc !! i = Some t -> columns t = 4%nat ->
        (forall j t', (i < j)%nat -> tables doc !! j = Some t' -> columns t' <> 4%nat) ->
        find_target_table doc prefer_index = Some i) /\
    ((forall t, In t (tables doc) -> columns t <> 4%nat) ->
     find_target_table doc prefer_index = None))).
Proof.
  split.
  - intros z t -> Hz Ht Hc. unfold find_target_table.
    by rewrite (preferred_table_hit doc z t).
  - intros Hp%preferred_table_passed_over. split.
    + intros i t Ht Hm Hbefore. by apply (first_header_match_found doc _ i t).
    + intros Hnone. rewrite find_target_table_locate. unfold locate_spec.
      rewrite Hp, (first_index_None _ _ Hnone). split.
      * intros i t Ht Hc Hafter. apply (last_index_Some _ _ i t); [done | |].
        -- unfold four_columns. by rewrite Hc.
        -- intros j t' Hj Ht'. unfold four_columns. apply Nat.eqb_neq. by eapply Hafter.
      * intros Hno4. apply last_index_None. intros t Ht.
        unfold four_columns. apply Nat.eqb_neq. by apply Hno4.
Qed.

(** C2 at work.  In a document whose second table has the matching header:
    the index 0 names a table with four columns and is answered, the
    indices 7 and -1 are out of range and the scan finds the header.  In a
    document without matching header: the index 1 names a table with three
    columns, so the scan answers the last table with four columns.  A
    document with one table of three columns has no answer. *)
Lemma table_locator_rules_witness :
  @find_target_table ascii_lib sample_doc (Some 0) = Some 0%nat /\
  @find_target_table ascii_lib sample_doc (Some 7) = Some 1%nat /\
  @find_target_table ascii_lib sample_doc (Some (-1)) = Some 1%nat /\
  @find_target_table ascii_lib headerless_doc (Some 1) = Some 2%nat /\
  @find_target_table ascii_lib {| paragraphs := []; tables := [narrow_table] |} None = None.
Proof.
  assert (Hsecond : forall (j : nat) (t' : Table),
             (j < 1)%nat -> tables sample_doc !! j = Some t' ->
             @_header_matches ascii_lib t' = false).
  { intros [|j] t' Hj Ht'; [|lia]. injection Ht' as <-. reflexivity. }
  split; [|split; [|split; [|split]]].
  - destruct (@table_locator_rules ascii_lib sample_doc (Some 0)) as [Hpref _].
    apply (Hpref 0 plain_table); [reflexivity | lia | reflexivity | reflexivity].
  - destruct (@table_locator_rules ascii_lib sample_doc (Some 7)) as [_ Hscan].
    destruct Hscan as [Hfirst _].
    + right. exists 7. split; [reflexivity|]. right. left. simpl. lia.
    + apply (Hfirst 1%nat wide_table); [reflexivity | reflexivity | exact Hsecond].
  - destruct (@table_locator_rules ascii_lib sample_doc (Some (-1))) as [_ Hscan].
    destruct Hscan as [Hfirst _].
    + right. exists (-1). split; [reflexivity|]. left. lia.
    + apply (Hfirst 1%nat wide_table); [reflexivity | reflexivity | exact Hsecond].
  - destruct (@table_locator_rules ascii_lib headerless_doc (Some 1)) as [_ Hscan].
    destruct Hscan as [_ Hlast].
    + right. exists 1. split; [reflexivity|]. right. right.
      exists narrow_table. split; [reflexivity | discriminate].
    + destruct Hlast as [Hsome _].
      * intros t [<- | [<- | [<- | [<- | []]]]]; reflexivity.
      * apply (Hsome 2%nat bare_table); [reflexivity | reflexivity |].
        intros [|[|[|[|j]]]] t' Hj Ht'; try lia; [|done].
        injection Ht' as <-. discriminate.
  - destruct (@table_locator_rules ascii_lib {| paragraphs := []; tables := [narrow_table] |} None)
      as [_ Hscan].
    destruct Hscan as [_ Hlast]; [by left|].
    destruct Hlast as [_ Hnone].
    + intros t [<- | []]. reflexivity.
    + apply Hnone. intros t [<- | []]. discriminate.
Defined.

(** ** The table populator *)

Lemma write_cell_error `{PyLib} (r : list (option string)) (e : Exn) (idxs : list nat) :
  foldl (write_cell r) (inl e) idxs = inl e.
Proof. induction idxs as [|i idxs IH]; [done|]. simpl. exact IH. Qed.

(** Writing the cells [0 .. k-1] of a row: it succeeds when the row has at
    least [k] cells and the [k] texts can be stored, and keeps the number of
    cells; it raises [IndexError] only when the row has fewer cells and the
    error of lxml only at a text that cannot be stored. *)
Lemma write_cells_spec `{PyLib} (r : list (option string)) (k : nat) (cells : Row) :
  match foldl (write_cell r) (inr cells) (seq 0 k) with
  | inr cells' =>
      List.length cells' = List.length cells /\ (k <= List.length cells)%nat /\
      forall i, (i < k)%nat -> is_Some (docx_text (cell_value r i))
  | inl e =>
      (e = IndexError "tuple index out of range" /\ (List.length cells < k)%nat) \/
      (e = XML_TEXT_ERROR /\
       exists i, (i < k)%nat /\ (i < List.length cells)%nat /\
                 docx_text (cell_value r i) = None)
  end.
Proof.
  induction k as [|k IH]; [simpl; repeat split; [lia | intros i Hi; lia]|].
  rewrite seq_S, foldl_app. cbn [foldl Nat.add].
  destruct (foldl (write_cell r) (inr cells) (seq 0 k)) as [e|cells1].
  - cbn [write_cell]. destruct IH as [[-> Hlen] | [-> (i & Hi & Hil & Hnone)]].
    + left. split; [done | lia].
    + right. split; [done|]. exists i. repeat split; [lia | done | done].
  - destruct IH as (Hlen & Hk & Hstor). cbn [write_cell].
    destruct (cells1 !! k) as [c|] eqn:Hc.
    + apply lookup_lt_Some in Hc as Hlt. unfold set_cell_text.
      destruct (docx_text (cell_value r k)) as [stored|] eqn:Hst.
      * unfold Row in *. rewrite length_insert. repeat split; [done | lia |].
        intros i Hi. destruct (decide (i = k)) as [->|Hne]; [by rewrite Hst|].
        apply Hstor. lia.
      * right. split; [done|]. exists k. repeat split; [lia | lia | done].
    + apply lookup_ge_None in Hc. left. split; [done | lia].
Qed.

Lemma fill_row_cells `{PyLib} (t : Table) (r : list (option string)) :
  fill_row t r =
  match filled_cells (columns t) r with
  | inl e => inl e
  | inr cells => inr {| columns := columns t; rows := rows t ++ [cells] |}
  end.
Proof. reflexivity. Qed.

Lemma filled_cells_spec `{PyLib} (c : nat) (r : list (option string)) :
  match filled_cells c r with
  | inr cells' =>
      List.length cells' = c /\ (Nat.min 4 (List.length r) <= c)%nat /\ storable_values r
  | inl e =>
      (e = IndexError "tuple index out of range" /\ (c < Nat.min 4 (List.length r))%nat) \/
      (e = XML_TEXT_ERROR /\ ~ storable_values r)
  end.
Proof.
  pose proof (write_cells_spec r (Nat.min 4 (List.length r)) (replicate c empty_cell)) as Hs.
  change (foldl (write_cell r) (inr (replicate c empty_cell))
            (seq 0 (Nat.min 4 (List.length r)))) with (filled_cells c r) in Hs.
  rewrite length_replicate in Hs.
  destruct (filled_cells c r) as [e|cells']; [|exact Hs].
  destruct Hs as [Hs | [-> (i & Hi & _ & Hnone)]]; [by left|].
  right. split; [done|]. intros Hstor. specialize (Hstor i Hi). rewrite Hnone in Hstor.
  by destruct Hstor.
Qed.

(** What the cells written for one row of values raise. *)
Lemma filled_cells_error `{PyLib} (c : nat) (r : list (option string)) (e : Exn) :
  filled_cells c r = inl e ->
  (e = IndexError "tuple index out of range" /\ (c < Nat.min 4 (List.length r))%nat) \/
  (e = XML_TEXT_ERROR /\ ~ storable_values r).
Proof. intros He. pose proof (filled_cells_spec c r) as Hs. by rewrite He in Hs. Qed.

Lemma filled_cells_ok `{PyLib} (c : nat) (r : list (option string)) :
  is_ok (filled_cells c r) = true <->
  (Nat.min 4 (List.length r) <= c)%nat /\ storable_values r.
Proof.
  pose proof (filled_cells_spec c r) as Hs.
  destruct (filled_cells c r) as [e|cells]; cbn [is_ok].
  - split; [done|]. intros [Hle Hstor].
    destruct Hs as [[_ Hlt] | [_ Hn]]; [lia | done].
  - destruct Hs as (_ & Hle & Hstor). done.
Qed.

Lemma fill_table_rows `{PyLib} (t : Table) (rs : list (list (option string))) :
  fill_table t rs =
  match filled_rows (columns t) rs with
  | inl e => inl e
  | inr new => inr {| columns := columns t; rows := rows t ++ new |}
  end.
Proof.
  revert t. induction rs as [|r rs IH]; intros t.
  - simpl. rewrite app_nil_r. by destruct t.
  - cbn [fill_table filled_rows]. rewrite fill_row_cells.
    destruct (filled_cells (columns t) r) as [e|cells]; [done|].
    rewrite IH. cbn [columns rows].
    destruct (filled_rows (columns t) rs) as [e|more]; [done|].
    by rewrite <- app_assoc.
Qed.

Lemma filled_rows_ok `{PyLib} (c : nat) (rs : list (list (option string))) :
  is_ok (filled_rows c rs) = true <->
  forall r, In r rs -> (Nat.min 4 (List.length r) <= c)%nat /\ storable_values r.
Proof.
  induction rs as [|r rs IH]; simpl.
  - split; [intros _ r [] | done].
  - pose proof (filled_cells_ok c r) as Hr.
    destruct (filled_cells c r) as [e|cells]; simpl in *.
    + split; [done|]. intros Hall. apply Hr, Hall. by left.
    + destruct (filled_rows c rs) as [e|more]; simpl in *.
      * split; [done|]. intros Hall. apply IH. intros r' Hr'. apply Hall. by right.
      * split; [|done]. intros _ r' [<- | Hr']; [by apply Hr | by apply IH].
Qed.

(** The filler succeeds exactly when every row of values fits the grid
    and holds texts that can be stored. *)
Lemma fill_table_ok `{PyLib} (t : Table) (rs : list (list (option string))) :
  is_ok (fill_table t rs) = true <->
  forall r, In r rs -> (Nat.min 4 (List.length r) <= columns t)%nat /\ storable_values r.
Proof.
  rewrite fill_table_rows, <- filled_rows_ok.
  by destruct (filled_rows (columns t) rs).
Qed.

(** What the filler raises: [IndexError] at a row of values wider than the
    grid, the error of lxml at a row with a text that cannot be stored. *)
Lemma filled_rows_error `{PyLib} (c : nat) (rs : list (list (option string))) (e : Exn) :
  filled_rows c rs = inl e ->
  (e = IndexError "tuple index out of range" /\
   exists r, In r rs /\ (c < Nat.min 4 (List.length r))%nat) \/
  (e = XML_TEXT_ERROR /\ exists r, In r rs /\ ~ storable_values r).
Proof.
  induction rs as [|r rs IH]; [done|]. cbn [filled_rows].
  destruct (filled_cells c r) as [e0|cells] eqn:Hc.
  - intros [= <-].
    destruct (filled_cells_error c r e0 Hc) as [[-> Hlt] | [-> Hn]].
    + left. split; [done|]. exists r. split; [by left | done].
    + right. split; [done|]. exists r. split; [by left | done].
  - destruct (filled_rows c rs) as [e1|more]; [|done]. intros [= <-].
    destruct (IH eq_refl) as [[-> (r' & Hr' & Hlt)] | [-> (r' & Hr' & Hn)]].
    + left. split; [done|]. exists r'. split; [by right | done].
    + right. split; [done|]. exists r'. split; [by right | done].
Qed.

(** The texts of the rows the letter builder passes to the filler. *)
Lemma rows_from_group_values `{PyLib} (x : NormRow) :
  storable_values [cell_str (MESA x); cell_str (NIVEL x); Some (FECHA_FMT x); cell_str (DATO x)]
  <-> storable_row x.
Proof.
  unfold storable_row, row_texts, storable_values, cell_value, cell_str.
  cbn [List.length Nat.min]. split.
  - intros Hs. repeat constructor.
    + exact (Hs 0%nat ltac:(lia)).
    + exact (Hs 1%nat ltac:(lia)).
    + exact (Hs 2%nat ltac:(lia)).
    + exact (Hs 3%nat ltac:(lia)).
  - intros Hf i Hi.
    apply Forall_cons_1 in Hf as [H0 Hf]. apply Forall_cons_1 in Hf as [H1 Hf].
    apply Forall_cons_1 in Hf as [H2 Hf]. apply Forall_cons_1 in Hf as [H3 _].
    destruct i as [|[|[|[|i]]]]; [done | done | done | done | lia].
Qed.

Lemma rows_from_group_width `{PyLib} (gdf : list NormRow) (r : list (option string)) :
  In r (_rows_from_group gdf) -> List.length r = 4%nat.
Proof.
  unfold _rows_from_group. rewrite in_map_iff. by intros (x & <- & _).
Qed.

(** C10.  A table whose header matches, and that no matching table
    precedes, is the one located without any test of its width, whenever the
    preferred index is not answered.  The filler writes [min(4, len(r))]
    cells of every new row, whatever the width of the grid, a row having as
    many cells as the table has grid columns: it succeeds exactly when every
    such number is within the width and the texts can be stored, and when
    the texts can be stored and a row of values is wider than the grid it
    raises [IndexError].  So for the rows of four values the letter builder
    passes, with texts that can be stored, it succeeds exactly when the
    table has at least four columns. *)
Theorem header_match_ignores_width_and_filler_needs_four `{PyLib} :
  (forall (doc : Document) (prefer_index : option Z) (i : nat) (t : Table),
      prefer_index = None \/
      (exists z, prefer_index = Some z /\
                 (z < 0 \/ Z.of_nat (List.length (tables doc)) <= z \/
                  exists t', tables doc !! Z.to_nat z = Some t' /\ columns t' <> 4%nat)) ->
      tables doc !! i = Some t -> _header_matches t = true ->
      (forall j t', (j < i)%nat -> tables doc !! j = Some t' -> _header_matches t' = false) ->
      find_target_table doc prefer_index = Some i) /\
  (forall (t : Table) (rs : list (list (option string))),
      is_ok (fill_table t rs) = true <->
      forall r, In r rs ->
                (Nat.min 4 (List.length r) <= columns t)%nat /\ storable_values r) /\
  (forall (t : Table) (rs : list (list (option string))),
      (forall r, In r rs -> storable_values r) ->
      (exists r, In r rs /\ (columns t < Nat.min 4 (List.length r))%nat) ->
      fill_table t rs = inl (IndexError "tuple index out of range")) /\
  (forall (t : Table) (gdf : list NormRow),
      gdf <> [] ->
      (forall r, In r (_rows_from_group gdf) -> storable_values r) ->
      (is_ok (fill_table t (_rows_from_group gdf)) = true <-> (4 <= columns t)%nat)).
Proof.
  split; [|split; [|split]].
  - intros doc prefer_index i t Hp%preferred_table_passed_over.
    by apply first_header_match_found.
  - apply fill_table_ok.
  - intros t rs Hstor (r & Hr & Hwide). rewrite fill_table_rows.
    destruct (filled_rows (columns t) rs) as [e|new] eqn:Hnew.
    + destruct (filled_rows_error _ _ _ Hnew) as [[-> _] | [_ (r' & Hr' & Hn)]]; [done|].
      exfalso. by apply Hn, Hstor.
    + assert (Hok : is_ok (filled_rows (columns t) rs) = true) by (by rewrite Hnew).
      destruct (proj1 (filled_rows_ok _ _) Hok r Hr) as [Hle _]. lia.
  - intros t gdf Hne Hstor. rewrite fill_table_ok. split.
    + intros Hall. destruct gdf as [|x gdf]; [done|].
      destruct (Hall _ (or_introl eq_refl)) as [Hle _]. simpl in Hle. lia.
    + intros Hc r Hr. split; [|by apply Hstor].
      apply rows_from_group_width in Hr. lia.
Qed.

(** C10 at work: the table of five columns is located by its header, and
    so is the table of three columns, which the filler then cannot fill:
    the rows of four values raise [IndexError] there.  On the table of five
    columns they are written, and a text with a control character is not. *)
Lemma header_match_ignores_width_and_filler_needs_four_witness :
  @find_target_table ascii_lib sample_doc None = Some 1%nat /\
  columns wide_table = 5%nat /\
  @find_target_table ascii_lib {| paragraphs := []; tables := [narrow_letter_table] |} None
  = Some 0%nat /\
  @fill_table ascii_lib narrow_letter_table sample_values
  = inl (IndexError "tuple index out of range") /\
  is_ok (@fill_table ascii_lib wide_table sample_values) = true /\
  is_ok (@fill_table ascii_lib wide_table [[Some (String "001" "Dato")]]) = false.
Proof.
  destruct (@header_match_ignores_width_and_filler_needs_four ascii_lib)
    as (Hfind & Hfill & Hwide & _).
  assert (Hstor : forall r, In r sample_values -> @storable_values ascii_lib r).
  { intros r [<- | [<- | []]] i Hi; simpl in Hi;
      destruct i as [|[|[|[|i]]]]; try lia; by eexists. }
  split; [|split; [reflexivity|split; [|split; [|split]]]].
  - apply (Hfind sample_doc None 1%nat wide_table); [by left | reflexivity..|].
    intros [|j] t' Hj Ht'; [|lia]. injection Ht' as <-. reflexivity.
  - apply (Hfind _ None 0%nat narrow_letter_table); [by left | reflexivity..|].
    intros j t' Hj. lia.
  - apply Hwide; [exact Hstor|].
    exists [Some "Mesa 1"; Some "Alto"; Some "15/03/2024"; Some "Dato"].
    split; [by left | simpl; lia].
  - apply Hfill. intros r Hr. split; [|by apply Hstor].
    destruct Hr as [<- | [<- | []]]; simpl; lia.
  - apply not_true_is_false. intros Hok.
    destruct (proj1 (Hfill wide_table [[Some (String "001" "Dato")]]) Hok
                [Some (String "001" "Dato")] (or_introl eq_refl)) as [_ Hs].
    destruct (Hs 0%nat) as [stored Hstored]; [simpl; lia|]. discriminate Hstored.
Defined.

Lemma removelast_length {A : Type} (l : list A) :
  List.length (removelast l) = Nat.pred (List.length l).
Proof.
  induction l as [|x [|y l] IH]; [done | done |].
  change (removelast (x :: y :: l)) with (x :: removelast (y :: l)).
  cbn [List.length]. rewrite IH. reflexivity.
Qed.

(** The loop of [clear_table_keep_header] ends with the first row alone. *)
Lemma clear_loop_firstn (fuel : nat) (rs : list Row) :
  (List.length rs <= S fuel)%nat -> clear_loop fuel rs = firstn 1 rs.
Proof.
  revert rs. induction fuel as [|fuel IH]; intros rs Hlen.
  - destruct rs as [|r [|r' rs]]; simpl in *; [done | done | lia].
  - cbn [clear_loop].
    destruct rs as [|r [|r' rs]]; [done | done |].
    replace (1 <? List.length (r :: r' :: rs))%nat with true
      by (symmetry; apply Nat.ltb_lt; simpl; lia).
    rewrite IH; [reflexivity|].
    rewrite removelast_length. simpl in *. lia.
Qed.

Lemma clear_table_rows (t : Table) :
  clear_table_keep_header t = {| columns := columns t; rows := firstn 1 (rows t) |}.
Proof. unfold clear_table_keep_header. by rewrite clear_loop_firstn by lia. Qed.

Lemma filled_rows_length `{PyLib} (c : nat) (rs : list (list (option string)))
    (new : list Row) :
  filled_rows c rs = inr new -> List.length new = List.length rs.
Proof.
  revert new. induction rs as [|r rs IH]; intros new; simpl.
  - by intros [= <-].
  - destruct (filled_cells c r); [done|]. destruct (filled_rows c rs); [done|].
    intros [= <-]. simpl. by rewrite (IH l).
Qed.

(** C9 as stated fails on a table without rows: nothing is cleared, and
    on the second pass the first filled row is taken for the header. *)
Lemma populate_twice_on_table_without_header :
  ~ (forall (t : Table) (rs : list (list (option string))) (t1 t2 : Table),
        @populate ascii_lib t rs = inr t1 -> @populate ascii_lib t1 rs = inr t2 ->
        List.length (rows t2) = List.length (rows t1)).
Proof.
  intros H.
  specialize (H bare_table sample_values _ _ eq_refl eq_refl).
  vm_compute in H. discriminate H.
Qed.

(** C9, amended.  On a table that has a header row, clearing and filling
    twice with the same rows gives the table that doing it once gives: the
    same rows with the same cells, the header first and one row per row of
    values behind it. *)
Theorem populate_idempotent_on_table_with_header `{PyLib}
    (t : Table) (rs : list (list (option string))) (t1 : Table)
    (Hheader : rows t <> [])
    (Honce : populate t rs = inr t1) :
  populate t1 rs = inr t1 /\
  columns t1 = columns t /\
  firstn 1 (rows t1) = firstn 1 (rows t) /\
  List.length (rows t1) = S (List.length rs).
Proof.
  unfold populate in *. rewrite clear_table_rows, fill_table_rows in Honce.
  cbn [columns rows] in Honce.
  destruct (filled_rows (columns t) rs) as [e|new] eqn:Hnew; [done|].
  injection Honce as <-. cbn [columns rows].
  destruct (rows t) as [|hdr body] eqn:Hrows; [done|].
  cbn [firstn app]. split; [|split; [done|split; [done|]]].
  - rewrite clear_table_rows, fill_table_rows. cbn [columns rows firstn app].
    by rewrite Hnew.
  - simpl. by rewrite (filled_rows_length _ _ _ Hnew).
Qed.

Lemma populate_idempotent_on_table_with_header_witness :
  exists t1,
    @populate ascii_lib letter_table sample_values = inr t1 /\
    @populate ascii_lib t1 sample_values = inr t1 /\
    List.length (rows t1) = 3%nat.
Proof.
  eexists. split; [reflexivity|].
  split.
  - apply (@populate_idempotent_on_table_with_header ascii_lib letter_table sample_values);
      [discriminate | reflexivity].
  - reflexivity.
Defined.

(** ** The dataset normaliser *)

Lemma in_columns_In (c : string) (cols : list string) :
  in_columns c cols = true <-> In c cols.
Proof. apply existsb_eqb_In. Qed.

Lemma role_missing_resolved (df : DataFrame) (mapping : gmap string (option string))
    (key : string) :
  role_missing df mapping key = false <-> resolved df mapping key.
Proof.
  unfold role_missing, resolved.
  destruct (mapping !! key) as [[c|]|].
  - rewrite negb_false_iff, in_columns_In. split.
    + intros Hin. by exists c.
    + by intros (c' & [= <-] & Hin).
  - split; [done | by intros (c' & [=] & _)].
  - split; [done | by intros (c' & [=] & _)].
Qed.

Lemma role_column_resolved (df : DataFrame) (mapping : gmap string (option string))
    (key : string) :
  resolved df mapping key -> In (role_column mapping key) (df_columns df).
Proof. intros (c & Hc & Hin). unfold role_column. by rewrite Hc. Qed.

Lemma required_all_resolved (df : DataFrame) (mapping : gmap string (option string)) :
  find (role_missing df mapping) REQUIRED_ROLES = None <->
  forall key, In key REQUIRED_ROLES -> resolved df mapping key.
Proof.
  split.
  - intros Hfind key Hkey. apply role_missing_resolved.
    by apply (find_none _ _ Hfind).
  - intros Hall. destruct (find _ REQUIRED_ROLES) as [key|] eqn:Hfind; [|done].
    apply find_some in Hfind as [Hin Hmiss].
    apply Hall, role_missing_resolved in Hin. congruence.
Qed.

Lemma count_label_absent (c : string) (cols : list string) :
  ~ In c cols -> count_label c cols = 0%nat.
Proof.
  unfold count_label. induction cols as [|x cols IH]; intros Hnin; [done|].
  simpl. destruct (String.eqb_spec c x) as [->|Hne].
  - exfalso. apply Hnin. by left.
  - apply IH. intros Hin. apply Hnin. by right.
Qed.

Lemma count_label_NoDup (c : string) (cols : list string) :
  List.NoDup cols -> (count_label c cols <= 1)%nat.
Proof.
  induction 1 as [|x cols Hnin Hnd IH]; [unfold count_label; simpl; lia|].
  unfold count_label in *. cbn [List.filter].
  destruct (String.eqb_spec c x) as [->|Hne]; [|done].
  cbn [List.length]. fold (count_label x cols). rewrite count_label_absent by done. lia.
Qed.

Lemma missing_column_error_not_length (key : string) :
  ValueError "Length mismatch" <> missing_column_error key.
Proof. unfold missing_column_error. str_simpl. discriminate. Qed.

Lemma mapping_sound_insert (headers : list string) (m : gmap string (option string))
    (role c : string) :
  mapping_sound headers m -> In c headers -> mapping_sound headers (<[role := Some c]> m).
Proof.
  intros [Hdom Hval] Hc. split.
  - intros r Hr. destruct (decide (role = r)) as [->|Hne].
    + rewrite lookup_insert_eq. eauto.
    + rewrite lookup_insert_ne by done. by apply Hdom.
  - intros r c'. destruct (decide (role = r)) as [->|Hne].
    + rewrite lookup_insert_eq. by intros [= <-].
    + rewrite lookup_insert_ne by done. apply Hval.
Qed.

Lemma dict_keys_In (c : string) (l : list string) : In c (dict_keys l) -> In c l.
Proof.
  induction l as [|x l IH]; [done|]. simpl. intros [-> | Hin]; [by left|].
  apply filter_In in Hin as [Hin _]. right. by apply IH.
Qed.

Lemma cols_norm_filter_In `{PyLib} (headers : list string) (P : string * string -> bool)
    (c : string) :
  In c (map fst (List.filter P (cols_norm headers))) -> In c headers.
Proof.
  rewrite in_map_iff. intros ([c' n] & <- & Hin).
  apply filter_In in Hin as [Hin _]. unfold cols_norm in Hin.
  apply in_map_iff in Hin as (x & [= <- _] & Hx). by apply dict_keys_In.
Qed.

Lemma guess_role_sound `{PyLib} (headers : list string) (m : gmap string (option string))
    (entry : string * list string) :
  mapping_sound headers m -> mapping_sound headers (guess_role (cols_norm headers) m entry).
Proof.
  intros Hm. destruct entry as [role al]. unfold guess_role.
  destruct (exact_matches _ al) as [|c rest] eqn:He.
  - destruct (partial_matches _ al) as [|c rest] eqn:Hp; [done|].
    apply mapping_sound_insert; [done|].
    apply (cols_norm_filter_In headers
             (fun p => existsb (fun a => PyStr.contains a (snd p)) al)).
    unfold partial_matches in Hp. rewrite Hp. by left.
  - apply mapping_sound_insert; [done|].
    apply (cols_norm_filter_In headers (fun p => existsb (String.eqb (snd p)) al)).
    unfold exact_matches in He. rewrite He. by left.
Qed.

Lemma guess_mapping_sound `{PyLib} (headers : list string) :
  mapping_sound headers (guess_mapping headers).
Proof.
  unfold guess_mapping.
  set (m0 := list_to_map _ : gmap string (option string)).
  assert (H0 : mapping_sound headers m0).
  { split.
    - intros role Hrole. simpl in Hrole.
      repeat (destruct Hrole as [<- | Hrole]; [by eexists|]). done.
    - intros role c Hc. exfalso. subst m0.
      apply elem_of_list_to_map_2 in Hc. apply list_elem_of_In in Hc. simpl in Hc.
      repeat (destruct Hc as [Hc | Hc]; [discriminate Hc|]). done. }
  assert (Hfold : forall syn m, mapping_sound headers m ->
                                mapping_sound headers (foldl (guess_role (cols_norm headers)) m syn)).
  { induction syn as [|e syn IH]; intros m Hm; [done|].
    simpl. by apply IH, guess_role_sound. }
  specialize (Hfold SYNONYMS m0 H0).
  destruct (foldl _ m0 SYNONYMS !! "grupo") as [[g|]|]; try done.
  destruct (group_fallback _) as [c|] eqn:Hfb; [|done].
  apply mapping_sound_insert; [done|].
  unfold group_fallback in Hfb.
  destruct (List.filter _ (cols_norm headers)) as [|p rest] eqn:Hf; [done|].
  injection Hfb as <-.
  apply (cols_norm_filter_In headers
           (fun p => existsb (fun x => PyStr.contains x (snd p)) GROUP_KEYWORDS)).
  rewrite Hf. by left.
Qed.

(** C8 as stated fails: with the five required columns present, a group
    role naming a column the frame does not have makes the normaliser raise
    (the [KeyError] of the column selection). *)
Lemma normaliser_raises_on_unknown_group_column :
  ~ (forall (df : DataFrame) (mapping : gmap string (option string)),
        (forall key, In key REQUIRED_ROLES -> resolved df mapping key) ->
        is_ok (@prepare_dataframe ascii_lib df mapping) = true).
Proof.
  intros H.
  specialize (H {| df_columns := ["Actor"; "Mesa"; "Nivel"; "Fecha"; "Dato"];
                   df_rows := [] |}
                (list_to_map [("actor", Some "Actor"); ("mesa", Some "Mesa");
                              ("nivel", Some "Nivel"); ("fecha", Some "Fecha");
                              ("dato", Some "Dato"); ("grupo", Some "Dependencia")])).
  assert (Hf : false = true); [|discriminate Hf].
  apply H. intros key Hkey. simpl in Hkey.
  repeat (destruct Hkey as [<- | Hkey]; [eexists; split; [reflexivity | simpl; tauto]|]).
  done.
Qed.

(** C8, amended.  The normaliser raises its missing-column error exactly
    when one of the five required roles is absent from the mapping, null, or
    names a column the frame does not have; the mapper never fails and gives
    each role nothing or a header of the frame.  When the five required
    roles are resolved, the headers of the frame are distinct and the group
    role is unset or names a column of the frame, normalisation succeeds
    with one row per row of the frame, whose timestamp is the date resolved
    from the date cell and whose display field is that timestamp
    formatted. *)
Theorem normaliser_checks_required_roles `{PyLib}
    (df : DataFrame) (mapping : gmap string (option string)) :
  ((exists key, prepare_dataframe df mapping = inl (missing_column_error key)) <->
   ~ (forall key, In key REQUIRED_ROLES -> resolved df mapping key)) /\
  ((forall key, In key REQUIRED_ROLES -> resolved df mapping key) ->
   List.NoDup (df_columns df) ->
   (forall g, group_column mapping = Some g -> In g (df_columns df)) ->
   exists wf,
     prepare_dataframe df mapping = inr wf /\
     List.length (work_rows wf) = List.length (df_rows df) /\
     (grupo_col wf = true <-> is_Some (group_column mapping)) /\
     (forall r, In r (work_rows wf) ->
                _FECHA_TS r = parse_date (FECHA r) /\
                FECHA_FMT r = format_date_dmy (_FECHA_TS r))) /\
  (forall headers : list string, mapping_sound headers (guess_mapping headers)).
Proof.
  split; [|split; [|apply guess_mapping_sound]].
  - unfold prepare_dataframe. split.
    + intros [key Hkey] Hall. apply required_all_resolved in Hall.
      rewrite Hall in Hkey.
      destruct (find _ (_ ++ _)%list); [discriminate Hkey|].
      destruct (existsb _ _); [|discriminate Hkey].
      injection Hkey as Hkey. by apply (missing_column_error_not_length key); f_equal.
    + intros Hnot. destruct (find (role_missing df mapping) REQUIRED_ROLES) as [key|] eqn:Hf.
      * by exists key.
      * exfalso. by apply Hnot, required_all_resolved.
  - intros Hall Hnd Hgroup. unfold prepare_dataframe.
    rewrite (proj2 (required_all_resolved df mapping) Hall).
    set (cols := (_ ++ _)%list).
    assert (Hcols : forall c, In c cols -> In c (df_columns df)).
    { intros c Hc. subst cols. apply in_app_or in Hc as [Hc | Hc].
      - destruct Hc as [<- | Hc].
        + apply role_column_resolved, Hall. simpl. tauto.
        + destruct (group_column mapping) as [g|] eqn:Hg; [|done].
          destruct Hc as [<- | []]. by apply Hgroup.
      - simpl in Hc.
        repeat (destruct Hc as [<- | Hc];
                [apply role_column_resolved, Hall; simpl; tauto|]).
        done. }
    destruct (find _ cols) as [c|] eqn:Hfind.
    { apply find_some in Hfind as [Hin Hc]. apply Hcols, in_columns_In in Hin.
      by rewrite Hin in Hc. }
    destruct (existsb _ cols) eqn:Hdup.
    { apply existsb_exists in Hdup as (c & _ & Hc). apply Nat.ltb_lt in Hc.
      pose proof (count_label_NoDup c _ Hnd). lia. }
    eexists. split; [reflexivity|]. cbn [work_rows grupo_col].
    split; [by rewrite length_map|]. split.
    + destruct (group_column mapping); split; done.
    + intros r Hr. apply in_map_iff in Hr as (x & <- & _). done.
Qed.

(** C8 at work: a mapping without the level role is refused, a complete
    mapping with an existing group column is accepted. *)
Lemma normaliser_checks_required_roles_witness :
  (exists key, @prepare_dataframe ascii_lib sample_frame (delete "nivel" sample_mapping)
               = inl (missing_column_error key)) /\
  (exists wf, @prepare_dataframe ascii_lib sample_frame sample_mapping = inr wf /\
              map FECHA_FMT (work_rows wf) = ["15/03/2024"; "31/12/1899"; ""]).
Proof.
  split.
  - apply (@normaliser_checks_required_roles ascii_lib sample_frame
             (delete "nivel" sample_mapping)).
    intros Hall. destruct (Hall "nivel") as (c & Hc & _); [simpl; tauto|].
    vm_compute in Hc. discriminate Hc.
  - destruct (@normaliser_checks_required_roles ascii_lib sample_frame sample_mapping)
      as (_ & Hok & _).
    destruct Hok as (wf & Hwf & _).
    + intros key Hkey. simpl in Hkey.
      repeat (destruct Hkey as [<- | Hkey]; [eexists; split; [reflexivity | simpl; tauto]|]).
      done.
    + simpl. repeat (apply List.NoDup_cons; [simpl; intuition discriminate|]).
      apply List.NoDup_nil.
    + intros g Hg. vm_compute in Hg. injection Hg as <-. simpl. tauto.
    + exists wf. split; [exact Hwf|].
      vm_compute in Hwf. injection Hwf as <-. reflexivity.
Defined.

(** ** Sorting and grouping *)

Lemma insert_by_perm {A : Type} (leb : A -> A -> bool) (x : A) (l : list A) :
  Permutation (insert_by leb x l) (x :: l).
Proof.
  induction l as [|y l IH]; [done|]. simpl.
  destruct (leb y x); [|done].
  rewrite IH. apply perm_swap.
Qed.

Lemma sort_by_snoc {A : Type} (leb : A -> A -> bool) (l : list A) (x : A) :
  sort_by leb (l ++ [x]) = insert_by leb x (sort_by leb l).
Proof. unfold sort_by. by rewrite rev_app_distr. Qed.

Lemma sort_by_perm {A : Type} (leb : A -> A -> bool) (l : list A) :
  Permutation (sort_by leb l) l.
Proof.
  induction l as [|x l IH] using rev_ind; [done|].
  rewrite sort_by_snoc, insert_by_perm, IH.
  apply Permutation_cons_append.
Qed.

(** Insertion keeps a list sorted, for an order that is total and
    transitive on the elements at hand. *)
Lemma insert_by_sorted {A : Type} (leb : A -> A -> bool) (P : A -> Prop) :
  (forall a b, P a -> P b -> leb a b = false -> leb b a = true) ->
  (forall a b c, P a -> P b -> P c -> leb a b = true -> leb b c = true -> leb a c = true) ->
  forall x l, P x -> Forall P l ->
    StronglySorted (fun a b => leb a b = true) l ->
    StronglySorted (fun a b => leb a b = true) (insert_by leb x l).
Proof.
  intros Htot Htrans x l Hx HP Hs.
  induction Hs as [|y l Hs IH Hy]; [repeat constructor|].
  apply Forall_cons_1 in HP as [HPy HPl]. simpl.
  destruct (leb y x) eqn:Hyx.
  - constructor; [by apply IH|].
    apply Forall_forall. intros z Hz. apply list_elem_of_In in Hz.
    apply (Permutation_in _ (insert_by_perm leb x l)) in Hz as [<- | Hz]; [done|].
    apply list_elem_of_In in Hz. by apply (proj1 (Forall_forall _ _) Hy).
  - constructor; [by constructor|].
    assert (Hxy : leb x y = true) by by apply Htot.
    constructor; [done|].
    apply Forall_forall. intros z Hz.
    apply (Htrans x y z); try done.
    + by apply (proj1 (Forall_forall _ _) HPl).
    + by apply (proj1 (Forall_forall _ _) Hy).
Qed.

Lemma sort_by_sorted {A : Type} (leb : A -> A -> bool) (P : A -> Prop) :
  (forall a b, P a -> P b -> leb a b = false -> leb b a = true) ->
  (forall a b c, P a -> P b -> P c -> leb a b = true -> leb b c = true -> leb a c = true) ->
  forall l, Forall P l -> StronglySorted (fun a b => leb a b = true) (sort_by leb l).
Proof.
  intros Htot Htrans l. induction l as [|x l IH] using rev_ind; intros HP.
  - constructor.
  - apply Forall_app in HP as [HPl HPx]. apply Forall_cons_1 in HPx as [HPx _].
    rewrite sort_by_snoc. apply (insert_by_sorted leb P); try done.
    + apply Forall_forall. intros z Hz. apply list_elem_of_In in Hz.
      apply (Permutation_in _ (sort_by_perm leb l)) in Hz.
      apply list_elem_of_In in Hz. by apply (proj1 (Forall_forall _ _) HPl).
    + by apply IH.
Qed.

Lemma StronglySorted_append {A : Type} (R : A -> A -> Prop) (l1 l2 : list A) :
  StronglySorted R l1 -> StronglySorted R l2 ->
  (forall a b, In a l1 -> In b l2 -> R a b) ->
  StronglySorted R (l1 ++ l2).
Proof.
  intros H1 H2 H12. induction H1 as [|x l1 H1 IH Hx]; [done|].
  simpl. constructor.
  - apply IH. intros a b Ha Hb. apply H12; [by right | done].
  - apply Forall_app. split; [done|].
    apply Forall_forall. intros b Hb. apply list_elem_of_In in Hb.
    apply H12; [by left | done].
Qed.

Lemma StronglySorted_reverse {A : Type} (R : A -> A -> Prop) (l : list A) :
  StronglySorted R l -> StronglySorted (fun a b => R b a) (rev l).
Proof.
  induction 1 as [|x l Hs IH Hx]; [constructor|].
  simpl. apply StronglySorted_append; [done | repeat constructor |].
  intros a b Ha [<- | []]. apply in_rev in Ha.
  apply list_elem_of_In in Ha. by apply (proj1 (Forall_forall _ _) Hx).
Qed.

Lemma StronglySorted_weaken {A : Type} (R R' : A -> A -> Prop) (l : list A) :
  (forall a b, In a l -> In b l -> R a b -> R' a b) ->
  StronglySorted R l -> StronglySorted R' l.
Proof.
  intros Himp Hs. induction Hs as [|x l Hs IH Hx]; [constructor|].
  constructor.
  - apply IH. intros a b Ha Hb. apply Himp; by right.
  - apply Forall_forall. intros b Hb.
    apply Himp; [by left | right; by apply list_elem_of_In |].
    by apply (proj1 (Forall_forall _ _) Hx).
Qed.

Lemma StronglySorted_trivial {A : Type} (l : list A) :
  StronglySorted (fun _ _ => True) l.
Proof. induction l; constructor; [done|]. by apply Forall_forall. Qed.

Lemma StronglySorted_filter {A : Type} (R : A -> A -> Prop) (f : A -> bool) (l : list A) :
  StronglySorted R l -> StronglySorted R (List.filter f l).
Proof.
  induction 1 as [|x l Hs IH Hx]; [constructor|].
  simpl. destruct (f x); [|done].
  constructor; [done|].
  apply Forall_forall. intros b Hb. apply list_elem_of_In, filter_In in Hb as [Hb _].
  apply list_elem_of_In in Hb. by apply (proj1 (Forall_forall _ _) Hx).
Qed.

Lemma filter_partition_perm {A : Type} (f : A -> bool) (l : list A) :
  Permutation l (List.filter f l ++ List.filter (fun x => negb (f x)) l).
Proof.
  induction l as [|x l IH]; [done|]. simpl.
  destruct (f x); simpl.
  - by constructor.
  - rewrite IH at 1. apply Permutation_middle.
Qed.

Lemma has_ts_Some (r : NormRow) : has_ts r = true <-> exists t, _FECHA_TS r = Some t.
Proof.
  unfold has_ts. destruct (_FECHA_TS r) as [t|]; split; try done; [by exists t|].
  intros [t Ht]. discriminate Ht.
Qed.

(** The rows with a timestamp come out of the sort in ascending order. *)
Lemma dated_rows_sorted (l : list NormRow) :
  Forall (fun r => has_ts r = true) l ->
  StronglySorted (date_order true) (sort_by ts_leb l).
Proof.
  intros Hl.
  apply (StronglySorted_weaken (fun a b => ts_leb a b = true)).
  - assert (Hin : forall r, In r (sort_by ts_leb l) -> has_ts r = true).
    { intros r Hr. apply (Permutation_in _ (sort_by_perm ts_leb l)) in Hr.
      apply list_elem_of_In in Hr. by apply (proj1 (Forall_forall _ _) Hl). }
    intros a b [x Ha]%Hin%has_ts_Some [y Hb]%Hin%has_ts_Some.
    unfold ts_leb, date_order. rewrite Ha, Hb. by intros ?%Z.leb_le.
  - apply (sort_by_sorted ts_leb (fun r => has_ts r = true)); [| |done].
    + intros a b [x Ha]%has_ts_Some [y Hb]%has_ts_Some. unfold ts_leb.
      rewrite Ha, Hb. intros ?%Z.leb_gt. apply Z.leb_le. lia.
    + intros a b c [x Ha]%has_ts_Some [y Hb]%has_ts_Some [z Hc]%has_ts_Some.
      unfold ts_leb. rewrite Ha, Hb, Hc. intros ?%Z.leb_le ?%Z.leb_le.
      apply Z.leb_le. lia.
Qed.

Lemma sort_values_perm (ascending : bool) (l : list NormRow) :
  Permutation l (sort_values ascending l).
Proof.
  unfold sort_values. rewrite (filter_partition_perm has_ts l) at 1.
  apply Permutation_app_tail. destruct ascending.
  - symmetry. apply sort_by_perm.
  - rewrite <- Permutation_rev, sort_by_perm. apply Permutation_rev.
Qed.

Lemma sort_values_sorted (ascending : bool) (l : list NormRow) :
  StronglySorted (date_order ascending) (sort_values ascending l).
Proof.
  unfold sort_values.
  assert (Hdated : Forall (fun r => has_ts r = true) (List.filter has_ts l)).
  { apply Forall_forall. intros r Hr. by apply list_elem_of_In, filter_In in Hr as [_ Hr]. }
  assert (Hfront : forall r,
             In r (if ascending then sort_by ts_leb (List.filter has_ts l)
                   else rev (sort_by ts_leb (rev (List.filter has_ts l)))) ->
             has_ts r = true).
  { intros r Hr.
    assert (Hin : In r (List.filter has_ts l)).
    { destruct ascending.
      - by apply (Permutation_in _ (sort_by_perm ts_leb _)) in Hr.
      - apply in_rev in Hr. apply (Permutation_in _ (sort_by_perm ts_leb _)) in Hr.
        by apply in_rev in Hr. }
    by apply filter_In in Hin as [_ Hin]. }
  apply StronglySorted_append.
  - destruct ascending; [by apply dated_rows_sorted|].
    apply (StronglySorted_weaken (fun a b => date_order true b a)).
    + intros a b [x Ha]%Hfront%has_ts_Some [y Hb]%Hfront%has_ts_Some.
      unfold date_order. by rewrite Ha, Hb.
    + apply StronglySorted_reverse, dated_rows_sorted.
      by apply Forall_rev.
  - apply (StronglySorted_weaken (fun _ _ => True)).
    + intros a b [_ Ha]%filter_In [_ Hb]%filter_In _. unfold date_order, has_ts in *.
      by destruct (_FECHA_TS a), (_FECHA_TS b).
    + apply StronglySorted_trivial.
  - intros a b Ha%Hfront [_ Hb]%filter_In. unfold date_order, has_ts in *.
    by destruct (_FECHA_TS a), (_FECHA_TS b).
Qed.

Lemma groupby_rows (key : NormRow -> Value) (l : list NormRow) (g : Value * list NormRow) :
  In g (groupby key l) -> snd g = List.filter (fun r => key_eqb (fst g) (key r)) l.
Proof. unfold groupby. rewrite in_map_iff. by intros (k & <- & _). Qed.

(** C6.  Before the rows are partitioned, all of them are sorted by their
    timestamp, ascending when [newest_first] is false and descending when
    it is true, the rows without timestamp last either way; the letter
    builder is run on the groups of the sorted rows, each of which keeps
    that order.  The rows dated 2024-01-01, 2024-03-01 and undated come out,
    newest first, as 2024-03-01, 2024-01-01, undated. *)
Theorem rows_sorted_by_date_before_grouping `{PyLib}
    (work_df : WorkFrame) (template : Document) (group_field : string)
    (placeholders_per_group : option (gmap string (list (string * string))))
    (table_index : option Z) (newest_first : bool) :
  let sorted := sort_values (negb newest_first) (work_rows work_df) in
  Permutation (work_rows work_df) sorted /\
  StronglySorted (date_order (negb newest_first)) sorted /\
  (forall key, group_value work_df group_field = Some key ->
     generate_letters_per_group work_df template group_field placeholders_per_group
       table_index newest_first
     = (let st := batch_loop (fun filas placeholders =>
                                build_letter_bytes template filas placeholders table_index)
                             placeholders_per_group (groupby key sorted) in
        inr (outputs st, errors st, sort_by summary_leb (summary_rows st))) /\
     forall g, In g (groupby key sorted) ->
               StronglySorted (date_order (negb newest_first)) (snd g)) /\
  map FECHA_FMT (sort_values (negb true) dated_rows) = ["01/03/2024"; "01/01/2024"; ""] /\
  map FECHA_FMT (sort_values (negb false) dated_rows) = ["01/01/2024"; "01/03/2024"; ""].
Proof.
  intros sorted. split; [apply sort_values_perm|]. split; [apply sort_values_sorted|].
  split; [|split; reflexivity].
  intros key Hkey. split.
  - unfold generate_letters_per_group. by rewrite Hkey.
  - intros g Hg. rewrite (groupby_rows _ _ _ Hg).
    apply StronglySorted_filter, sort_values_sorted.
Qed.

Lemma rows_sorted_by_date_before_grouping_witness :
  let sorted := sort_values false dated_rows in
  map FECHA_FMT sorted = ["01/03/2024"; "01/01/2024"; ""] /\
  map (fun g => map FECHA_FMT (snd g)) (groupby ACTOR sorted)
  = [["01/01/2024"; ""]; ["01/03/2024"]] /\
  forall g, In g (groupby ACTOR sorted) -> StronglySorted (date_order false) (snd g).
Proof.
  intros sorted.
  destruct (@rows_sorted_by_date_before_grouping ascii_lib
              {| grupo_col := false; work_rows := dated_rows |} letter_doc "ACTOR" None None true)
    as (_ & _ & Hgroups & Hnewest & _).
  split; [exact Hnewest|]. split; [reflexivity|].
  apply (Hgroups ACTOR eq_refl).
Defined.

(** ** The batch loop *)

Section BatchFacts.
Context `{PyLib}.
Variable build : list (list (option string)) -> option (list (string * string)) -> Exn + Document.
Variable ppg : option (gmap string (list (string * string))).

Local Abbreviation result := (group_result build ppg).
Local Abbreviation step := (batch_step build ppg).
Local Abbreviation succeeded := (List.filter (fun g => is_ok (result g))).
Local Abbreviation failed := (List.filter (fun g => negb (is_ok (result g)))).

Lemma batch_step_ok (st : BatchState) (g : Value * list NormRow) (doc : Document) :
  result g = inr doc ->
  step st g = {| outputs := <[group_file g := doc]> (outputs st);
                 errors := errors st;
                 summary_rows := (summary_rows st ++ [summary_row g])%list |}.
Proof.
  unfold group_result, batch_step, group_file, group_name, summary_row. intros ->.
  unfold _rows_from_group. by rewrite length_map.
Qed.

Lemma batch_step_err (st : BatchState) (g : Value * list NormRow) (e : Exn) :
  result g = inl e ->
  step st g = {| outputs := outputs st;
                 errors := <[group_name g := exn_str e]> (errors st);
                 summary_rows := summary_rows st |}.
Proof. unfold group_result, batch_step, group_name. by intros ->. Qed.

(** The index gets one row per group whose letter was built, in the order
    of the groups. *)
Lemma batch_summary (gs : list (Value * list NormRow)) (st : BatchState) :
  summary_rows (foldl step st gs) = (summary_rows st ++ map summary_row (succeeded gs))%list.
Proof.
  revert st. induction gs as [|g gs IH]; intros st; simpl; [by rewrite app_nil_r|].
  rewrite IH. destruct (result g) as [e|doc] eqn:Hg; simpl.
  - by rewrite (batch_step_err st g e Hg).
  - rewrite (batch_step_ok st g doc Hg). simpl. by rewrite <- app_assoc.
Qed.

(** A file that no built group is written to is left as it was. *)
Lemma batch_outputs_other (gs : list (Value * list NormRow)) (st : BatchState) (f : string) :
  ~ In f (map group_file (succeeded gs)) ->
  outputs (foldl step st gs) !! f = outputs st !! f.
Proof.
  revert st. induction gs as [|g gs IH]; intros st Hf; simpl in *; [done|].
  destruct (result g) as [e|doc] eqn:Hg; simpl in *.
  - rewrite IH by done. by rewrite (batch_step_err st g e Hg).
  - rewrite IH by tauto. rewrite (batch_step_ok st g doc Hg). simpl.
    apply lookup_insert_ne. tauto.
Qed.

Lemma batch_errors_other (gs : list (Value * list NormRow)) (st : BatchState) (n : string) :
  ~ In n (map group_name (failed gs)) ->
  errors (foldl step st gs) !! n = errors st !! n.
Proof.
  revert st. induction gs as [|g gs IH]; intros st Hn; simpl in *; [done|].
  destruct (result g) as [e|doc] eqn:Hg; simpl in *.
  - rewrite IH by tauto. rewrite (batch_step_err st g e Hg). simpl.
    apply lookup_insert_ne. tauto.
  - rewrite IH by done. by rewrite (batch_step_ok st g doc Hg).
Qed.

Lemma NoDup_map_filter {A B : Type} (f : A -> B) (p : A -> bool) (l : list A) :
  List.NoDup (map f l) -> List.NoDup (map f (List.filter p l)).
Proof.
  induction l as [|x l IH]; simpl; [done|].
  intros [Hx Hl]%List.NoDup_cons_iff. destruct (p x); simpl; [|by apply IH].
  apply List.NoDup_cons; [|by apply IH].
  intros (y & Hy & [Hin _]%filter_In)%in_map_iff. apply Hx, in_map_iff. eauto.
Qed.

(** With the files of the groups pairwise distinct, the letter of a built
    group is found under its file. *)
Lemma batch_outputs_lookup (gs : list (Value * list NormRow)) (st : BatchState)
    (g : Value * list NormRow) (doc : Document) :
  List.NoDup (map group_file gs) -> In g gs -> result g = inr doc ->
  outputs (foldl step st gs) !! group_file g = Some doc.
Proof.
  revert st. induction gs as [|g0 gs IH]; intros st Hnd Hin Hg; [done|].
  simpl in Hnd. apply List.NoDup_cons_iff in Hnd as [Hfresh Hnd].
  simpl. destruct Hin as [-> | Hin]; [|by apply IH].
  rewrite batch_outputs_other.
  - rewrite (batch_step_ok st g doc Hg). simpl. apply lookup_insert_eq.
  - intros (y & Hy & [Hin _]%filter_In)%in_map_iff. apply Hfresh, in_map_iff. eauto.
Qed.

Lemma batch_errors_lookup (gs : list (Value * list NormRow)) (st : BatchState)
    (g : Value * list NormRow) (e : Exn) :
  List.NoDup (map group_name gs) -> In g gs -> result g = inl e ->
  errors (foldl step st gs) !! group_name g = Some (exn_str e).
Proof.
  revert st. induction gs as [|g0 gs IH]; intros st Hnd Hin Hg; [done|].
  simpl in Hnd. apply List.NoDup_cons_iff in Hnd as [Hfresh Hnd].
  simpl. destruct Hin as [-> | Hin]; [|by apply IH].
  rewrite batch_errors_other.
  - rewrite (batch_step_err st g e Hg). simpl. apply lookup_insert_eq.
  - intros (y & Hy & [Hin _]%filter_In)%in_map_iff. apply Hfresh, in_map_iff. eauto.
Qed.

Lemma batch_outputs_size (gs : list (Value * list NormRow)) (st : BatchState) :
  List.NoDup (map group_file gs) ->
  (forall g, In g gs -> outputs st !! group_file g = None) ->
  size (outputs (foldl step st gs)) = (size (outputs st) + List.length (succeeded gs))%nat.
Proof.
  revert st. induction gs as [|g gs IH]; intros st Hnd Hfree; simpl; [lia|].
  simpl in Hnd. apply List.NoDup_cons_iff in Hnd as [Hfresh Hnd].
  destruct (result g) as [e|doc] eqn:Hg; simpl.
  - rewrite IH; [|done|].
    + by rewrite (batch_step_err st g e Hg).
    + intros g' Hg'. rewrite (batch_step_err st g e Hg). simpl. apply Hfree. by right.
  - rewrite IH; [|done|].
    + rewrite (batch_step_ok st g doc Hg). simpl.
      rewrite map_size_insert_None by (apply Hfree; by left). lia.
    + intros g' Hg'. rewrite (batch_step_ok st g doc Hg). simpl.
      rewrite lookup_insert_ne; [apply Hfree; by right|].
      intros Heq. apply Hfresh, in_map_iff. eauto.
Qed.

Lemma batch_errors_size (gs : list (Value * list NormRow)) (st : BatchState) :
  List.NoDup (map group_name gs) ->
  (forall g, In g gs -> errors st !! group_name g = None) ->
  size (errors (foldl step st gs)) = (size (errors st) + List.length (failed gs))%nat.
Proof.
  revert st. induction gs as [|g gs IH]; intros st Hnd Hfree; simpl; [lia|].
  simpl in Hnd. apply List.NoDup_cons_iff in Hnd as [Hfresh Hnd].
  destruct (result g) as [e|doc] eqn:Hg; simpl.
  - rewrite IH; [|done|].
    + rewrite (batch_step_err st g e Hg). simpl.
      rewrite map_size_insert_None by (apply Hfree; by left). lia.
    + intros g' Hg'. rewrite (batch_step_err st g e Hg). simpl.
      rewrite lookup_insert_ne; [apply Hfree; by right|].
      intros Heq. apply Hfresh, in_map_iff. eauto.
  - rewrite IH; [|done|].
    + by rewrite (batch_step_ok st g doc Hg).
    + intros g' Hg'. rewrite (batch_step_ok st g doc Hg). simpl. apply Hfree. by right.
Qed.

Lemma filter_partition_length {A : Type} (p : A -> bool) (l : list A) :
  List.length l
  = (List.length (List.filter p l) + List.length (List.filter (fun x => negb (p x)) l))%nat.
Proof. induction l as [|x l IH]; simpl; [done|]. destruct (p x); simpl; lia. Qed.

End BatchFacts.

Lemma NoDup_map_compose {A B C : Type} (f : B -> C) (g : A -> B) (l : list A) :
  List.NoDup (map (fun x => f (g x)) l) -> List.NoDup (map g l).
Proof.
  intros Hnd. apply (NoDup_map_inv f). by rewrite map_map.
Qed.

Lemma NoDup_map_same {A B : Type} (f : A -> B) (l : list A) (x y : A) :
  List.NoDup (map f l) -> In x l -> In y l -> f x = f y -> x = y.
Proof.
  induction l as [|a l IH]; [done|]. simpl.
  intros [Ha Hl]%List.NoDup_cons_iff [-> | Hx] [-> | Hy] Heq; try done.
  - exfalso. apply Ha. rewrite Heq. by apply in_map.
  - exfalso. apply Ha. rewrite <- Heq. by apply in_map.
  - by apply IH.
Qed.

(** C5 as stated fails.  Of three groups exactly one fails, the group
    [Zoe] whose row holds a control character that no cell can store; the
    letters of the groups [Sec. Salud] and [Sec Salud] are both built and
    both listed in the index, and they go to the same file: [outputs] keeps
    one document, not two. *)
Lemma two_groups_one_output_file :
  exists outs errs idx,
    @generate_letters_per_group ascii_lib colliding_frame letter_doc "ACTOR" None None true
    = inr (outs, errs, idx) /\
    idx = [("Sec Salud", 1%nat); ("Sec. Salud", 1%nat)] /\
    errs !! "Zoe" = Some (exn_str XML_TEXT_ERROR) /\
    size errs = 1%nat /\
    size outs = 1%nat.
Proof.
  eexists _, _, _. split; [reflexivity|].
  split; [reflexivity|]. split; [by vm_compute|]. split; by vm_compute.
Qed.

(** C5, amended.  Provided the groups go to pairwise distinct files, a
    group whose letter cannot be built is recorded in [errors] under its
    name with the message of the exception and stops nothing: every group
    whose letter is built has it in [outputs] under its file and has its row
    {group, number of rows} in the index, which lists the built groups
    only; so [outputs] and the index count the built groups and [errors]
    the others. *)
Theorem group_failures_are_isolated `{PyLib}
    (work_df : WorkFrame) (template : Document) (group_field : string)
    (placeholders_per_group : option (gmap string (list (string * string))))
    (table_index : option Z) (newest_first : bool) (key : NormRow -> Value)
    (Hkey : group_value work_df group_field = Some key)
    (Hfiles : List.NoDup
                (map group_file
                     (groupby key (sort_values (negb newest_first) (work_rows work_df))))) :
  let groups := groupby key (sort_values (negb newest_first) (work_rows work_df)) in
  let result :=
    group_result (fun filas placeholders =>
                    build_letter_bytes template filas placeholders table_index)
                 placeholders_per_group in
  let built := List.filter (fun g => is_ok (result g)) groups in
  exists outs errs idx,
    generate_letters_per_group work_df template group_field placeholders_per_group
      table_index newest_first = inr (outs, errs, idx) /\
    (forall g e, In g groups -> result g = inl e ->
                 errs !! group_name g = Some (exn_str e) /\ outs !! group_file g = None) /\
    (forall g doc, In g groups -> result g = inr doc ->
                   outs !! group_file g = Some doc /\ In (summary_row g) idx) /\
    Permutation idx (map summary_row built) /\
    size outs = List.length built /\
    List.length idx = List.length built /\
    size errs = (List.length groups - List.length built)%nat.
Proof.
  intros groups result built.
  assert (Hnames : List.NoDup (map group_name groups)).
  { apply (NoDup_map_compose file_name). exact Hfiles. }
  unfold generate_letters_per_group. rewrite Hkey. fold groups.
  unfold batch_loop.
  set (build := fun filas placeholders =>
                  build_letter_bytes template filas placeholders table_index) in *.
  set (st0 := {| outputs := ∅; errors := ∅; summary_rows := [] |}).
  assert (Hidx : Permutation
                   (sort_by summary_leb
                      (summary_rows (foldl (batch_step build placeholders_per_group) st0 groups)))
                   (map summary_row built)).
  { rewrite sort_by_perm, batch_summary. reflexivity. }
  eexists _, _, _. split; [reflexivity|].
  split; [|split; [|split; [exact Hidx|split; [|split]]]].
  - intros g e Hg He. split.
    + by apply batch_errors_lookup.
    + rewrite batch_outputs_other; [done|].
      intros (g' & Heq & [Hg' Hok]%filter_In)%in_map_iff.
      assert (g' = g) as -> by exact (NoDup_map_same group_file groups g' g Hfiles Hg' Hg Heq).
      fold result in Hok. by rewrite He in Hok.
  - intros g doc Hg Hdoc. split.
    + by apply batch_outputs_lookup.
    + apply (Permutation_in _ (Permutation_sym Hidx)), in_map, filter_In.
      split; [done|]. by rewrite Hdoc.
  - rewrite batch_outputs_size; [reflexivity | done | done].
  - rewrite (Permutation_length Hidx). apply length_map.
  - rewrite batch_errors_size; [|done|done].
    rewrite (filter_partition_length (fun g => is_ok (result g)) groups).
    subst built result st0. cbn [errors]. rewrite map_size_empty. cbv beta. lia.
Qed.

(** C5 at work: three groups, each with its own file.  The row of the
    group [Zoe] holds a control character that no cell can store, so its
    letter fails and the message goes to [errors]; the letters of the two
    other groups are built, that of [Ana] with its placeholder filled in,
    and the index lists these two groups: two documents, one error, two
    rows. *)
Lemma group_failures_are_isolated_witness :
  exists outs errs idx,
    @generate_letters_per_group ascii_lib partly_failing_frame letter_doc "ACTOR"
      (Some sample_placeholders) None true
    = inr (outs, errs, idx) /\
    size outs = 2%nat /\ size errs = 1%nat /\ List.length idx = 2%nat /\
    errs !! "Zoe" = Some (exn_str XML_TEXT_ERROR) /\
    outs !! "CARTA_Zoe.docx" = None /\
    In ("Luis", 1%nat) idx /\
    exists doc, outs !! "CARTA_Ana.docx" = Some doc /\
                paragraphs doc = [ [ {| run_text := "Estimado Ana P."; run_rPr := "" |} ] ].
Proof.
  set (groups := groupby ACTOR (sort_values (negb true) (work_rows partly_failing_frame))).
  set (result := @group_result ascii_lib
                   (fun filas placeholders =>
                      @build_letter_bytes ascii_lib letter_doc filas placeholders None)
                   (Some sample_placeholders)).
  set (ana := (VStr "Ana", [sample_row "Ana" (VStr "2024-01-01"); sample_row "Ana" VNone])).
  set (luis := (VStr "Luis", [sample_row "Luis" (VStr "2024-03-01")])).
  set (zoe := (VStr "Zoe", [tainted_row "Zoe"])).
  assert (Hgroups : groups = [ana; luis; zoe]) by (vm_compute; reflexivity).
  assert (Hnd : List.NoDup (map (@group_file ascii_lib) groups)).
  { rewrite Hgroups. vm_compute.
    repeat (apply List.NoDup_cons; [simpl; intuition discriminate|]). apply List.NoDup_nil. }
  assert (Hzoe : result zoe = inl XML_TEXT_ERROR) by (vm_compute; reflexivity).
  destruct (result luis) as [e|doc_luis] eqn:Hluis; [by vm_compute in Hluis|].
  destruct (result ana) as [e|doc_ana] eqn:Hana; [by vm_compute in Hana|].
  assert (Hpar : paragraphs doc_ana
                 = [ [ {| run_text := "Estimado Ana P."; run_rPr := "" |} ] ]).
  { vm_compute in Hana. injection Hana as <-. reflexivity. }
  destruct (@group_failures_are_isolated ascii_lib partly_failing_frame letter_doc "ACTOR"
              (Some sample_placeholders) None true ACTOR eq_refl Hnd)
    as (outs & errs & idx & Hgen & Hfail & Hbuilt & _ & Hout & Hidx & Herr).
  fold groups in Hfail, Hbuilt, Hout, Hidx, Herr. fold result in Hfail, Hbuilt, Hout, Hidx, Herr.
  rewrite Hgroups in Hfail, Hbuilt, Hout, Hidx, Herr.
  cbn [List.filter List.length] in Hout, Hidx, Herr.
  rewrite Hzoe, Hluis, Hana in Hout, Hidx, Herr. cbn [is_ok List.length Nat.sub] in Hout, Hidx, Herr.
  exists outs, errs, idx. split; [exact Hgen|].
  split; [exact Hout|]. split; [exact Herr|]. split; [exact Hidx|].
  destruct (Hfail zoe XML_TEXT_ERROR) as [Herrs Hnone]; [right; right; by left | exact Hzoe |].
  split; [exact Herrs|]. split; [exact Hnone|].
  destruct (Hbuilt luis doc_luis) as [_ Hrow]; [right; by left | exact Hluis |].
  split; [exact Hrow|].
  destruct (Hbuilt ana doc_ana) as [Hfile _]; [by left | exact Hana |].
  exists doc_ana. split; [exact Hfile | exact Hpar].
Defined.

(** * Further properties of the code *)

(** ** Dates: what is displayed parses back *)

Lemma pad2_append (n : Z) (r : string) :
  pad2 n ++ r = String (digit_char (n / 10)) (String (digit_char (n mod 10)) r).
Proof. reflexivity. Qed.

Lemma match_day_field (d : Z) (fmt : list Directive) (rest : string) (y0 m0 d0 : Z) :
  1 <= d <= 31 ->
  match_format (Dd :: Lit "/" :: fmt) (pad2 d ++ String "/" rest) y0 m0 d0
  = match_format fmt rest y0 m0 d.
Proof.
  intros Hd. rewrite pad2_append. cbn [match_format].
  generalize (match_format fmt). intros K.
  assert (Hc : exists k : nat, d = Z.of_nat k /\ (1 <= k <= 31)%nat).
  { exists (Z.to_nat d). lia. }
  destruct Hc as (k & -> & Hk). clear Hd.
  do 32 (destruct k as [|k];
         [try lia; vm_compute; try (destruct (K rest y0 m0 _); reflexivity) | ]).
  lia.
Qed.

Lemma match_month_field (m : Z) (fmt : list Directive) (rest : string) (y0 m0 d0 : Z) :
  1 <= m <= 12 ->
  match_format (Dm :: Lit "/" :: fmt) (pad2 m ++ String "/" rest) y0 m0 d0
  = match_format fmt rest y0 m d0.
Proof.
  intros Hm. rewrite pad2_append. cbn [match_format].
  generalize (match_format fmt). intros K.
  assert (Hc : exists k : nat, m = Z.of_nat k /\ (1 <= k <= 12)%nat).
  { exists (Z.to_nat m). lia. }
  destruct Hc as (k & -> & Hk). clear Hm.
  do 13 (destruct k as [|k];
         [try lia; vm_compute; try (destruct (K rest y0 _ d0); reflexivity) | ]).
  lia.
Qed.

Lemma digit_char_digit (k : Z) :
  0 <= k <= 9 -> is_digit (digit_char k) = true /\ digit_val (digit_char k) = k.
Proof.
  intros Hk.
  assert (Hc : exists n : nat, k = Z.of_nat n /\ (n <= 9)%nat).
  { exists (Z.to_nat k). lia. }
  destruct Hc as (n & -> & Hn). clear Hk.
  do 10 (destruct n as [|n]; [split; reflexivity|]). lia.
Qed.

Lemma match_year_field (y y0 m d : Z) :
  0 <= y <= 9999 -> match_format [DY] (pad4 y) y0 m d = Some (y, m, d, "").
Proof.
  intros Hy. unfold pad4. rewrite pad2_append.
  change (pad2 (y mod 100)) with
    (String (digit_char (y mod 100 / 10)) (String (digit_char ((y mod 100) mod 10)) "")).
  cbn [match_format cands_Y first_some fst snd].
  destruct (digit_char_digit (y / 100 / 10)) as [-> ->];
    [Z.div_mod_to_equations; lia|].
  destruct (digit_char_digit ((y / 100) mod 10)) as [-> ->];
    [Z.div_mod_to_equations; lia|].
  destruct (digit_char_digit (y mod 100 / 10)) as [-> ->];
    [Z.div_mod_to_equations; lia|].
  destruct (digit_char_digit ((y mod 100) mod 10)) as [-> ->];
    [Z.div_mod_to_equations; lia|].
  cbn [andb first_some fst snd match_format]. do 4 f_equal.
  Z.div_mod_to_equations. lia.
Qed.

Lemma year_first_format_rejects (c1 c2 : ascii) (rest : string) (fmt : list Directive) :
  strptime_timestamp (DY :: fmt) (String c1 (String c2 (String "/" rest))) = None.
Proof.
  unfold strptime_timestamp. cbn [match_format cands_Y].
  destruct rest as [|c4 rest]; [reflexivity|].
  replace (is_digit c1 && is_digit c2 && is_digit "/" && is_digit c4) with false; [reflexivity|].
  change (is_digit "/") with false. by rewrite andb_false_r.
Qed.

Lemma calendar_days_ok_spec (fuel : nat) (z0 z : Z) :
  calendar_days_ok fuel z0 = true -> z0 <= z < z0 + Z.of_nat fuel ->
  calendar_day_ok z = true.
Proof.
  revert z0. induction fuel as [|fuel IH]; intros z0 Hok Hz; [lia|].
  cbn [calendar_days_ok] in Hok.
  destruct (calendar_day_ok z0) eqn:H0; [|discriminate Hok].
  destruct (decide (z = z0)) as [->|Hne]; [done|].
  apply (IH (z0 + 1)); [done | lia].
Qed.

Lemma calendar_range_ok : calendar_days_ok (Z.to_nat 213503) (-106751) = true.
Proof. vm_cast_no_check (eq_refl true). Qed.

Lemma calendar_day_ok_range (z : Z) :
  -106751 <= z <= 106751 -> calendar_day_ok z = true.
Proof.
  intros Hz. apply (calendar_days_ok_spec _ _ _ calendar_range_ok).
  rewrite Z2Nat.id; lia.
Qed.

Lemma strftime_dmy_text (ts : Timestamp) (y m d : Z) :
  civil_from_days (ts / NS_PER_DAY) = (y, m, d) ->
  strftime_dmy ts = pad2 d ++ String "/" (pad2 m ++ String "/" (pad4 y)).
Proof. unfold strftime_dmy. by intros ->. Qed.



Lemma formats_read_date (y m d : Z) :
  1 <= y <= 9999 -> 1 <= m <= 12 -> 1 <= d <= days_in_month y m ->
  in_int64 (days_from_civil y m d * NS_PER_DAY) = true ->
  first_some (fun fmt => strptime_timestamp fmt
                           (pad2 d ++ String "/" (pad2 m ++ String "/" (pad4 y))))
             DATE_FORMATS
  = Some (days_from_civil y m d * NS_PER_DAY).
Proof.
  intros Hy Hm Hd Hfit.
  assert (Hdim : days_in_month y m <= 31).
  { unfold days_in_month.
    destruct (m =? 2); [destruct (is_leap y); lia|].
    destruct ((m =? 4) || (m =? 6) || (m =? 9) || (m =? 11)); lia. }
  unfold DATE_FORMATS. cbn [first_some].
  rewrite pad2_append at 1. rewrite year_first_format_rejects.
  unfold strptime_timestamp.
  rewrite (match_day_field d) by lia.
  rewrite (match_month_field m) by lia.
  rewrite match_year_field by lia.
  replace ((1 <=? y) && (y <=? 9999) && (1 <=? m) && (m <=? 12) && (1 <=? d)
           && (d <=? days_in_month y m)) with true.
  - by rewrite Hfit.
  - symmetry. repeat (apply andb_true_iff; split); lia.
Qed.

Lemma formats_read_displayed_day (ts : Timestamp) :
  -106751 <= ts / NS_PER_DAY <= 106751 ->
  first_some (fun fmt => strptime_timestamp fmt (strftime_dmy ts)) DATE_FORMATS
  = Some (ts / NS_PER_DAY * NS_PER_DAY).
Proof.
  intros Hz. pose proof (calendar_day_ok_range _ Hz) as Hok.
  unfold calendar_day_ok in Hok. unfold strftime_dmy.
  set (z := ts / NS_PER_DAY) in *. clearbody z.
  destruct (civil_from_days z) as [[y m] d].
  repeat (apply andb_true_iff in Hok as [Hok ?]).
  apply Z.eqb_eq in Hok.
  transitivity (Some (days_from_civil y m d * NS_PER_DAY)); [|by rewrite Hok].
  apply (formats_read_date y m d); try lia.
  rewrite Hok. apply andb_true_iff. unfold NS_PER_DAY.
  split; [apply Z.ltb_lt | apply Z.leb_le]; lia.
Qed.

(** X1.  A timestamp whose day starts within the range of pandas
    timestamps is displayed as a text that [parse_date] reads back as the
    midnight of that day, through the day-first format; displaying the
    result gives the same text again.  The hypothesis on [str.strip] says
    that it leaves the displayed text, which has no white space, alone. *)
Theorem displayed_date_parses_back `{PyLib} (ts : Timestamp)
    (Hday : -106751 <= ts / NS_PER_DAY <= 106751)
    (Hstrip : str_strip (format_date_dmy (Some ts)) = format_date_dmy (Some ts)) :
  parse_date (VStr (format_date_dmy (Some ts))) = Some (ts / NS_PER_DAY * NS_PER_DAY) /\
  format_date_dmy (parse_date (VStr (format_date_dmy (Some ts)))) = format_date_dmy (Some ts).
Proof.
  assert (Hparse : parse_date (VStr (format_date_dmy (Some ts)))
                   = Some (ts / NS_PER_DAY * NS_PER_DAY)).
  { unfold parse_date. cbn [isna serial_to_timestamp py_int py_str].
    rewrite Hstrip. cbn [format_date_dmy].
    by rewrite formats_read_displayed_day. }
  split; [exact Hparse|]. rewrite Hparse.
  cbn [format_date_dmy]. unfold strftime_dmy.
  rewrite Z.div_mul; [reflexivity | discriminate].
Qed.

Lemma displayed_date_parses_back_witness :
  let ts := days_from_civil 2024 2 29 * NS_PER_DAY + 45296000000000 in
  format_date_dmy (Some ts) = "29/02/2024" /\
  @parse_date ascii_lib (VStr "29/02/2024") = Some (days_from_civil 2024 2 29 * NS_PER_DAY).
Proof.
  intros ts. split; [reflexivity|].
  destruct (@displayed_date_parses_back ascii_lib ts) as [Hparse _].
  - vm_compute. split; discriminate.
  - reflexivity.
  - exact Hparse.
Defined.

(** ** Normalised texts and file names *)

Lemma all_chars_append (f : ascii -> bool) (a b : string) :
  all_chars f (a ++ b) = all_chars f a && all_chars f b.
Proof.
  induction a as [|c a IH]; str_simpl; simpl; [done|]. by rewrite IH, andb_assoc.
Qed.

Lemma all_chars_weaken (f g : ascii -> bool) (s : string) :
  (forall c, f c = true -> g c = true) -> all_chars f s = true -> all_chars g s = true.
Proof.
  intros Hfg. induction s as [|c s IH]; [done|]. simpl.
  intros [Hc Hs]%andb_true_iff. apply andb_true_iff. split; [by apply Hfg | by apply IH].
Qed.

Lemma all_chars_filter (f : ascii -> bool) (s : string) :
  all_chars f (filter_string f s) = true.
Proof.
  induction s as [|c s IH]; [done|]. simpl.
  destruct (f c) eqn:Hc; [|done]. simpl. by rewrite Hc.
Qed.

(** A blank turned into an underscore, any other character of the class of
    [slugify] kept: what [replace(" ", "_")] leaves is fit for a file
    name. *)
Lemma blanks_to_underscores (s : string) :
  all_chars slug_char s = true ->
  all_chars file_safe_char (PyStr.replace " " "_" s) = true.
Proof.
  change (PyStr.replace " " "_" s) with (PyStr.replace_scan " " "_" 0 s).
  induction s as [|c s IH]; [done|].
  cbn [all_chars]. intros [Hc Hs]%andb_true_iff.
  cbn [PyStr.replace_scan PyStr.startswith String.length Nat.pred].
  destruct (Ascii.eqb_spec " " c) as [<-|Hne].
  - str_simpl. cbn [all_chars]. by rewrite IH.
  - cbn [all_chars]. rewrite IH by done. rewrite andb_true_r.
    unfold slug_char in Hc. unfold file_safe_char.
    destruct (Ascii.eqb_spec c " ") as [->|_]; [done|].
    by rewrite orb_false_r in Hc.
Qed.

(** X2.  Whatever the group name, [slugify] gives a non-empty text made of
    ASCII letters, digits, underscores and hyphens only, provided
    [str.strip] yields only characters of its argument. *)
Theorem slugify_is_file_safe `{PyLib} (text : string)
    (Hstrip : forall f s, all_chars f s = true -> all_chars f (str_strip s) = true) :
  slugify text <> "" /\ all_chars file_safe_char (slugify text) = true.
Proof.
  unfold slugify.
  set (s := PyStr.replace " " "_" _).
  assert (Hs : all_chars file_safe_char s = true).
  { apply blanks_to_underscores, Hstrip, all_chars_filter. }
  destruct s; [split; [discriminate | reflexivity] | split; [discriminate | exact Hs]].
Qed.

Lemma all_chars_lstrip (f : ascii -> bool) (s : string) :
  all_chars f s = true -> all_chars f (lstrip s) = true.
Proof.
  induction s as [|c s IH]; [done|]. simpl. intros [Hc Hs]%andb_true_iff.
  destruct (is_space c); [by apply IH|]. simpl. by rewrite Hc, Hs.
Qed.

Lemma all_chars_rstrip (f : ascii -> bool) (s : string) :
  all_chars f s = true -> all_chars f (rstrip s) = true.
Proof.
  induction s as [|c s IH]; [done|]. simpl. intros [Hc Hs]%andb_true_iff.
  specialize (IH Hs). destruct (rstrip s) as [|c' r].
  - destruct (is_space c); [done|]. simpl. by rewrite Hc.
  - cbn [all_chars] in *. by rewrite Hc, IH.
Qed.

Lemma slugify_is_file_safe_witness :
  @slugify ascii_lib " Sec. Salud (Norte) " = "Sec_Salud_Norte" /\
  @slugify ascii_lib " ... " <> "" /\
  all_chars file_safe_char (@slugify ascii_lib " Sec. Salud (Norte) ") = true.
Proof.
  assert (Hstrip : forall f s, all_chars f s = true ->
                               all_chars f (@str_strip ascii_lib s) = true).
  { intros f s Hs. by apply all_chars_rstrip, all_chars_lstrip. }
  split; [reflexivity|]. split.
  - apply (@slugify_is_file_safe ascii_lib " ... " Hstrip).
  - apply (@slugify_is_file_safe ascii_lib " Sec. Salud (Norte) " Hstrip).
Defined.

(** What [re.sub(r"\s+", " ", s)] leaves: no white space but blanks, no
    blank after a blank, and no blank first when the text follows white
    space. *)
Lemma collapse_ws_shape (in_ws : bool) (s : string) :
  all_chars plain_or_blank (collapse_ws in_ws s) = true /\
  PyStr.contains "  " (collapse_ws in_ws s) = false /\
  (in_ws = true -> PyStr.startswith " " (collapse_ws in_ws s) = false).
Proof.
  revert in_ws. induction s as [|c s IH]; intros in_ws; [by destruct in_ws|].
  cbn [collapse_ws]. destruct (is_space c) eqn:Hc.
  - destruct in_ws.
    + apply IH.
    + destruct (IH true) as (Hall & Hno & Hstart). specialize (Hstart eq_refl).
      split; [|split; [|done]].
      * cbn [all_chars]. by rewrite Hall.
      * cbn [PyStr.contains]. rewrite Hno, orb_false_r.
        cbn [PyStr.startswith]. rewrite Ascii.eqb_refl. exact Hstart.
  - destruct (IH false) as (Hall & Hno & _).
    assert (Hne : Ascii.eqb " " c = false).
    { destruct (Ascii.eqb_spec " " c) as [<-|]; [discriminate Hc | done]. }
    split; [|split].
    + cbn [all_chars]. unfold plain_or_blank at 1. by rewrite Hc, Hall.
    + cbn [PyStr.contains]. rewrite Hno, orb_false_r.
      cbn [PyStr.startswith]. by rewrite Hne.
    + intros _. cbn [PyStr.startswith]. by rewrite Hne.
Qed.

(** X3.  A normalised text holds no white space other than blanks and
    never two blanks in a row, whatever the library does before the white
    space is collapsed. *)
Theorem normalised_text_has_single_blanks `{PyLib} (s : string) :
  all_chars plain_or_blank (_norm s) = true /\ PyStr.contains "  " (_norm s) = false.
Proof.
  unfold _norm. destruct (collapse_ws_shape false (unidecode (str_lower (str_strip s))))
    as (Hall & Hno & _).
  by split.
Qed.

(** ** The column mapper: partial matches, unresolved roles, the keyword
    fallback *)

(** What the loop over the roles leaves for a role: its first exact
    match, else its first partial match, else what the mapping held. *)
Lemma foldl_guess_role_lookup (cn : list (string * string)) (syn : list (string * list string))
    (m : gmap string (option string)) (role : string) (al : list string) :
  List.NoDup (map fst syn) -> In (role, al) syn ->
  foldl (guess_role cn) m syn !! role =
  match exact_matches cn al with
  | c :: _ => Some (Some c)
  | [] =>
      match partial_matches cn al with
      | c :: _ => Some (Some c)
      | [] => m !! role
      end
  end.
Proof.
  intros Hnd Hin. revert m.
  induction syn as [|e syn IH]; intros m; [done|].
  simpl in Hnd. apply List.NoDup_cons_iff in Hnd as [Hnin Hnd].
  destruct Hin as [-> | Hin].
  - simpl. rewrite foldl_guess_role_other by done.
    unfold guess_role.
    destruct (exact_matches cn al); [destruct (partial_matches cn al)|];
      rewrite ?lookup_insert_eq; done.
  - simpl. rewrite IH by done. rewrite guess_role_other; [done|].
    intros Heq. apply Hnin. rewrite Heq.
    change role with (fst (role, al)). by apply in_map.
Qed.

Lemma EMPTY_MAPPING_lookup (role : string) (al : list string) :
  In (role, al) SYNONYMS -> EMPTY_MAPPING !! role = Some None.
Proof.
  simpl. intros Hin.
  repeat (destruct Hin as [[= <- _] | Hin]; [reflexivity|]). done.
Qed.

Lemma filter_nil_iff {A : Type} (f : A -> bool) (l : list A) :
  List.filter f l = [] <-> forall x, In x l -> f x = false.
Proof.
  induction l as [|x l IH]; simpl; [split; [intros _ ? [] | done]|].
  destruct (f x) eqn:Hx.
  - split; [done|]. intros H. specialize (H x (or_introl eq_refl)). congruence.
  - rewrite IH. split.
    + intros H y [<- | Hy]; [done | by apply H].
    + intros H y Hy. apply H. by right.
Qed.

Lemma map_fst_nil {A B : Type} (l : list (A * B)) : map fst l = [] -> l = [].
Proof. by destruct l. Qed.

Lemma GROUP_KEYWORDS_are_synonyms (x : string) :
  In x GROUP_KEYWORDS ->
  exists al, In ("grupo", al) SYNONYMS /\ In x al.
Proof.
  intros Hx. eexists. split; [right; left; reflexivity|].
  simpl in Hx. simpl.
  repeat (destruct Hx as [<- | Hx]; [tauto|]). done.
Qed.

(** The keyword fallback for the group role finds nothing the loop has
    not found. *)
Lemma guess_mapping_is_the_loop `{PyLib} (headers : list string) :
  guess_mapping headers = foldl (guess_role (cols_norm headers)) EMPTY_MAPPING SYNONYMS.
Proof.
  unfold guess_mapping. fold EMPTY_MAPPING.
  set (cn := cols_norm headers).
  destruct (foldl (guess_role cn) EMPTY_MAPPING SYNONYMS !! "grupo") as [[g|]|] eqn:Hg;
    try reflexivity.
  assert (Hfb : group_fallback cn = None); [|by rewrite Hfb].
  pose proof (GROUP_KEYWORDS_are_synonyms "grupo" ltac:(simpl; tauto)) as (al & Hal & _).
  rewrite (foldl_guess_role_lookup cn SYNONYMS _ "grupo" al SYNONYMS_NoDup Hal) in Hg.
  destruct (exact_matches cn al); [|discriminate Hg].
  destruct (partial_matches cn al) eqn:Hp; [|discriminate Hg].
  apply map_fst_nil in Hp.
  unfold group_fallback.
  replace (List.filter _ cn) with (@nil (string * string)); [reflexivity|].
  symmetry. apply filter_nil_iff. intros p Hp'.
  destruct (existsb _ GROUP_KEYWORDS) eqn:Hex; [|done].
  apply existsb_exists in Hex as (x & Hx & Hcont).
  destruct (GROUP_KEYWORDS_are_synonyms x Hx) as (al' & Hal' & Hxal).
  assert (al' = al) as ->.
  { simpl in Hal, Hal'.
    repeat (destruct Hal as [Hal | Hal]; [try discriminate Hal|]); try done.
    repeat (destruct Hal' as [Hal' | Hal']; [try discriminate Hal'|]); try done.
    congruence. }
  pose proof (proj1 (filter_nil_iff _ _) Hp p Hp') as Hnone. simpl in Hnone.
  assert (Hsome : existsb (fun a => PyStr.contains a (snd p)) al = true).
  { apply existsb_exists. eauto. }
  congruence.
Qed.

(** The role of a header list, in closed form. *)
Lemma guess_mapping_lookup `{PyLib} (headers : list string) (role : string) (al : list string) :
  In (role, al) SYNONYMS ->
  guess_mapping headers !! role =
  match exact_matches (cols_norm headers) al with
  | c :: _ => Some (Some c)
  | [] =>
      match partial_matches (cols_norm headers) al with
      | c :: _ => Some (Some c)
      | [] => Some None
      end
  end.
Proof.
  intros Hin. rewrite guess_mapping_is_the_loop.
  rewrite (foldl_guess_role_lookup _ SYNONYMS _ role al SYNONYMS_NoDup Hin).
  by rewrite (EMPTY_MAPPING_lookup role al Hin).
Qed.

Lemma contains_refl (s : string) : PyStr.contains s s = true.
Proof. apply contains_spec. exists "", "". by rewrite append_nil_r. Qed.

Lemma no_partial_no_exact (cn : list (string * string)) (al : list string) :
  partial_matches cn al = [] -> exact_matches cn al = [].
Proof.
  unfold partial_matches, exact_matches. intros Hp%map_fst_nil.
  replace (List.filter _ cn) with (@nil (string * string)); [reflexivity|].
  symmetry. apply filter_nil_iff. intros p Hp'.
  pose proof (proj1 (filter_nil_iff _ _) Hp p Hp') as Hnone. simpl in Hnone.
  destruct (existsb (String.eqb (snd p)) al) eqn:Hex; [|done].
  apply existsb_exists in Hex as (a & Ha & Heq%String.eqb_eq).
  assert (existsb (fun a0 => PyStr.contains a0 (snd p)) al = true); [|congruence].
  apply existsb_exists. exists a. split; [done|]. rewrite Heq. apply contains_refl.
Qed.

(** X4.  The institutional keywords of the fallback for the group role
    are all synonyms of that role, so the fallback never finds a header
    that the loop over the roles has not found: the mapping is the one the
    loop leaves, and a role none of whose synonyms occurs in any normalised
    header, the group role included, stays unset. *)
Theorem keyword_fallback_changes_nothing `{PyLib} (headers : list string) :
  guess_mapping headers = foldl (guess_role (cols_norm headers)) EMPTY_MAPPING SYNONYMS /\
  (forall role al,
      In (role, al) SYNONYMS ->
      (forall x a, In x headers -> In a al -> PyStr.contains a (_norm x) = false) ->
      guess_mapping headers !! role = Some None).
Proof.
  split; [apply guess_mapping_is_the_loop|].
  intros role al Hin Hnone. rewrite (guess_mapping_lookup headers role al Hin).
  assert (Hp : partial_matches (cols_norm headers) al = []).
  { unfold partial_matches.
    replace (List.filter _ (cols_norm headers)) with (@nil (string * string)); [reflexivity|].
    symmetry. apply filter_nil_iff. intros [c n] Hc. simpl.
    unfold cols_norm in Hc. apply in_map_iff in Hc as (x & [= <- <-] & Hx%dict_keys_In).
    destruct (existsb _ al) eqn:Hex; [|done].
    apply existsb_exists in Hex as (a & Ha & Hcont).
    by rewrite (Hnone x a Hx Ha) in Hcont. }
  by rewrite (no_partial_no_exact _ _ Hp), Hp.
Qed.

Lemma keyword_fallback_changes_nothing_witness :
  @guess_mapping ascii_lib ["Codigo"; "Observaciones"] !! "grupo" = Some None /\
  @guess_mapping ascii_lib ["Codigo"; "Observaciones"] !! "fecha" = Some None.
Proof.
  destruct (@keyword_fallback_changes_nothing ascii_lib ["Codigo"; "Observaciones"])
    as [_ Hunset].
  split.
  - eapply Hunset; [right; left; reflexivity|].
    intros x a [<- | [<- | []]] Ha; simpl in Ha;
      repeat (destruct Ha as [<- | Ha]; [reflexivity|]); done.
  - eapply Hunset; [do 4 right; left; reflexivity|].
    intros x a [<- | [<- | []]] Ha; simpl in Ha;
      repeat (destruct Ha as [<- | Ha]; [reflexivity|]); done.
Defined.

(** X5.  When no header normalises exactly to a synonym of a role, the
    role goes to the first header, in the order of the frame, whose
    normalised text contains one of the synonyms. *)
Theorem partial_match_is_the_fallback `{PyLib}
    (headers pre post : list string) (h role : string) (alias_list : list string)
    (Hrole : In (role, alias_list) SYNONYMS)
    (Hsplit : headers = (pre ++ h :: post)%list)
    (Hnoexact : forall x, In x headers -> ~ In (_norm x) alias_list)
    (Hpartial : exists a, In a alias_list /\ PyStr.contains a (_norm h) = true)
    (Hfirst : forall x a, In x pre -> In a alias_list -> PyStr.contains a (_norm x) = false) :
  guess_mapping headers !! role = Some (Some h).
Proof.
  rewrite (guess_mapping_lookup headers role alias_list Hrole).
  assert (He : exact_matches (cols_norm headers) alias_list = []).
  { unfold exact_matches, cols_norm.
    rewrite (filter_map_pair _norm (fun b => existsb (String.eqb b) alias_list)).
    replace (List.filter _ (dict_keys headers)) with (@nil string); [reflexivity|].
    symmetry. apply filter_nil_iff. intros x Hx%dict_keys_In.
    destruct (existsb _ alias_list) eqn:Hex; [|done].
    apply existsb_eqb_In in Hex. by apply Hnoexact in Hex. }
  rewrite He. unfold partial_matches, cols_norm.
  rewrite (filter_map_pair _norm (fun b => existsb (fun a => PyStr.contains a b) alias_list)).
  rewrite Hsplit.
  destruct (dict_keys_first
              (fun c => existsb (fun a => PyStr.contains a (_norm c)) alias_list)
              pre post h) as [rest ->]; [| |done].
  - destruct Hpartial as (a & Ha & Hc). apply existsb_exists. eauto.
  - intros x Hx. destruct (existsb _ alias_list) eqn:Hex; [|done].
    apply existsb_exists in Hex as (a & Ha & Hc). by rewrite (Hfirst x a Hx Ha) in Hc.
Qed.

Lemma partial_match_is_the_fallback_witness :
  @guess_mapping ascii_lib ["Codigo"; "Fecha de la reunion"; "Fecha final"] !! "fecha"
  = Some (Some "Fecha de la reunion").
Proof.
  apply (@partial_match_is_the_fallback ascii_lib
           ["Codigo"; "Fecha de la reunion"; "Fecha final"]
           ["Codigo"] ["Fecha final"] "Fecha de la reunion" "fecha"
           ["fecha"; "fecha mesa"; "fecha programada"; "dia"; "día"; "dia mesa";
            "fecha de realizacion"; "fecha de realización"; "fecha programada mesa"]).
  - do 4 right. left. reflexivity.
  - reflexivity.
  - intros x [<- | [<- | [<- | []]]] Hin; vm_compute in Hin;
      repeat (destruct Hin as [Hin | Hin]; [discriminate Hin|]); exact Hin.
  - exists "fecha". split; [by left | reflexivity].
  - intros x a [<- | []] Ha. simpl in Ha.
    repeat (destruct Ha as [<- | Ha]; [reflexivity|]). done.
Defined.

Lemma contains_char (c : ascii) (s : string) :
  PyStr.has_char c s = true -> PyStr.contains (String c "") s = true.
Proof.
  induction s as [|x s IH]; [done|]. cbn [PyStr.has_char PyStr.contains PyStr.startswith].
  intros [Hx | Hs]%orb_true_iff.
  - apply Ascii.eqb_eq in Hx as ->. by rewrite Ascii.eqb_refl.
  - rewrite (IH Hs). apply orb_true_r.
Qed.

Lemma filter_In_nonempty {A : Type} (f : A -> bool) (l : list A) (x : A) :
  In x l -> f x = true -> exists y rest, List.filter f l = y :: rest.
Proof.
  intros Hin Hf. destruct (List.filter f l) as [|y rest] eqn:Hfl; [|eauto].
  exfalso. pose proof (proj1 (filter_nil_iff f l) Hfl x Hin). congruence.
Qed.

Lemma dict_keys_complete (c : string) (l : list string) : In c l -> In c (dict_keys l).
Proof.
  induction l as [|x l IH]; [done|]. simpl.
  destruct (String.eqb_spec x c) as [->|Hne]; [by left|].
  intros [-> | Hin]; [done|]. right. apply filter_In. split; [by apply IH|].
  apply negb_true_iff, String.eqb_neq. congruence.
Qed.

(** X6.  The single letter [a] is a synonym of the actor role and a
    partial match is a containment test, so the actor role is resolved as
    soon as the normalised text of some header contains the letter [a]. *)
Theorem actor_role_resolves_on_any_a `{PyLib} (headers : list string) (h : string)
    (Hin : In h headers)
    (Ha : PyStr.has_char "a" (_norm h) = true) :
  exists c, guess_mapping headers !! "actor" = Some (Some c) /\ In c headers.
Proof.
  pose proof (guess_mapping_sound headers) as [_ Hval].
  assert (exists c, guess_mapping headers !! "actor" = Some (Some c)) as [c Hc];
    [|exists c; split; [done | by eapply Hval]].
  rewrite (guess_mapping_lookup headers "actor" _ (or_introl eq_refl)).
  destruct (exact_matches _ _) as [|c rest]; [|eauto].
  unfold partial_matches.
  destruct (filter_In_nonempty
              (fun p : string * string =>
                 existsb (fun a => PyStr.contains a (snd p))
                   ["actor"; "columna a"; "a"; "interesado"; "responsable"; "nombre del actor"])
              (cols_norm headers) (h, _norm h)) as (y & rest & ->).
  - unfold cols_norm. apply in_map_iff. exists h. split; [done|]. by apply dict_keys_complete.
  - apply existsb_exists. exists "a". split; [simpl; tauto|]. by apply contains_char.
  - simpl. eauto.
Qed.

Lemma actor_role_resolves_on_any_a_witness :
  exists c, @guess_mapping ascii_lib ["Codigo"; "Fecha"] !! "actor" = Some (Some c)
            /\ In c ["Codigo"; "Fecha"].
Proof.
  apply (@actor_role_resolves_on_any_a ascii_lib ["Codigo"; "Fecha"] "Fecha").
  - simpl. tauto.
  - reflexivity.
Defined.

(** ** Suggested grouping fields *)

Lemma mapping_get_truthy_Some (m : gmap string (option string)) (key c : string) :
  mapping_get_truthy m key = Some c <-> m !! key = Some (Some c) /\ c <> "".
Proof.
  unfold mapping_get_truthy. destruct (m !! key) as [[c'|]|].
  - destruct (String.eqb_spec c' "") as [->|Hne].
    + split; [done|]. by intros [[= <-] Hne].
    + split.
      * by intros [= <-].
      * by intros [[= <-] _].
  - split; [done | by intros [[=] _]].
  - split; [done | by intros [[=] _]].
Qed.

(** X7.  The suggested grouping fields are at most two distinct, non-empty
    headers of the frame: the column of the actor role when it is resolved,
    then the column of the group role when it is resolved to another
    column. *)
Theorem suggested_group_fields `{PyLib} (headers : list string) :
  let fields := auto_detect_group_fields headers in
  (List.length fields <= 2)%nat /\
  List.NoDup fields /\
  (forall c, In c fields -> In c headers /\ c <> "") /\
  (forall a, guess_mapping headers !! "actor" = Some (Some a) -> a <> "" ->
             head fields = Some a) /\
  (forall g, guess_mapping headers !! "grupo" = Some (Some g) -> g <> "" -> In g fields).
Proof.
  intros fields. subst fields. unfold auto_detect_group_fields.
  pose proof (guess_mapping_sound headers) as [_ Hval].
  pose proof (mapping_get_truthy_Some (guess_mapping headers) "actor") as Hact.
  pose proof (mapping_get_truthy_Some (guess_mapping headers) "grupo") as Hgrp.
  destruct (mapping_get_truthy (guess_mapping headers) "actor") as [a|];
    destruct (mapping_get_truthy (guess_mapping headers) "grupo") as [g|].
  - destruct (proj1 (Hact a) eq_refl) as [Ha Hane].
    destruct (proj1 (Hgrp g) eq_refl) as [Hg Hgne].
    unfold in_columns. cbn [existsb]. rewrite orb_false_r.
    destruct (String.eqb_spec g a) as [->|Hne]; cbn [app firstn].
    + split; [simpl; lia|]. split; [repeat constructor; simpl; tauto|].
      split; [intros c [<- | []]; split; [by eapply Hval | done]|].
      split; [intros a' Ha' _; simpl; congruence|].
      intros g' Hg' _. left. congruence.
    + split; [simpl; lia|].
      split; [repeat constructor; simpl; intuition congruence|].
      split; [intros c [<- | [<- | []]]; (split; [by eapply Hval | done])|].
      split; [intros a' Ha' _; simpl; congruence|].
      intros g' Hg' _. right. left. congruence.
  - destruct (proj1 (Hact a) eq_refl) as [Ha Hane]. cbn [firstn].
    split; [simpl; lia|]. split; [repeat constructor; simpl; tauto|].
    split; [intros c [<- | []]; split; [by eapply Hval | done]|].
    split; [intros a' Ha' _; simpl; congruence|].
    intros g' Hg' Hne'. by pose proof (proj2 (Hgrp g') (conj Hg' Hne')).
  - destruct (proj1 (Hgrp g) eq_refl) as [Hg Hgne]. cbn [in_columns existsb app firstn].
    split; [simpl; lia|]. split; [repeat constructor; simpl; tauto|].
    split; [intros c [<- | []]; split; [by eapply Hval | done]|].
    split; [intros a' Ha' Hne'; by pose proof (proj2 (Hact a') (conj Ha' Hne'))|].
    intros g' Hg' _. left. congruence.
  - cbn [firstn]. split; [simpl; lia|]. split; [constructor|].
    split; [intros c []|].
    split; [intros a' Ha' Hne'; by pose proof (proj2 (Hact a') (conj Ha' Hne'))|].
    intros g' Hg' Hne'. by pose proof (proj2 (Hgrp g') (conj Hg' Hne')).
Qed.

Lemma suggested_group_fields_witness :
  @auto_detect_group_fields ascii_lib ["Fecha"; "Actor"; "Entidad"] = ["Actor"; "Entidad"] /\
  List.NoDup (@auto_detect_group_fields ascii_lib ["Fecha"; "Actor"; "Entidad"]) /\
  In "Entidad" (@auto_detect_group_fields ascii_lib ["Fecha"; "Actor"; "Entidad"]).
Proof.
  destruct (@suggested_group_fields ascii_lib ["Fecha"; "Actor"; "Entidad"])
    as (_ & Hnd & _ & _ & Hgrp).
  split; [vm_compute; reflexivity|]. split; [exact Hnd|].
  apply (Hgrp "Entidad"); [vm_compute; reflexivity | discriminate].
Defined.

(** ** The normaliser after the mapper *)

(** The normaliser succeeds once the required roles are resolved, the
    group role names a column or nothing, and no header occurs twice. *)
Lemma prepare_dataframe_succeeds `{PyLib} (df : DataFrame)
    (mapping : gmap string (option string)) :
  (forall key, In key REQUIRED_ROLES -> resolved df mapping key) ->
  List.NoDup (df_columns df) ->
  (forall g, group_column mapping = Some g -> In g (df_columns df)) ->
  exists wf, prepare_dataframe df mapping = inr wf /\
             List.length (work_rows wf) = List.length (df_rows df).
Proof.
  intros Hall Hnd Hgroup. unfold prepare_dataframe.
  rewrite (proj2 (required_all_resolved df mapping) Hall).
  set (cols := (_ ++ _)%list).
  assert (Hcols : forall c, In c cols -> In c (df_columns df)).
  { intros c Hc. subst cols. apply in_app_or in Hc as [Hc | Hc].
    - destruct Hc as [<- | Hc].
      + apply role_column_resolved, Hall. simpl. tauto.
      + destruct (group_column mapping) as [g|] eqn:Hg; [|done].
        destruct Hc as [<- | []]. by apply Hgroup.
    - simpl in Hc.
      repeat (destruct Hc as [<- | Hc];
              [apply role_column_resolved, Hall; simpl; tauto|]).
      done. }
  destruct (find _ cols) as [c|] eqn:Hfind.
  { apply find_some in Hfind as [Hin Hc]. apply Hcols, in_columns_In in Hin.
    by rewrite Hin in Hc. }
  destruct (existsb _ cols) eqn:Hdup.
  { apply existsb_exists in Hdup as (c & _ & Hc). apply Nat.ltb_lt in Hc.
    pose proof (count_label_NoDup c _ Hnd). lia. }
  eexists. split; [reflexivity|]. cbn [work_rows]. by rewrite length_map.
Qed.

(** X8.  What the mapper guesses always suits the normaliser: on a frame
    with distinct headers, when the mapper resolves the five required
    roles, the normaliser accepts its mapping as it is and returns one row
    per row of the frame. *)
Theorem guessed_mapping_is_accepted `{PyLib} (df : DataFrame)
    (Hnd : List.NoDup (df_columns df))
    (Hfive : forall key, In key REQUIRED_ROLES ->
                         exists c, guess_mapping (df_columns df) !! key = Some (Some c)) :
  exists wf, prepare_dataframe df (guess_mapping (df_columns df)) = inr wf /\
             List.length (work_rows wf) = List.length (df_rows df).
Proof.
  pose proof (guess_mapping_sound (df_columns df)) as [_ Hval].
  apply prepare_dataframe_succeeds; [|done|].
  - intros key Hkey. destruct (Hfive key Hkey) as [c Hc].
    exists c. split; [done | by eapply Hval].
  - intros g Hg. unfold group_column in Hg.
    destruct (guess_mapping (df_columns df) !! "grupo") as [[g'|]|] eqn:Hg'; try done.
    destruct (String.eqb g' ""); [done|]. injection Hg as <-. by eapply Hval.
Qed.

Lemma guessed_mapping_is_accepted_witness :
  exists wf, @prepare_dataframe ascii_lib sample_frame
               (@guess_mapping ascii_lib (df_columns sample_frame)) = inr wf /\
             List.length (work_rows wf) = 3%nat.
Proof.
  apply (@guessed_mapping_is_accepted ascii_lib sample_frame).
  - simpl. repeat (apply List.NoDup_cons; [simpl; intuition discriminate|]).
    apply List.NoDup_nil.
  - intros key Hkey. simpl in Hkey.
    repeat (destruct Hkey as [<- | Hkey]; [eexists; vm_compute; reflexivity|]). done.
Defined.

Lemma find_first {A : Type} (f : A -> bool) (pre post : list A) (x : A) :
  (forall y, In y pre -> f y = false) -> f x = true ->
  find f (pre ++ x :: post) = Some x.
Proof.
  intros Hpre Hx. induction pre as [|y pre IH]; simpl.
  - by rewrite Hx.
  - rewrite (Hpre y) by (by left). apply IH. intros z Hz. apply Hpre. by right.
Qed.

(** X9.  The missing-column error of the normaliser names the first role,
    in the order actor, mesa, nivel, fecha, dato, that the mapping leaves
    without a column of the frame, and it is raised before anything else is
    looked at. *)
Theorem first_unresolved_role_is_reported `{PyLib} (df : DataFrame)
    (mapping : gmap string (option string)) (pre post : list string) (key : string)
    (Hsplit : REQUIRED_ROLES = (pre ++ key :: post)%list)
    (Hbefore : forall k, In k pre -> resolved df mapping k)
    (Hkey : ~ resolved df mapping key) :
  prepare_dataframe df mapping = inl (missing_column_error key).
Proof.
  unfold prepare_dataframe. rewrite Hsplit, (find_first _ pre post key); [done| |].
  - intros k Hk. by apply role_missing_resolved, Hbefore.
  - destruct (role_missing df mapping key) eqn:Hm; [done|].
    by apply role_missing_resolved in Hm.
Qed.

Lemma first_unresolved_role_is_reported_witness :
  @prepare_dataframe ascii_lib sample_frame
    (<["nivel" := None]> (<["dato" := Some "Resultado"]> sample_mapping))
  = inl (missing_column_error "nivel").
Proof.
  apply (@first_unresolved_role_is_reported ascii_lib sample_frame _
           ["actor"; "mesa"] ["fecha"; "dato"] "nivel").
  - reflexivity.
  - intros k [<- | [<- | []]]; eexists; (split; [reflexivity | simpl; tauto]).
  - intros (c & Hc & _). vm_compute in Hc. discriminate Hc.
Defined.

(** ** Candidate tables and the located table *)

Lemma first_index_inv {A : Type} (f : A -> bool) (l : list A) (i : nat) :
  first_index f l = Some i -> exists x, l !! i = Some x /\ f x = true.
Proof.
  revert i. induction l as [|a l IH]; intros i; [done|]. simpl.
  destruct (f a) eqn:Ha.
  - intros [= <-]. eauto.
  - destruct (first_index f l) as [j|]; [|done]. intros [= <-].
    destruct (IH j eq_refl) as (x & Hx & Hf). eauto.
Qed.

Lemma last_index_inv {A : Type} (f : A -> bool) (l : list A) (i : nat) :
  last_index f l = Some i -> exists x, l !! i = Some x /\ f x = true.
Proof.
  revert i. induction l as [|a l IH]; intros i; [done|]. simpl.
  destruct (last_index f l) as [j|].
  - intros [= <-]. destruct (IH j eq_refl) as (x & Hx & Hf). eauto.
  - destruct (f a) eqn:Ha; [|done]. intros [= <-]. eauto.
Qed.

Lemma first_index_None_inv {A : Type} (f : A -> bool) (l : list A) :
  first_index f l = None -> forall x, In x l -> f x = false.
Proof.
  induction l as [|a l IH]; [by intros _ x []|]. simpl.
  destruct (f a) eqn:Ha; [done|].
  destruct (first_index f l); [done|]. intros _ x [<- | Hx]; [done | by apply IH].
Qed.

Lemma last_index_None_inv {A : Type} (f : A -> bool) (l : list A) :
  last_index f l = None -> forall x, In x l -> f x = false.
Proof.
  induction l as [|a l IH]; [by intros _ x []|]. simpl.
  destruct (last_index f l); [done|].
  destruct (f a) eqn:Ha; [done|]. intros _ x [<- | Hx]; [done | by apply IH].
Qed.

Lemma preferred_table_inv (doc : Document) (prefer_index : option Z) (i : nat) :
  preferred_table doc prefer_index = Some i ->
  exists t, tables doc !! i = Some t /\ columns t = 4%nat.
Proof.
  unfold preferred_table. destruct prefer_index as [z|]; [|done].
  destruct (_ && _); [|done].
  destruct (tables doc !! Z.to_nat z) as [t|] eqn:Ht; [|done].
  destruct (columns t =? 4)%nat eqn:Hc; [|done]. intros [= <-].
  exists t. split; [done | by apply Nat.eqb_eq].
Qed.

(** The index the locator returns names a table of the document whose
    header matches or which has four columns. *)
Lemma located_table_in_document `{PyLib} (doc : Document) (prefer_index : option Z) (i : nat) :
  find_target_table doc prefer_index = Some i ->
  exists t, tables doc !! i = Some t /\ (_header_matches t = true \/ columns t = 4%nat).
Proof.
  rewrite find_target_table_locate. unfold locate_spec. intros Hi.
  destruct (preferred_table doc prefer_index) as [j|] eqn:Hp.
  { injection Hi as <-. destruct (preferred_table_inv _ _ _ Hp) as (t & Ht & Hc). eauto. }
  destruct (first_index _header_matches (tables doc)) as [j|] eqn:Hf.
  { injection Hi as <-. destruct (first_index_inv _ _ _ Hf) as (t & Ht & Hm). eauto. }
  destruct (last_index_inv _ _ _ Hi) as (t & Ht & Hc).
  exists t. split; [done|]. right. by apply Nat.eqb_eq.
Qed.

(** X10.  The table located is a table of the document, and one that
    qualifies: its header matches or it has four columns.  No table is
    located exactly when no table of the document qualifies. *)
Theorem located_table_qualifies `{PyLib} (doc : Document) (prefer_index : option Z) :
  (forall i, find_target_table doc prefer_index = Some i ->
             exists t, tables doc !! i = Some t /\
                       (_header_matches t = true \/ columns t = 4%nat)) /\
  (find_target_table doc prefer_index = None <->
   forall t, In t (tables doc) -> _header_matches t = false /\ columns t <> 4%nat).
Proof.
  split; [apply located_table_in_document|].
  rewrite find_target_table_locate. unfold locate_spec. split.
  - intros Hnone t Ht.
    destruct (preferred_table doc prefer_index); [done|].
    destruct (first_index _header_matches (tables doc)) eqn:Hf; [done|].
    split; [by apply (first_index_None_inv _ _ Hf)|].
    apply Nat.eqb_neq. by apply (last_index_None_inv _ _ Hnone).
  - intros Hall.
    destruct (preferred_table doc prefer_index) as [j|] eqn:Hp.
    { destruct (preferred_table_inv _ _ _ Hp) as (t & Ht & Hc).
      apply list_elem_of_lookup_2, list_elem_of_In, Hall in Ht. tauto. }
    rewrite first_index_None by (intros t Ht; by apply Hall).
    apply last_index_None. intros t Ht. apply Nat.eqb_neq. by apply Hall.
Qed.

Lemma located_table_qualifies_witness :
  (exists t, tables sample_doc !! 1%nat = Some t /\
             (@_header_matches ascii_lib t = true \/ columns t = 4%nat)) /\
  @find_target_table ascii_lib {| paragraphs := []; tables := [narrow_table] |} None = None.
Proof.
  split.
  - destruct (@located_table_qualifies ascii_lib sample_doc None) as [Hsome _].
    apply Hsome. reflexivity.
  - apply (@located_table_qualifies ascii_lib). intros t [<- | []].
    split; [reflexivity | discriminate].
Defined.

Lemma list_candidate_tables_spec_aux (ts : list Table) (k i : nat) :
  In i (map fst (List.filter (fun it : nat * Table => (columns (snd it) =? 4)%nat)
                   (imap (fun j t => ((k + j)%nat, t)) ts))) <->
  exists j t, i = (k + j)%nat /\ ts !! j = Some t /\ columns t = 4%nat.
Proof.
  revert k. induction ts as [|t0 ts IH]; intros k.
  - simpl. split; [done | by intros (j & t & _ & Hj & _)].
  - cbn [imap List.filter snd].
    assert (Hshift : imap ((fun j t => ((k + j)%nat, t)) ∘ S) ts
                     = imap (fun j t => ((S k + j)%nat, t)) ts).
    { apply imap_ext. intros j t _. simpl. f_equal. lia. }
    rewrite Hshift. clear Hshift.
    destruct (columns t0 =? 4)%nat eqn:Hc.
    + cbn [map fst In]. rewrite IH. split.
      * intros [<- | (j & t & -> & Hj & Ht)].
        -- exists O, t0. split; [lia|]. split; [done | by apply Nat.eqb_eq].
        -- exists (S j), t. split; [lia | done].
      * intros ([|j] & t & -> & Hj & Ht).
        -- left. lia.
        -- right. exists j, t. split; [lia | done].
    + rewrite IH. split.
      * intros (j & t & -> & Hj & Ht). exists (S j), t. split; [lia | done].
      * intros ([|j] & t & -> & Hj & Ht).
        -- simpl in Hj. injection Hj as <-. apply Nat.eqb_neq in Hc. done.
        -- exists j, t. split; [lia | done].
Qed.

Lemma list_candidate_tables_spec (doc : Document) (i : nat) :
  In i (list_candidate_tables doc) <->
  exists t, tables doc !! i = Some t /\ columns t = 4%nat.
Proof.
  unfold list_candidate_tables.
  rewrite (list_candidate_tables_spec_aux (tables doc) 0 i). split.
  - intros (j & t & -> & Hj & Ht). eauto.
  - intros (t & Hi & Ht). exists i, t. done.
Qed.

(** X11.  The candidate tables are the tables with four columns, and any
    of them, given as the preferred index, is the table located: the index
    the user picks among the candidates is honoured whatever the headers
    say. *)
Theorem candidate_index_is_honoured `{PyLib} (doc : Document) (i : nat)
    (Hcand : In i (list_candidate_tables doc)) :
  (exists t, tables doc !! i = Some t /\ columns t = 4%nat) /\
  find_target_table doc (Some (Z.of_nat i)) = Some i.
Proof.
  apply list_candidate_tables_spec in Hcand as (t & Ht & Hc).
  split; [eauto|]. unfold find_target_table.
  rewrite (preferred_table_hit doc (Z.of_nat i) t); rewrite ?Nat2Z.id; done || lia.
Qed.

Lemma candidate_index_is_honoured_witness :
  list_candidate_tables sample_doc = [0%nat; 2%nat] /\
  @find_target_table ascii_lib sample_doc (Some 2) = Some 2%nat /\
  @find_target_table ascii_lib sample_doc None = Some 1%nat.
Proof.
  split; [reflexivity|]. split; [|reflexivity].
  apply (@candidate_index_is_honoured ascii_lib sample_doc 2%nat).
  simpl. tauto.
Defined.

(** ** Header matching *)

Lemma existsb_perm {A : Type} (f : A -> bool) (l l' : list A) :
  Permutation l l' -> existsb f l = existsb f l'.
Proof.
  induction 1 as [|x l l' _ IH|x y l|l l' l'' _ IH1 _ IH2]; simpl.
  - done.
  - by rewrite IH.
  - by rewrite !orb_assoc, (orb_comm (f y)).
  - by rewrite IH1.
Qed.

Lemma forallb_pointwise {A : Type} (f g : A -> bool) (l : list A) :
  (forall x, f x = g x) -> forallb f l = forallb g l.
Proof. intros Hfg. induction l as [|x l IH]; [done|]. simpl. by rewrite Hfg, IH. Qed.

Lemma existsb_incl {A : Type} (f : A -> bool) (l l' : list A) :
  (forall x, In x l -> In x l') -> existsb f l = true -> existsb f l' = true.
Proof.
  intros Hincl (x & Hx & Hf)%existsb_exists. apply existsb_exists. eauto.
Qed.

(** X12.  Whether the header of a table matches depends on the texts of
    its header cells only, not on their order, and further header cells
    never undo a match; the body rows and the grid width play no part. *)
Theorem header_match_ignores_cell_order `{PyLib}
    (c c' : nat) (hdr hdr' : Row) (body body' : list Row) :
  (Permutation hdr hdr' ->
   _header_matches {| columns := c; rows := hdr :: body |}
   = _header_matches {| columns := c'; rows := hdr' :: body' |}) /\
  ((forall x, In x hdr -> In x hdr') ->
   _header_matches {| columns := c; rows := hdr :: body |} = true ->
   _header_matches {| columns := c'; rows := hdr' :: body' |} = true).
Proof.
  unfold _header_matches. cbn [rows]. split.
  - intros Hperm. apply forallb_pointwise. intros exp.
    apply existsb_perm. by apply Permutation_map.
  - intros Hincl Hm. apply forallb_forall. intros exp Hexp.
    pose proof (proj1 (forallb_forall _ _) Hm exp Hexp) as He.
    revert He. apply existsb_incl. intros h (x & <- & Hx)%in_map_iff.
    apply in_map_iff. exists x. split; [done | by apply Hincl].
Qed.

Lemma header_match_ignores_cell_order_witness :
  @_header_matches ascii_lib
    {| columns := 4;
       rows := [ [text_cell "Fecha"; text_cell "Dato transformador";
                  text_cell "Nivel"; text_cell "Nombre de la mesa"] ] |} = true.
Proof.
  destruct (@header_match_ignores_cell_order ascii_lib 4 4
              [text_cell "Nombre de la mesa"; text_cell "Nivel"; text_cell "Fecha";
               text_cell "Dato transformador"]
              [text_cell "Fecha"; text_cell "Dato transformador";
               text_cell "Nivel"; text_cell "Nombre de la mesa"] [] []) as [_ Hincl].
  apply Hincl; [|reflexivity].
  intros x Hx. simpl in *. tauto.
Defined.

(** ** Clearing and filling *)

(** X13.  However many rows the table has, the loop of
    [clear_table_keep_header] ends with the first row alone (with nothing
    when there is none), the grid untouched; clearing a cleared table
    changes nothing. *)
Theorem clearing_keeps_the_first_row (t : Table) :
  rows (clear_table_keep_header t) = firstn 1 (rows t) /\
  columns (clear_table_keep_header t) = columns t /\
  (List.length (rows (clear_table_keep_header t)) <= 1)%nat /\
  clear_table_keep_header (clear_table_keep_header t) = clear_table_keep_header t.
Proof.
  rewrite !clear_table_rows. cbn [rows columns].
  split; [done|]. split; [done|]. split.
  - rewrite length_firstn. lia.
  - by destruct (rows t).
Qed.

Lemma write_cells_content `{PyLib} (r : list (option string)) (c k : nat) :
  (k <= c)%nat ->
  (forall i, (i < k)%nat -> is_Some (docx_text (cell_value r i))) ->
  foldl (write_cell r) (inr (replicate c empty_cell)) (seq 0 k)
  = inr (map (fun i => if (i <? k)%nat
                       then [ [ {| run_text := default "" (docx_text (cell_value r i));
                                   run_rPr := "" |} ] ]
                       else empty_cell)
             (seq 0 c)).
Proof.
  induction k as [|k IH]; intros Hk Hstor.
  - simpl. f_equal. apply list_eq. intros i.
    rewrite list_lookup_fmap. destruct (decide (i < c)%nat) as [Hi|Hi].
    + rewrite lookup_replicate_2 by done. by rewrite lookup_seq_lt.
    + rewrite (proj1 (lookup_replicate_None c empty_cell i)) by lia.
      by rewrite lookup_seq_ge by lia.
  - rewrite seq_S, foldl_app, IH by (lia || (intros i Hi; apply Hstor; lia)).
    cbn [foldl Nat.add]. unfold write_cell, set_cell_text.
    unfold Row in *.
    rewrite list_lookup_fmap, lookup_seq_lt by lia.
    cbn [fmap option_fmap option_map Nat.add].
    destruct (Hstor k) as [stored Hstored]; [lia|]. rewrite Hstored.
    f_equal. apply list_eq. intros i.
    destruct (decide (i = k)) as [->|Hne].
    + rewrite list_lookup_insert_eq by (rewrite length_map, length_seq; lia).
      rewrite list_lookup_fmap, lookup_seq_lt by lia. simpl.
      replace (k <? S k)%nat with true by (symmetry; apply Nat.ltb_lt; lia).
      by rewrite Hstored.
    + rewrite list_lookup_insert_ne by done.
      rewrite !list_lookup_fmap. destruct (seq 0 c !! i) as [j|] eqn:Hj; [|done].
      simpl. apply lookup_seq in Hj as [-> _]. simpl.
      destruct (Nat.ltb_spec i k), (Nat.ltb_spec i (S k)); try done; lia.
Qed.

Lemma filled_cells_content `{PyLib} (c : nat) (r : list (option string)) :
  (Nat.min 4 (List.length r) <= c)%nat -> storable_values r ->
  filled_cells c r = inr (expected_row c r).
Proof. intros Hle Hstor. unfold filled_cells, expected_row. by apply write_cells_content. Qed.

Lemma filled_rows_content `{PyLib} (c : nat) (rs : list (list (option string))) :
  (forall r, In r rs -> (Nat.min 4 (List.length r) <= c)%nat /\ storable_values r) ->
  filled_rows c rs = inr (map (expected_row c) rs).
Proof.
  induction rs as [|r rs IH]; intros Hall; [done|]. cbn [filled_rows map].
  destruct (Hall r (or_introl eq_refl)) as [Hle Hstor].
  rewrite filled_cells_content by done.
  rewrite IH; [done|]. intros r' Hr'. apply Hall. by right.
Qed.

(** X14.  When the filler succeeds, it has left the rows of the table as
    they were and appended one row per row of values, in their order.  Each
    new row has one cell per grid column; each of its first [min(4, len(r))]
    cells reads the text python-docx stores for the value (for the empty
    text when the value is [None]), and the others are left as [add_row]
    made them, so that values beyond the fourth are not written. *)
Theorem filler_appends_the_values `{PyLib}
    (t t' : Table) (rs : list (list (option string)))
    (Hfill : fill_table t rs = inr t') :
  columns t' = columns t /\
  rows t' = (rows t ++ map (expected_row (columns t)) rs)%list /\
  (forall r, In r rs -> List.length (expected_row (columns t) r) = columns t) /\
  (forall r i, In r rs -> (i < Nat.min 4 (List.length r))%nat ->
     exists stored,
       docx_text (cell_value r i) = Some stored /\
       cell_text <$> (expected_row (columns t) r !! i) = Some stored) /\
  (forall r i, In r rs -> (Nat.min 4 (List.length r) <= i < columns t)%nat ->
     expected_row (columns t) r !! i = Some empty_cell).
Proof.
  assert (Hok : is_ok (fill_table t rs) = true) by by rewrite Hfill.
  pose proof (proj1 (fill_table_ok t rs) Hok) as Hall.
  rewrite fill_table_rows, (filled_rows_content _ _ Hall) in Hfill.
  injection Hfill as <-. cbn [columns rows]. split; [done|]. split; [done|].
  split; [|split].
  - intros r _. unfold expected_row. by rewrite length_map, length_seq.
  - intros r i Hr Hi. destruct (Hall r Hr) as [Hle Hstor].
    destruct (Hstor i Hi) as [stored Hstored]. exists stored. split; [done|].
    unfold expected_row, Row.
    rewrite list_lookup_fmap, lookup_seq_lt by lia.
    cbn [fmap option_fmap option_map Nat.add].
    replace (i <? Nat.min 4 (List.length r))%nat with true
      by (symmetry; apply Nat.ltb_lt; lia).
    rewrite Hstored. unfold cell_text, paragraph_text. simpl.
    f_equal. apply append_nil_r.
  - intros r i Hr Hi. unfold expected_row, Row.
    rewrite list_lookup_fmap, lookup_seq_lt by lia.
    cbn [fmap option_fmap option_map Nat.add].
    replace (i <? Nat.min 4 (List.length r))%nat with false
      by (symmetry; apply Nat.ltb_ge; lia).
    reflexivity.
Qed.

(** X14 at work: of five values four are written, the missing one as the
    empty text, and the carriage return of the third reads back as a line
    feed. *)
Lemma filler_appends_the_values_witness :
  exists t',
    @fill_table ascii_lib wide_table
      [[Some "a"; None; Some (String "c" (String "013" "d")); Some "d"; Some "e"]] = inr t' /\
    map (map cell_text) (rows t')
    = [ ["No."; "Nombre de la Mesa"; "NIVEL"; "Fecha"; "Dato  transformador"];
        ["a"; ""; String "c" (String "010" "d"); "d"; ""] ].
Proof.
  eexists. split; [reflexivity|].
  destruct (@filler_appends_the_values ascii_lib wide_table _
              [[Some "a"; None; Some (String "c" (String "013" "d")); Some "d"; Some "e"]]
              eq_refl) as (_ & Hrows & _).
  rewrite Hrows. reflexivity.
Defined.

(** ** The letter builder *)

Lemma lookup_insert_other {A : Type} (l : list A) (i j : nat) (x : A) :
  i <> j -> <[i := x]> l !! j = l !! j.
Proof. intros Hne. by apply list_lookup_insert_ne. Qed.

(** X15.  The letter builder raises its no-table error exactly when the
    locator finds no table.  When it succeeds without placeholders, the
    document it returns has the paragraphs and every other table of the
    template as they were, and in the place of the located table that table
    cleared and filled. *)
Theorem builder_rewrites_only_the_located_table `{PyLib}
    (template : Document) (rs : list (list (option string))) (table_index : option Z) :
  (forall placeholders,
      build_letter_bytes template rs placeholders table_index = inl NO_TABLE_ERROR <->
      find_target_table template table_index = None) /\
  (forall doc,
      build_letter_bytes template rs None table_index = inr doc ->
      exists i t t',
        find_target_table template table_index = Some i /\
        tables template !! i = Some t /\
        populate t rs = inr t' /\
        paragraphs doc = paragraphs template /\
        List.length (tables doc) = List.length (tables template) /\
        tables doc !! i = Some t' /\
        forall j, j <> i -> tables doc !! j = tables template !! j).
Proof.
  split.
  - intros placeholders. unfold build_letter_bytes, NO_TABLE_ERROR. split.
    + destruct (find_target_table template table_index) as [i|] eqn:Hfind; [|done].
      destruct (located_table_in_document template table_index i Hfind) as (t & Ht & _).
      rewrite Ht. destruct (fill_table _ rs) as [e|t'] eqn:Hfill; [|done].
      intros [= ->]. exfalso.
      rewrite fill_table_rows in Hfill.
      destruct (filled_rows _ rs) as [e|new] eqn:Hnew; [|done].
      injection Hfill as Hfill.
      destruct (filled_rows_error _ _ _ Hnew) as [[Hnew' _] | [Hnew' _]];
        unfold XML_TEXT_ERROR in *; congruence.
    + by intros ->.
  - intros doc. unfold build_letter_bytes.
    destruct (find_target_table template table_index) as [i|] eqn:Hfind; [|done].
    destruct (tables template !! i) as [t|] eqn:Ht; [|done].
    destruct (fill_table (clear_table_keep_header t) rs) as [e|t'] eqn:Hfill; [done|].
    intros [= <-]. exists i, t, t'. cbn [paragraphs tables].
    split; [done|]. split; [done|]. split; [exact Hfill|]. split; [done|].
    split; [by rewrite length_insert|]. split.
    + apply list_lookup_insert_eq. by apply lookup_lt_Some in Ht.
    + intros j Hj. by apply list_lookup_insert_ne.
Qed.

Lemma builder_rewrites_only_the_located_table_witness :
  exists doc,
    @build_letter_bytes ascii_lib sample_doc sample_values None (Some 0) = inr doc /\
    tables doc !! 1%nat = Some wide_table /\
    tables doc !! 2%nat = Some bare_table /\
    (List.length <$> (rows <$> tables doc !! 0%nat)) = Some 3%nat.
Proof.
  eexists. split; [reflexivity|].
  destruct (@builder_rewrites_only_the_located_table ascii_lib sample_doc sample_values
              (Some 0)) as [_ Hdoc].
  destruct (Hdoc _ eq_refl) as (i & t & t' & Hfind & Ht & Hpop & _ & _ & Hi & Hother).
  vm_compute in Hfind. injection Hfind as <-.
  split; [by rewrite Hother|]. split; [by rewrite Hother|]. reflexivity.
Defined.

(** ** The placeholder engine: what it leaves alone *)

Lemma set_run_text_rPr (s : string) (r : Run) : run_rPr (set_run_text s r) = run_rPr r.
Proof. reflexivity. Qed.

Lemma map_rPr_set_text (f : Run -> string) (p : Paragraph) :
  map run_rPr (map (fun r => set_run_text (f r) r) p) = map run_rPr p.
Proof. induction p as [|r p IH]; [done|]. simpl. by rewrite IH. Qed.

(** In either mode the engine keeps the runs of a paragraph and their
    formatting; it only rewrites texts. *)
Lemma replace_in_paragraph_rPr (mapping : list (string * string)) (normalize_runs : bool)
    (p : Paragraph) :
  map run_rPr (_replace_in_paragraph (make_tokens mapping) normalize_runs p) = map run_rPr p.
Proof.
  destruct normalize_runs.
  - rewrite replace_in_paragraph_unfold.
    destruct (some_token_in mapping (paragraph_text p)) eqn:Hs; [|done].
    destruct p as [|r0 later]; [by rewrite some_token_in_empty in Hs|].
    cbn [map]. rewrite set_run_text_rPr. f_equal.
    apply (map_rPr_set_text (fun _ => "")).
  - unfold _replace_in_paragraph. destruct (make_tokens mapping) as [|t ts]; [done|].
    apply (map_rPr_set_text (fun r => replace_in_text (t :: ts) (run_text r))).
Qed.

(** X16.  The placeholder engine rewrites texts and nothing else: in
    either mode every paragraph keeps its runs, in number and in
    formatting, and the document keeps its paragraphs, its tables, their
    grid widths, their rows and the cells of every row. *)
Theorem substitution_keeps_structure_and_formatting
    (doc : Document) (mapping : list (string * string)) (normalize_runs : bool) :
  let doc' := _replace_placeholders_runsafe doc mapping normalize_runs in
  (forall p, map run_rPr (_replace_in_paragraph (make_tokens mapping) normalize_runs p)
             = map run_rPr p) /\
  map (map run_rPr) (paragraphs doc') = map (map run_rPr) (paragraphs doc) /\
  map columns (tables doc') = map columns (tables doc) /\
  map (fun t => map (map (map (map run_rPr))) (rows t)) (tables doc')
  = map (fun t => map (map (map (map run_rPr))) (rows t)) (tables doc).
Proof.
  intros doc'. subst doc'. unfold _replace_placeholders_runsafe. cbn [paragraphs tables].
  split; [apply replace_in_paragraph_rPr|]. split; [|split].
  - rewrite map_map. apply map_ext. intros p. apply replace_in_paragraph_rPr.
  - by rewrite map_map.
  - rewrite map_map. apply map_ext. intros t. cbn [rows].
    rewrite map_map. apply map_ext. intros row.
    rewrite map_map. apply map_ext. intros cell.
    rewrite map_map. apply map_ext. intros p. apply replace_in_paragraph_rPr.
Qed.

Lemma replace_in_text_substitute (mapping : list (string * string)) (txt : string) :
  replace_in_text (make_tokens mapping) txt = substitute_text mapping txt.
Proof.
  revert txt. induction mapping as [|[k v] mapping IH]; intros txt; [done|].
  cbn [make_tokens map replace_in_text fst snd substitute_text foldl].
  destruct (PyStr.contains (token_of k) txt) eqn:Hk.
  - apply IH.
  - rewrite (replace_absent _ _ _ Hk). apply IH.
Qed.

Lemma substitute_text_absent (mapping : list (string * string)) (txt : string) :
  some_token_in mapping txt = false -> substitute_text mapping txt = txt.
Proof.
  induction mapping as [|[k v] mapping IH]; [done|].
  cbn [some_token_in existsb fst]. intros [Hk Hrest]%orb_false_elim.
  unfold substitute_text. cbn [foldl fst snd]. rewrite (replace_absent _ _ _ Hk).
  by apply IH.
Qed.

Lemma set_run_text_same (r : Run) : set_run_text (run_text r) r = r.
Proof. by destruct r. Qed.

(** X17.  On a paragraph of a single run the two modes of the engine do
    the same.  In the per-run mode a paragraph none of whose runs contains
    a token by itself is returned as it is, so that a token split over two
    runs is left in place there: this is what the run-normalising mode, the
    one the letter builder uses, is for. *)
Theorem per_run_mode_misses_split_tokens (mapping : list (string * string)) :
  (forall r : Run,
      _replace_in_paragraph (make_tokens mapping) false [r]
      = _replace_in_paragraph (make_tokens mapping) true [r]) /\
  (forall p : Paragraph,
      (forall r, In r p -> some_token_in mapping (run_text r) = false) ->
      _replace_in_paragraph (make_tokens mapping) false p = p).
Proof.
  assert (Hfalse : forall p,
             _replace_in_paragraph (make_tokens mapping) false p
             = map (fun r => set_run_text (substitute_text mapping (run_text r)) r) p).
  { intros p. unfold _replace_in_paragraph.
    destruct (make_tokens mapping) as [|t ts] eqn:Ht.
    - destruct mapping; [|discriminate Ht]. unfold substitute_text. simpl.
      induction p as [|r p IH]; [done|]. simpl. by rewrite set_run_text_same, <- IH.
    - rewrite <- Ht. apply map_ext. intros r. by rewrite replace_in_text_substitute. }
  split.
  - intros r. rewrite Hfalse, replace_in_paragraph_unfold.
    unfold paragraph_text. cbn [map PyStr.concat fold_right]. rewrite append_nil_r.
    destruct (some_token_in mapping (run_text r)) eqn:Hs; [done|].
    by rewrite (substitute_text_absent _ _ Hs), set_run_text_same.
  - intros p Hnone. rewrite Hfalse.
    induction p as [|r p IH]; [done|]. cbn [map].
    rewrite (substitute_text_absent _ _ (Hnone r (or_introl eq_refl))), set_run_text_same.
    f_equal. apply IH. intros r' Hr'. apply Hnone. by right.
Qed.

Lemma per_run_mode_misses_split_tokens_witness :
  let p := [ {| run_text := "{{NA"; run_rPr := "bold" |};
             {| run_text := "ME}}"; run_rPr := "plain" |} ] in
  _replace_in_paragraph (make_tokens [("NAME", "Alice")]) false p = p /\
  paragraph_text (_replace_in_paragraph (make_tokens [("NAME", "Alice")]) true p) = "Alice".
Proof.
  intros p. split; [|reflexivity].
  apply (per_run_mode_misses_split_tokens [("NAME", "Alice")]).
  intros r [<- | [<- | []]]; reflexivity.
Defined.

(** ** Grouping *)

Lemma Qeq_bool_sym (p q : Q) : Qeq_bool p q = Qeq_bool q p.
Proof.
  destruct (Qeq_bool p q) eqn:H1, (Qeq_bool q p) eqn:H2; try done.
  - apply Qeq_bool_iff in H1. symmetry in H1. apply Qeq_bool_iff in H1. congruence.
  - apply Qeq_bool_iff in H2. symmetry in H2. apply Qeq_bool_iff in H2. congruence.
Qed.

Lemma Qeq_bool_trans' (p q r : Q) :
  Qeq_bool p q = true -> Qeq_bool q r = true -> Qeq_bool p r = true.
Proof.
  rewrite !Qeq_bool_iff. intros H1 H2. by rewrite H1.
Qed.

Lemma key_eqb_refl (a : Value) : key_eqb a a = true.
Proof.
  destruct a as [|n|q|s|t]; simpl; try done.
  - apply Qeq_bool_iff. reflexivity.
  - apply Qeq_bool_iff. reflexivity.
  - apply String.eqb_refl.
  - apply Z.eqb_refl.
Qed.

Lemma key_eqb_sym (a b : Value) : key_eqb a b = key_eqb b a.
Proof.
  destruct a as [|n|q|s|t], b as [|n'|q'|s'|t']; simpl; try done;
    try apply Qeq_bool_sym; [apply String.eqb_sym | apply Z.eqb_sym].
Qed.

Lemma key_eqb_trans (a b c : Value) :
  key_eqb a b = true -> key_eqb b c = true -> key_eqb a c = true.
Proof.
  destruct a as [|n|q|s|t], b as [|n'|q'|s'|t'], c as [|n''|q''|s''|t'']; simpl; try done;
    try apply Qeq_bool_trans'.
  - intros ->%String.eqb_eq ->%String.eqb_eq. apply String.eqb_refl.
  - intros ->%Z.eqb_eq ->%Z.eqb_eq. apply Z.eqb_refl.
Qed.

Lemma distinct_keys_In (k : Value) (l : list Value) : In k (distinct_keys l) -> In k l.
Proof.
  revert k. induction l as [|a l IH]; intros k; [done|]. simpl.
  intros [-> | [Hin _]%filter_In]; [by left | right; by apply IH].
Qed.

Lemma filter_filter_length {A : Type} (p q : A -> bool) (l : list A) :
  (forall x, p x = true -> q x = true) ->
  List.length (List.filter p (List.filter q l)) = List.length (List.filter p l).
Proof.
  intros Hpq. induction l as [|x l IH]; [done|]. simpl.
  destruct (q x) eqn:Hq; simpl.
  - destruct (p x); simpl; by rewrite IH.
  - destruct (p x) eqn:Hp; [|done]. apply Hpq in Hp. congruence.
Qed.

(** Every key of the list has one representative among the distinct
    keys. *)
Lemma distinct_keys_one (l : list Value) (k : Value) :
  (exists x, In x l /\ key_eqb x k = true) ->
  List.length (List.filter (fun k' => key_eqb k' k) (distinct_keys l)) = 1%nat.
Proof.
  induction l as [|a l IH]; intros (x & Hx & Hxk); [done|].
  cbn [distinct_keys List.filter].
  destruct (key_eqb a k) eqn:Hak.
  - cbn [List.length]. f_equal.
    rewrite (proj2 (filter_nil_iff _ _)); [done|].
    intros k' [_ Hk']%filter_In. apply negb_true_iff in Hk'.
    destruct (key_eqb k' k) eqn:Hk'k; [|done].
    rewrite key_eqb_sym in Hk'k. by rewrite (key_eqb_trans a k k' Hak Hk'k) in Hk'.
  - rewrite filter_filter_length.
    + apply IH. destruct Hx as [-> | Hx]; [congruence | eauto].
    + intros k' Hk'k. apply negb_true_iff.
      destruct (key_eqb a k') eqn:Hak'; [|done].
      by rewrite (key_eqb_trans a k' k Hak' Hk'k) in Hak.
Qed.

Lemma flat_map_app_perm {A B : Type} (f g : A -> list B) (l : list A) :
  Permutation (flat_map (fun x => (f x ++ g x)%list) l) (flat_map f l ++ flat_map g l)%list.
Proof.
  induction l as [|x l IH]; [done|]. simpl. rewrite IH.
  rewrite <- !app_assoc. apply Permutation_app_head.
  rewrite !app_assoc. apply Permutation_app_tail, Permutation_app_comm.
Qed.

Lemma flat_map_indicator {A B : Type} (p : A -> bool) (y : B) (l : list A) :
  List.length (List.filter p l) = 1%nat ->
  flat_map (fun x => if p x then [y] else []) l = [y].
Proof.
  induction l as [|x l IH]; [done|]. simpl. destruct (p x) eqn:Hp; simpl.
  - intros [= Hlen]. apply length_zero_iff_nil in Hlen.
    f_equal. clear IH. induction l as [|z l IHl]; [done|]. simpl in *.
    destruct (p z); [done|]. by apply IHl.
  - apply IH.
Qed.

Lemma flat_map_filter_partition {A B : Type} (eqb : A -> B -> bool) (reps : list A)
    (l : list B) :
  (forall r, In r l -> List.length (List.filter (fun k => eqb k r) reps) = 1%nat) ->
  Permutation (flat_map (fun k => List.filter (eqb k) l) reps) l.
Proof.
  induction l as [|r l IH]; intros Hone.
  - clear Hone. induction reps; done.
  - transitivity (flat_map (fun k => ((if eqb k r then [r] else []) ++ List.filter (eqb k) l)%list) reps).
    { apply Permutation_refl'. apply flat_map_ext. intros k. simpl. by destruct (eqb k r). }
    rewrite flat_map_app_perm, flat_map_indicator by (apply Hone; by left).
    simpl. constructor. apply IH. intros r' Hr'. apply Hone. by right.
Qed.

Lemma filter_two {A : Type} (p : A -> bool) (l : list A) (a b : A) :
  In a l -> In b l -> a <> b -> p a = true -> p b = true ->
  (2 <= List.length (List.filter p l))%nat.
Proof.
  induction l as [|x l IH]; [done|]. simpl.
  intros [-> | Ha] [-> | Hb] Hne Hpa Hpb; try done.
  - rewrite Hpa. simpl.
    assert (In b (List.filter p l)) by (by apply filter_In).
    destruct (List.filter p l); [done | simpl; lia].
  - rewrite Hpb. simpl.
    assert (In a (List.filter p l)) by (by apply filter_In).
    destruct (List.filter p l); [done | simpl; lia].
  - specialize (IH Ha Hb Hne Hpa Hpb). destruct (p x); simpl; lia.
Qed.

Lemma filter_length_perm {A : Type} (p : A -> bool) (l l' : list A) :
  Permutation l l' -> List.length (List.filter p l) = List.length (List.filter p l').
Proof.
  induction 1 as [|x l l' _ IH|x y l|l l' l'' _ IH1 _ IH2]; simpl.
  - done.
  - destruct (p x); simpl; by rewrite IH.
  - by destruct (p x), (p y).
  - by rewrite IH1.
Qed.

(** The keys of the groups: one representative for every key of a row. *)
Lemma group_keys_one (key : NormRow -> Value) (l : list NormRow) (r : NormRow) :
  In r l ->
  List.length (List.filter (fun k => key_eqb k (key r))
                 (sort_by key_leb (distinct_keys (map key l)))) = 1%nat.
Proof.
  intros Hr. rewrite (filter_length_perm _ _ _ (sort_by_perm key_leb _)).
  apply distinct_keys_one. exists (key r). split; [by apply in_map | apply key_eqb_refl].
Qed.

Lemma groupby_concat (key : NormRow -> Value) (l : list NormRow) :
  Permutation (concat (map snd (groupby key l))) l.
Proof.
  unfold groupby. rewrite map_map. cbn [snd]. rewrite <- flat_map_concat_map.
  apply (flat_map_filter_partition (fun k r => key_eqb k (key r))).
  intros r Hr. by apply group_keys_one.
Qed.

Lemma groupby_nonempty (key : NormRow -> Value) (l : list NormRow) (g : Value * list NormRow) :
  In g (groupby key l) -> snd g <> [].
Proof.
  unfold groupby. intros (k & <- & Hk)%in_map_iff. cbn [snd].
  apply (Permutation_in _ (sort_by_perm key_leb _)), distinct_keys_In in Hk.
  apply in_map_iff in Hk as (r & <- & Hr).
  intros Hnil. pose proof (proj1 (filter_nil_iff _ _) Hnil r Hr) as Hf.
  simpl in Hf. by rewrite key_eqb_refl in Hf.
Qed.

Lemma Value_eq_dec (a b : Value) : {a = b} + {a <> b}.
Proof.
  decide equality; [apply Z.eq_dec | | apply string_dec | apply Z.eq_dec].
  decide equality; [apply Pos.eq_dec | apply Z.eq_dec].
Qed.

(** X18.  Grouping loses and repeats nothing: the groups, put end to end,
    are the rows of the frame in another order; no group is empty, the rows
    of a group all carry the key of the group, and two groups never carry
    the same key. *)
Theorem grouping_partitions_the_rows (key : NormRow -> Value) (l : list NormRow) :
  Permutation (concat (map snd (groupby key l))) l /\
  (forall g, In g (groupby key l) ->
             snd g <> [] /\ forall r, In r (snd g) -> key_eqb (fst g) (key r) = true) /\
  (forall g g', In g (groupby key l) -> In g' (groupby key l) ->
                key_eqb (fst g) (fst g') = true -> g = g').
Proof.
  split; [apply groupby_concat|]. split.
  - intros g Hg. split; [by eapply groupby_nonempty|].
    rewrite (groupby_rows _ _ _ Hg). by intros r [_ Hr]%filter_In.
  - intros g g' Hg Hg' Heq.
    pose proof Hg as Hg0. pose proof Hg' as Hg0'.
    unfold groupby in Hg, Hg'.
    apply in_map_iff in Hg as (k & <- & Hk). apply in_map_iff in Hg' as (k' & <- & Hk').
    cbn [fst] in Heq.
    destruct (Value_eq_dec k k') as [->|Hne]; [done|]. exfalso.
    assert (Hin : In k' (map key l)).
    { by apply (Permutation_in _ (sort_by_perm key_leb _)), distinct_keys_In in Hk'. }
    apply in_map_iff in Hin as (r & Hr & Hrl).
    pose proof (group_keys_one key l r Hrl) as Hone. rewrite Hr in Hone.
    pose proof (filter_two (fun k0 => key_eqb k0 k') _ k k' Hk Hk' Hne Heq
                  (key_eqb_refl k')) as Htwo.
    lia.
Qed.

Lemma grouping_partitions_the_rows_witness :
  Permutation (concat (map snd (groupby ACTOR dated_rows))) dated_rows /\
  key_eqb (VStr "Ana") (ACTOR (sample_row "Ana" VNone)) = true.
Proof.
  destruct (grouping_partitions_the_rows ACTOR dated_rows) as (Hperm & Hgrp & _).
  split; [exact Hperm|].
  destruct (Hgrp (VStr "Ana", [sample_row "Ana" (VStr "2024-01-01"); sample_row "Ana" VNone]))
    as [_ Hkey].
  - vm_compute. left. reflexivity.
  - apply (Hkey (sample_row "Ana" VNone)). simpl. right. left. reflexivity.
Defined.

(** ** The index of the batch *)

Lemma string_leb_total (a b : string) : String.leb a b = false -> String.leb b a = true.
Proof.
  intros Hab. destruct (String.leb_total a b) as [Ht | Ht]; congruence.
Qed.

Lemma string_leb_trans (a b c : string) :
  String.leb a b = true -> String.leb b c = true -> String.leb a c = true.
Proof.
  intros Hab%Is_true_true Hbc%Is_true_true. apply Is_true_true.
  change (String.le a c). by transitivity b.
Qed.

Lemma list_sum_perm (l l' : list nat) : Permutation l l' -> list_sum l = list_sum l'.
Proof.
  induction 1 as [|x l l' _ IH|x y l|l l' l'' _ IH1 _ IH2]; simpl; lia.
Qed.

Lemma list_sum_lengths {A : Type} (l : list (list A)) :
  list_sum (map (@List.length A) l) = List.length (concat l).
Proof.
  induction l as [|x l IH]; [done|]. simpl. rewrite length_app. lia.
Qed.

Lemma list_sum_filter_le {A : Type} (f : A -> nat) (p : A -> bool) (l : list A) :
  (list_sum (map f (List.filter p l)) <= list_sum (map f l))%nat.
Proof.
  induction l as [|x l IH]; [done|]. simpl. destruct (p x); simpl; lia.
Qed.

Lemma filter_all {A : Type} (p : A -> bool) (l : list A) :
  (forall x, In x l -> p x = true) -> List.filter p l = l.
Proof.
  induction l as [|x l IH]; intros Hall; [done|]. simpl.
  rewrite (Hall x) by (by left). f_equal. apply IH. intros y Hy. apply Hall. by right.
Qed.

Section IndexFacts.
Context `{PyLib}.
Variable build : list (list (option string)) -> option (list (string * string)) -> Exn + Document.
Variable ppg : option (gmap string (list (string * string))).

(** A group whose letter fails leaves an entry in [errors]. *)
Lemma batch_errors_nonempty (gs : list (Value * list NormRow)) (st : BatchState) :
  errors st <> ∅ \/ (exists g, In g gs /\ is_ok (group_result build ppg g) = false) ->
  errors (foldl (batch_step build ppg) st gs) <> ∅.
Proof.
  revert st. induction gs as [|g gs IH]; intros st Hst.
  - destruct Hst as [Hst | (g & [] & _)]. done.
  - simpl. apply IH.
    destruct (group_result build ppg g) as [e|doc] eqn:Hg.
    + left. rewrite (batch_step_err build ppg st g e Hg). simpl. apply insert_non_empty.
    + rewrite (batch_step_ok build ppg st g doc Hg). simpl.
      destruct Hst as [Hst | (g' & [<- | Hin] & Hg')]; [by left | | right; eauto].
      rewrite Hg in Hg'. done.
Qed.
End IndexFacts.

(** X19.  The index of a batch is ordered by group name, every row of
    it counts at least one record, the counts add up to no more than the rows
    of the frame, and to exactly the rows of the frame when no error was
    recorded. *)
Theorem index_is_sorted_and_counts_the_rows `{PyLib} (work_df : WorkFrame)
    (template : Document) (group_field : string)
    (ppg : option (gmap string (list (string * string))))
    (table_index : option Z) (newest_first : bool)
    (outs : gmap string Document) (errs : gmap string string) (idx : list (string * nat))
    (Hgen : generate_letters_per_group work_df template group_field ppg table_index
              newest_first = inr (outs, errs, idx)) :
  StronglySorted (fun a b => String.leb (fst a) (fst b) = true) idx /\
  (forall row, In row idx -> (1 <= snd row)%nat) /\
  (list_sum (map snd idx) <= List.length (work_rows work_df))%nat /\
  (errs = ∅ -> list_sum (map snd idx) = List.length (work_rows work_df)).
Proof.
  unfold generate_letters_per_group in Hgen.
  destruct (group_value work_df group_field) as [key|]; [|done].
  set (build := fun filas placeholders =>
                  build_letter_bytes template filas placeholders table_index) in *.
  set (gs := groupby key (sort_values (negb newest_first) (work_rows work_df))) in *.
  injection Hgen as _ Herrs Hidx.
  unfold batch_loop in Herrs, Hidx. rewrite batch_summary in Hidx. simpl in Hidx.
  set (ok := List.filter (fun g => is_ok (group_result build ppg g)) gs) in *.
  assert (Hperm : Permutation idx (map summary_row ok)).
  { rewrite <- Hidx. apply sort_by_perm. }
  assert (Hrows : List.length (concat (map snd gs)) = List.length (work_rows work_df)).
  { unfold gs. rewrite (Permutation_length (groupby_concat _ _)).
    symmetry. apply Permutation_length, sort_values_perm. }
  assert (Hsum : forall l : list (Value * list NormRow),
             list_sum (map snd (map summary_row l)) = List.length (concat (map snd l))).
  { intros l. rewrite <- list_sum_lengths, !map_map. done. }
  split; [|split; [|split]].
  - rewrite <- Hidx.
    apply (sort_by_sorted summary_leb (fun _ => True)).
    + intros a b _ _. apply string_leb_total.
    + intros a b c _ _ _. apply string_leb_trans.
    + by apply Forall_forall.
  - intros row Hrow. apply (Permutation_in _ Hperm) in Hrow.
    apply in_map_iff in Hrow as (g & <- & Hg). apply filter_In in Hg as [Hg _].
    apply groupby_nonempty in Hg. simpl. destruct (snd g); [done | simpl; lia].
  - rewrite (list_sum_perm _ _ (Permutation_map snd Hperm)), <- Hrows.
    rewrite <- list_sum_lengths, !map_map. unfold ok.
    apply (list_sum_filter_le (fun g => List.length (snd g))).
  - intros Hempty. rewrite (list_sum_perm _ _ (Permutation_map snd Hperm)), <- Hrows.
    rewrite Hsum. unfold ok. rewrite filter_all; [done|].
    intros g Hg. destruct (is_ok (group_result build ppg g)) eqn:Hok; [done|].
    exfalso. rewrite <- Herrs in Hempty. revert Hempty.
    apply batch_errors_nonempty. right. eauto.
Qed.

Lemma index_is_sorted_and_counts_the_rows_witness :
  exists outs errs idx,
    @generate_letters_per_group ascii_lib
      {| grupo_col := false; work_rows := dated_rows |} letter_doc "ACTOR" None None true
    = inr (outs, errs, idx) /\
    StronglySorted (fun a b => String.leb (fst a) (fst b) = true) idx /\
    (list_sum (map snd idx) <= List.length dated_rows)%nat.
Proof.
  eexists _, _, _. split; [reflexivity|].
  destruct (@index_is_sorted_and_counts_the_rows ascii_lib
              {| grupo_col := false; work_rows := dated_rows |} letter_doc "ACTOR" None None true
              _ _ _ eq_refl) as (Hs & _ & Hle & _).
  split; [exact Hs | exact Hle].
Defined.

(** ** The placeholders of the groups *)

Lemma dict_set_In (k v : string) (d : list (string * string)) : In (k, v) (dict_set k v d).
Proof.
  induction d as [|[k' v'] d IH]; simpl; [by left|].
  destruct (String.eqb k' k) eqn:Hk; [|by right].
  apply String.eqb_eq in Hk as ->. by left.
Qed.

Lemma dict_set_other (k v k0 v0 : string) (d : list (string * string)) :
  k0 <> k -> In (k0, v0) d -> In (k0, v0) (dict_set k v d).
Proof.
  intros Hne. induction d as [|[k' v'] d IH]; simpl; [done|].
  intros [[= -> ->] | Hin].
  - destruct (String.eqb k0 k) eqn:Hk; [by apply String.eqb_eq in Hk | by left].
  - destruct (String.eqb k' k); right; [done | by apply IH].
Qed.

Lemma dict_set_keys (k v : string) (d : list (string * string)) :
  map fst (dict_set k v d) = if existsb (fun kv => String.eqb (fst kv) k) d
                             then map fst d else (map fst d ++ [k])%list.
Proof.
  induction d as [|[k' v'] d IH]; simpl; [done|].
  destruct (String.eqb k' k) eqn:Hk; simpl; [done|].
  rewrite IH. by destruct (existsb _ d).
Qed.

Lemma dict_set_NoDup (k v : string) (d : list (string * string)) :
  List.NoDup (map fst d) -> List.NoDup (map fst (dict_set k v d)).
Proof.
  intros Hnd. rewrite dict_set_keys.
  destruct (existsb _ d) eqn:Hex; [done|].
  apply NoDup_ListNoDup, NoDup_app. split; [by apply NoDup_ListNoDup|].
  split; [|apply NoDup_singleton].
  intros x Hx ->%list_elem_of_singleton.
  apply list_elem_of_In, in_map_iff in Hx as ([k' v'] & Hk' & Hin). simpl in Hk'. subst k'.
  assert (existsb (fun kv => String.eqb (fst kv) k) d = true); [|congruence].
  apply existsb_exists. exists (k, v'). split; [done | apply String.eqb_refl].
Qed.

Lemma dict_set_key_In (k v k0 v0 : string) (d : list (string * string)) :
  In (k0, v0) (dict_set k v d) -> k0 = k \/ In (k0, v0) d.
Proof.
  induction d as [|[k' v'] d IH]; simpl.
  - intros [[= <- <-] | []]. by left.
  - destruct (String.eqb k' k) eqn:Hk; simpl.
    + apply String.eqb_eq in Hk as ->. intros [[= <- <-] | Hin]; [by left | right; by right].
    + intros [Heq | Hin]; [right; by left|]. destruct (IH Hin); [by left | right; by right].
Qed.

Lemma placeholder_row_ok `{PyLib} (out : gmap string (list (string * string)))
    (r : Value * Value * Value) :
  placeholders_ok out -> placeholders_ok (placeholder_row out r).
Proof.
  intros Hok. destruct r as [[grupo llave] valor]. unfold placeholder_row.
  set (g := str_strip (sheet_str grupo)). set (k := str_strip (sheet_str llave)).
  set (v := if isna valor then "" else py_str valor).
  destruct (String.eqb g "") eqn:Hg; [done|].
  destruct (String.eqb k "") eqn:Hk; [done|]. simpl.
  apply String.eqb_neq in Hg, Hk.
  intros g' d'. destruct (decide (g' = g)) as [->|Hne].
  - rewrite lookup_insert_eq. intros [= <-].
    assert (Hd : List.NoDup (map fst (default [] (out !! g))) /\
                 forall k0 v0, In (k0, v0) (default [] (out !! g)) -> k0 <> "").
    { destruct (out !! g) as [d|] eqn:Hd; simpl; [|split; [constructor | done]].
      destruct (Hok g d Hd) as (_ & _ & Hnd & Hkeys). done. }
    destruct Hd as [Hnd Hkeys].
    split; [done|]. split.
    { pose proof (dict_set_In k v (default [] (out !! g))) as Hin.
      intros Hnil. by rewrite Hnil in Hin. }
    split; [by apply dict_set_NoDup|].
    intros k0 v0 [-> | Hin]%dict_set_key_In; [done | by eapply Hkeys].
  - rewrite lookup_insert_ne by done. apply Hok.
Qed.

Lemma placeholder_rows_ok `{PyLib} {A : Type} (cells : A -> Value * Value * Value)
    (l : list A) (out : gmap string (list (string * string))) :
  placeholders_ok out ->
  placeholders_ok (foldl (fun out r => placeholder_row out (cells r)) out l).
Proof.
  revert out. induction l as [|r l IH]; intros out Hok; [done|].
  simpl. apply IH. by apply placeholder_row_ok.
Qed.

(** X20.  Whatever the workbook, no group of the result has an empty
    name or an empty dict, and the keys of a group are non-empty and appear
    once. *)
Theorem placeholders_have_names_and_keys `{PyLib} (xls : option (list (string * DataFrame)))
    (g : string) (d : list (string * string)) :
  read_placeholders_from_excel xls !! g = Some d ->
  g <> "" /\ d <> [] /\ List.NoDup (map fst d) /\ forall k v, In (k, v) d -> k <> "".
Proof.
  assert (Hempty : placeholders_ok ∅) by (intros g0 d0; by rewrite lookup_empty).
  revert g d. change (placeholders_ok (read_placeholders_from_excel xls)).
  unfold read_placeholders_from_excel.
  destruct xls as [sheets|]; [|done].
  destruct (sheet_by_name "Placeholders" sheets) as [df|]; [|done].
  destruct (forallb _ _); [|done].
  by apply (placeholder_rows_ok
              (fun r => (cell_at df r "Grupo", cell_at df r "Llave", cell_at df r "Valor"))).
Qed.

Lemma placeholders_have_names_and_keys_witness :
  @read_placeholders_from_excel ascii_lib (Some sample_workbook) !! "Ana"
  = Some [("NOMBRE", "Ana Q.")] /\
  "Ana" <> "" /\ List.NoDup (map fst [("NOMBRE", "Ana Q.")]).
Proof.
  assert (Hread : @read_placeholders_from_excel ascii_lib (Some sample_workbook) !! "Ana"
                  = Some [("NOMBRE", "Ana Q.")]) by (vm_compute; reflexivity).
  destruct (@placeholders_have_names_and_keys ascii_lib _ _ _ Hread) as (Hg & _ & Hnd & _).
  split; [exact Hread|]. split; [exact Hg | exact Hnd].
Defined.

Lemma placeholder_row_keeps `{PyLib} (out : gmap string (list (string * string)))
    (r : Value * Value * Value) (g k v : string) :
  ~ (str_strip (sheet_str r.1.1) = g /\ str_strip (sheet_str r.1.2) = k) ->
  (exists d, out !! g = Some d /\ In (k, v) d) ->
  exists d, placeholder_row out r !! g = Some d /\ In (k, v) d.
Proof.
  destruct r as [[grupo llave] valor]. simpl. intros Hne (d & Hd & Hin).
  unfold placeholder_row.
  destruct (String.eqb _ "" || String.eqb _ ""); [eauto|].
  destruct (decide (str_strip (sheet_str grupo) = g)) as [Hg|Hg].
  - rewrite Hg, lookup_insert_eq, Hd. simpl. eexists. split; [done|].
    apply dict_set_other; [|done]. intros ->. by apply Hne.
  - rewrite lookup_insert_ne by done. eauto.
Qed.

Lemma placeholder_rows_keep `{PyLib} {A : Type} (cells : A -> Value * Value * Value)
    (l : list A) (out : gmap string (list (string * string))) (g k v : string) :
  (forall r, In r l ->
     ~ (str_strip (sheet_str (cells r).1.1) = g /\ str_strip (sheet_str (cells r).1.2) = k)) ->
  (exists d, out !! g = Some d /\ In (k, v) d) ->
  exists d, foldl (fun out r => placeholder_row out (cells r)) out l !! g = Some d /\
            In (k, v) d.
Proof.
  revert out. induction l as [|r l IH]; intros out Hl Hout; [done|].
  simpl. apply IH; [intros r' Hr'; apply Hl; by right|].
  apply placeholder_row_keeps; [apply Hl; by left | done].
Qed.

(** X21.  On a sheet [Placeholders] with the three columns, a row with a
    non-empty group and key, after which no row repeats that group and key,
    decides the value of the key in the dict of the group: the text of its
    [Valor] cell, or the empty text when the cell is missing.  The group and
    the key are the stripped texts of the cells, so a missing [Grupo] cell
    files the row under the text of a missing number. *)
Theorem last_placeholder_row_wins `{PyLib} (sheets : list (string * DataFrame))
    (df : DataFrame) (before after : list (list Value)) (r : list Value)
    (Hsheet : sheet_by_name "Placeholders" sheets = Some df)
    (Hcols : forallb (fun c => in_columns c (df_columns df)) ["Grupo"; "Llave"; "Valor"] = true)
    (Hrows : df_rows df = (before ++ r :: after)%list)
    (Hg : str_strip (sheet_str (cell_at df r "Grupo")) <> "")
    (Hk : str_strip (sheet_str (cell_at df r "Llave")) <> "")
    (Hlast : forall r', In r' after ->
               ~ (str_strip (sheet_str (cell_at df r' "Grupo"))
                  = str_strip (sheet_str (cell_at df r "Grupo")) /\
                  str_strip (sheet_str (cell_at df r' "Llave"))
                  = str_strip (sheet_str (cell_at df r "Llave")))) :
  exists d,
    read_placeholders_from_excel (Some sheets) !! str_strip (sheet_str (cell_at df r "Grupo"))
    = Some d /\
    In (str_strip (sheet_str (cell_at df r "Llave")),
        if isna (cell_at df r "Valor") then "" else py_str (cell_at df r "Valor")) d.
Proof.
  unfold read_placeholders_from_excel. rewrite Hsheet, Hcols, Hrows.
  rewrite foldl_app. cbn [foldl].
  apply (placeholder_rows_keep
           (fun r => (cell_at df r "Grupo", cell_at df r "Llave", cell_at df r "Valor")));
    [exact Hlast|].
  unfold placeholder_row at 1.
  apply String.eqb_neq in Hg, Hk. rewrite Hg, Hk. simpl.
  rewrite lookup_insert_eq. eexists. split; [done|]. apply dict_set_In.
Qed.

Lemma last_placeholder_row_wins_witness :
  exists d, @read_placeholders_from_excel ascii_lib (Some sample_workbook) !! "nan" = Some d /\
            In ("CARGO", "") d.
Proof.
  apply (@last_placeholder_row_wins ascii_lib sample_workbook
           {| df_columns := ["Grupo"; "Llave"; "Valor"];
              df_rows := [ [VStr "Ana"; VStr "NOMBRE"; VStr "Ana P."];
                           [VNone; VStr "CARGO"; VNone];
                           [VStr " Ana "; VStr "NOMBRE"; VStr "Ana Q."] ] |}
           [ [VStr "Ana"; VStr "NOMBRE"; VStr "Ana P."] ]
           [ [VStr " Ana "; VStr "NOMBRE"; VStr "Ana Q."] ]
           [VNone; VStr "CARGO"; VNone]).
  - reflexivity.
  - reflexivity.
  - reflexivity.
  - vm_compute. discriminate.
  - vm_compute. discriminate.
  - intros r' [<- | []]. vm_compute. intros [Hg _]. discriminate.
Defined.

(** ** The batch, from the template *)

Section BatchOutcomes.
Context `{PyLib}.
Variable build : list (list (option string)) -> option (list (string * string)) -> Exn + Document.
Variable ppg : option (gmap string (list (string * string))).

(** When the builder fails on every group with the same error. *)
Lemma batch_all_fail (e : Exn) (gs : list (Value * list NormRow)) (st : BatchState) :
  (forall g, In g gs -> group_result build ppg g = inl e) ->
  outputs (foldl (batch_step build ppg) st gs) = outputs st /\
  summary_rows (foldl (batch_step build ppg) st gs) = summary_rows st /\
  (forall g, In g gs ->
     errors (foldl (batch_step build ppg) st gs) !! group_name g = Some (exn_str e)) /\
  (forall n, ~ In n (map group_name gs) ->
     errors (foldl (batch_step build ppg) st gs) !! n = errors st !! n).
Proof.
  revert st. induction gs as [|g gs IH]; intros st Hall; [done|].
  simpl. destruct (IH (batch_step build ppg st g)) as (Ho & Hs & He & Hn).
  { intros g' Hg'. apply Hall. by right. }
  rewrite (batch_step_err build ppg st g e) in * by (apply Hall; by left).
  simpl in *. split; [done|]. split; [done|]. split.
  - intros g' Hg'.
    destruct (in_dec string_dec (group_name g') (map group_name gs)) as [Hin|Hout].
    + apply in_map_iff in Hin as (g'' & Hname & Hg''). rewrite <- Hname. by apply He.
    + rewrite Hn by done. destruct Hg' as [-> | Hg'].
      * apply lookup_insert_eq.
      * exfalso. apply Hout. by apply in_map.
  - intros n Hnot. rewrite Hn by tauto. apply lookup_insert_ne. tauto.
Qed.

(** When the builder succeeds on every group. *)
Lemma batch_all_succeed (gs : list (Value * list NormRow)) (st : BatchState) :
  (forall g, In g gs -> is_ok (group_result build ppg g) = true) ->
  errors (foldl (batch_step build ppg) st gs) = errors st /\
  summary_rows (foldl (batch_step build ppg) st gs)
  = (summary_rows st ++ map summary_row gs)%list /\
  (forall f, is_Some (outputs st !! f) \/ In f (map group_file gs) ->
     is_Some (outputs (foldl (batch_step build ppg) st gs) !! f)).
Proof.
  revert st. induction gs as [|g gs IH]; intros st Hall.
  - simpl. rewrite app_nil_r. split; [done|]. split; [done|]. by intros f [Hf | []].
  - simpl. destruct (IH (batch_step build ppg st g)) as (He & Hs & Ho).
    { intros g' Hg'. apply Hall. by right. }
    pose proof (Hall g (or_introl eq_refl)) as Hg.
    destruct (group_result build ppg g) as [e|doc] eqn:Hres; [done|].
    rewrite (batch_step_ok build ppg st g doc Hres) in *. simpl in *.
    split; [done|]. split; [by rewrite Hs, <- app_assoc|].
    intros f Hf. apply Ho.
    destruct (decide (f = group_file g)) as [->|Hne].
    + left. rewrite lookup_insert_eq. by eexists.
    + rewrite lookup_insert_ne by done. destruct Hf as [Hf | [Hf | Hf]]; auto. congruence.
Qed.
End BatchOutcomes.

(** X22.  With a template in which the locator finds no table, the batch
    builds no letter: [outputs] and the index are empty, and [errors] holds
    the no-table message under the name of every group, and nothing else. *)
Theorem template_without_table_gives_only_errors `{PyLib} (work_df : WorkFrame)
    (template : Document) (group_field : string)
    (ppg : option (gmap string (list (string * string))))
    (table_index : option Z) (newest_first : bool) (key : NormRow -> Value)
    (Htable : find_target_table template table_index = None)
    (Hfield : group_value work_df group_field = Some key) :
  exists errs,
    generate_letters_per_group work_df template group_field ppg table_index newest_first
    = inr (∅, errs, []) /\
    forall n, errs !! n
              = if existsb (fun g => String.eqb (group_name g) n)
                     (groupby key (sort_values (negb newest_first) (work_rows work_df)))
                then Some (exn_str NO_TABLE_ERROR) else None.
Proof.
  unfold generate_letters_per_group. rewrite Hfield.
  set (build := fun filas placeholders =>
                  build_letter_bytes template filas placeholders table_index).
  set (gs := groupby key (sort_values (negb newest_first) (work_rows work_df))).
  destruct (batch_all_fail build ppg NO_TABLE_ERROR gs
              {| outputs := ∅; errors := ∅; summary_rows := [] |})
    as (Ho & Hs & He & Hn).
  { intros g _. unfold group_result, build, build_letter_bytes. by rewrite Htable. }
  eexists. split.
  - unfold batch_loop. rewrite Ho, Hs. reflexivity.
  - intros n. cbn [snd fst]. destruct (existsb _ gs) eqn:Hex.
    + apply existsb_exists in Hex as (g & Hg & Hname%String.eqb_eq).
      rewrite <- Hname. by apply He.
    + rewrite Hn; [apply lookup_empty|].
      intros (g & <- & Hg)%in_map_iff.
      assert (existsb (fun g0 => String.eqb (group_name g0) (group_name g)) gs = true);
        [|congruence].
      apply existsb_exists. exists g. split; [done | apply String.eqb_refl].
Qed.

Lemma template_without_table_gives_only_errors_witness :
  exists errs,
    @generate_letters_per_group ascii_lib {| grupo_col := false; work_rows := dated_rows |}
      narrow_doc "ACTOR" None (Some 7) true = inr (∅, errs, []) /\
    errs !! "Luis" = Some "No se encontró una tabla válida (4 columnas) en la plantilla.".
Proof.
  destruct (@template_without_table_gives_only_errors ascii_lib
              {| grupo_col := false; work_rows := dated_rows |} narrow_doc "ACTOR" None
              (Some 7) true ACTOR eq_refl eq_refl) as (errs & Hgen & Herrs).
  exists errs. split; [exact Hgen|]. rewrite Herrs. reflexivity.
Defined.

(** With a located table of four columns or more and without
    placeholders, the builder succeeds on the rows of a group exactly when
    their texts can be stored. *)
Lemma build_letter_bytes_ok `{PyLib} (template : Document) (table_index : option Z)
    (i : nat) (t : Table) (gdf : list NormRow) :
  find_target_table template table_index = Some i ->
  tables template !! i = Some t ->
  (4 <= columns t)%nat ->
  is_ok (build_letter_bytes template (_rows_from_group gdf) None table_index) = true <->
  forall x, In x gdf -> storable_row x.
Proof.
  intros Hi Ht Hc. unfold build_letter_bytes. rewrite Hi, Ht.
  transitivity (is_ok (fill_table (clear_table_keep_header t) (_rows_from_group gdf)) = true).
  { by destruct (fill_table _ _). }
  rewrite fill_table_ok. unfold _rows_from_group. split.
  - intros Hall x Hx. apply rows_from_group_values.
    apply (Hall _ (in_map _ _ _ Hx)).
  - intros Hall r (x & <- & Hx)%in_map_iff. split.
    + rewrite clear_table_rows. simpl. lia.
    + by apply rows_from_group_values, Hall.
Qed.

(** X23.  With a template whose located table has at least four columns
    and without placeholders, the rows decide: [errors] is empty exactly
    when every text of every row of the frame can be stored in a cell; the
    index then has one row per group with the number of its rows, and
    [outputs] a document under the file name of every group. *)
Theorem clean_rows_on_wide_table_never_fail `{PyLib} (work_df : WorkFrame)
    (template : Document) (group_field : string)
    (table_index : option Z) (newest_first : bool) (key : NormRow -> Value)
    (i : nat) (t : Table)
    (Hi : find_target_table template table_index = Some i)
    (Ht : tables template !! i = Some t)
    (Hc : (4 <= columns t)%nat)
    (Hfield : group_value work_df group_field = Some key) :
  exists outs errs idx,
    generate_letters_per_group work_df template group_field None table_index newest_first
    = inr (outs, errs, idx) /\
    (errs = ∅ <-> forall x, In x (work_rows work_df) -> storable_row x) /\
    (errs = ∅ ->
     Permutation idx
       (map summary_row (groupby key (sort_values (negb newest_first) (work_rows work_df)))) /\
     forall g, In g (groupby key (sort_values (negb newest_first) (work_rows work_df))) ->
               is_Some (outs !! group_file g)).
Proof.
  unfold generate_letters_per_group. rewrite Hfield.
  set (build := fun filas placeholders =>
                  build_letter_bytes template filas placeholders table_index).
  set (sorted := sort_values (negb newest_first) (work_rows work_df)).
  set (gs := groupby key sorted).
  set (st0 := {| outputs := ∅; errors := ∅; summary_rows := [] |}).
  assert (Hres : forall g, is_ok (group_result build None g) = true <->
                           forall x, In x (snd g) -> storable_row x).
  { intros g. unfold group_result, build. by apply (build_letter_bytes_ok template _ i t). }
  assert (Hrows : forall x, In x (work_rows work_df) <-> exists g, In g gs /\ In x (snd g)).
  { intros x. split.
    - intros Hx.
      apply (Permutation_in _ (sort_values_perm (negb newest_first) _)) in Hx.
      apply (Permutation_in _ (Permutation_sym (groupby_concat key _))) in Hx.
      apply in_concat in Hx as (l & (g & <- & Hg)%in_map_iff & Hx). eauto.
    - intros (g & Hg & Hx). rewrite (groupby_rows _ _ _ Hg) in Hx.
      apply filter_In in Hx as [Hx _].
      by apply (Permutation_in _ (Permutation_sym (sort_values_perm (negb newest_first) _))). }
  assert (Hempty : errors (batch_loop build None gs) = ∅ <->
                   forall g, In g gs -> is_ok (group_result build None g) = true).
  { unfold batch_loop. split.
    - intros He g Hg. destruct (is_ok (group_result build None g)) eqn:Hok; [done|].
      exfalso. revert He. apply batch_errors_nonempty. right. eauto.
    - intros Hall. destruct (batch_all_succeed build None gs st0 Hall) as (He & _).
      exact He. }
  eexists _, _, _. split; [reflexivity|]. split.
  - rewrite Hempty. split.
    + intros Hall x (g & Hg & Hx)%Hrows. by apply (proj1 (Hres g) (Hall g Hg)).
    + intros Hall g Hg. apply Hres. intros x Hx. apply Hall, Hrows. eauto.
  - intros He. pose proof (proj1 Hempty He) as Hall. unfold batch_loop.
    destruct (batch_all_succeed build None gs st0 Hall) as (_ & Hs & Ho).
    fold st0. rewrite Hs. cbn [summary_rows app]. split; [apply sort_by_perm|].
    intros g Hg. apply Ho. right. by apply in_map.
Qed.

(** X23 at work: the three rows of the scenario hold plain texts, so no
    group fails and the index lists the two groups. *)
Lemma clean_rows_on_wide_table_never_fail_witness :
  exists outs idx,
    @generate_letters_per_group ascii_lib {| grupo_col := false; work_rows := dated_rows |}
      letter_doc "ACTOR" None None true = inr (outs, ∅, idx) /\
    Permutation idx [("Ana", 2%nat); ("Luis", 1%nat)].
Proof.
  destruct (@clean_rows_on_wide_table_never_fail ascii_lib
              {| grupo_col := false; work_rows := dated_rows |} letter_doc "ACTOR"
              None true ACTOR 0%nat letter_table eq_refl eq_refl)
    as (outs & errs & idx & Hgen & Hiff & Hall).
  - simpl. lia.
  - reflexivity.
  - assert (Herrs : errs = ∅).
    { apply Hiff. intros x [<- | [<- | [<- | []]]]; repeat constructor; by eexists. }
    subst errs. exists outs, idx. split; [exact Hgen|]. by destruct (Hall eq_refl).
Defined.

(** ** Excel serial numbers *)


